(** * mcp-terminal: the routed tool-call loop

    A shallow embedding of the chat command of mcp-terminal
    ([src/utils/llmClient.ts], [src/utils/mcpConnection.ts] and the chat
    command's [startChatSession]) and the properties of its tool routing,
    its tool-call loop and its start-up and error paths.

    - JavaScript values are the JSON values the program handles, with
      [JSON.parse] and [JSON.stringify] written out; a thrown value is an
      [Error] with its message and an optional numeric code.
    - Everything outside the process (the model provider reached by
      [fetch], the MCP servers reached through the SDK client, the terminal,
      the configuration file) is an oracle over an abstract world state.
    - Asynchronous code is sequential ([await] on every call), so a function
      is a computation from a state to a result, or a thrown error, and a
      state; a state is the world and the trace of what the program has done
      to it so far (console lines, requests, tool invocations, prompts).
    - The chat loop runs for as long as the user goes on; it is given a
      bound on its number of rounds. *)

From Stdlib Require Import ZArith QArith Ascii String DecimalString.
From stdpp Require Import base option list strings gmap.

Local Open Scope Z_scope.
Set Warnings "-register-all".


(** ** JavaScript values *)

(** A JSON value. A number [JNum m e] denotes [m * 10^e]; integers are
    [JNum m 0]. Strings hold the UTF-8 bytes of the JavaScript string. An
    object lists its own properties in property order. *)
Inductive JSValue : Type :=
| JNull
| JBool (b : bool)
| JNum (m e : Z)
| JStr (s : string)
| JArr (vs : list JSValue)
| JObj (kvs : list (string * JSValue)).

(** A thrown value: an [Error] with its [message] and, for the protocol
    errors of the SDK, a numeric [code]. *)
Record JSError : Type := mkError { message : string; code : option Z }.

Definition Error (msg : string) : JSError := mkError msg None.

Definition dquote : ascii := "034"%char.

(** [quoted s] is [s] between two double quotes, with no escaping. *)
Definition quoted (s : string) : string :=
  String dquote (s +:+ String dquote EmptyString).

Definition Z_to_string (z : Z) : string := NilZero.string_of_int (Z.to_int z).

Definition ascii_lower (c : ascii) : ascii :=
  let n := N_of_ascii c in
  if ((65 <=? n) && (n <=? 90))%N then ascii_of_N (n + 32) else c.

Definition ascii_upper (c : ascii) : ascii :=
  let n := N_of_ascii c in
  if ((97 <=? n) && (n <=? 122))%N then ascii_of_N (n - 32) else c.

Fixpoint string_map (f : ascii -> ascii) (s : string) : string :=
  match s with
  | EmptyString => EmptyString
  | String c r => String (f c) (string_map f r)
  end.

(** [String.prototype.toLowerCase] and [toUpperCase], on the ASCII letters. *)
Definition toLowerCase : string -> string := string_map ascii_lower.
Definition toUpperCase : string -> string := string_map ascii_upper.

Fixpoint startsWith (p s : string) : bool :=
  match p, s with
  | EmptyString, _ => true
  | String a p', String b s' => Ascii.eqb a b && startsWith p' s'
  | String _ _, EmptyString => false
  end.

(** [String.prototype.includes]. *)
Fixpoint includes (s p : string) : bool :=
  startsWith p s ||
  match s with
  | EmptyString => false
  | String _ r => includes r p
  end.

(** [typeof v === "object"]: null, arrays and objects. *)
Definition typeof_object (v : JSValue) : bool :=
  match v with
  | JNull | JArr _ | JObj _ => true
  | _ => false
  end.

(** Truthiness of a value: [null], [false], zero and the empty string are
    falsy. *)
Definition truthy (v : JSValue) : bool :=
  match v with
  | JNull => false
  | JBool b => b
  | JNum m _ => negb (m =? 0)
  | JStr s => negb (String.eqb s "")
  | JArr _ | JObj _ => true
  end.

(** Truthiness of a possibly undefined string. *)
Definition truthy_str (o : option string) : bool :=
  match o with
  | Some s => negb (String.eqb s "")
  | None => false
  end.

(** [a || b] on a possibly undefined string. *)
Definition str_or (o : option string) (d : string) : string :=
  if truthy_str o then default d o else d.

(** ** JSON *)

Module JSON.

Fixpoint join (sep : string) (l : list string) : string :=
  match l with
  | [] => ""
  | [x] => x
  | x :: r => x +:+ sep +:+ join sep r
  end.

Definition hex_digit (n : N) : ascii :=
  if (n <? 10)%N then ascii_of_N (48 + n) else ascii_of_N (87 + n).

(** One code unit of a quoted string. *)
Definition escape_char (c : ascii) : string :=
  let n := N_of_ascii c in
  if (n =? 34)%N then String "\" (String dquote EmptyString)
  else if (n =? 92)%N then "\\"
  else if (n =? 8)%N then "\b"
  else if (n =? 12)%N then "\f"
  else if (n =? 10)%N then "\n"
  else if (n =? 13)%N then "\r"
  else if (n =? 9)%N then "\t"
  else if (n <? 32)%N then
    "\u00" +:+ String (hex_digit (n / 16)) (String (hex_digit (n mod 16)) EmptyString)
  else String c EmptyString.

Fixpoint escape (s : string) : string :=
  match s with
  | EmptyString => EmptyString
  | String c r => escape_char c +:+ escape r
  end.

Definition quote (s : string) : string := quoted (escape s).

(** Strip the trailing zeros of a mantissa: [m * 10^e] is unchanged. *)
Fixpoint normalize_num (fuel : nat) (m e : Z) : Z * Z :=
  match fuel with
  | O => (m, e)
  | S f =>
      if m =? 0 then (0, 0)
      else if m mod 10 =? 0 then normalize_num f (m / 10) (e + 1)
      else (m, e)
  end.

Fixpoint zeros (n : nat) : string :=
  match n with
  | O => EmptyString
  | S k => String "0" (zeros k)
  end.

Fixpoint string_take (n : nat) (s : string) : string :=
  match n, s with
  | S k, String c r => String c (string_take k r)
  | _, _ => EmptyString
  end.

Fixpoint string_drop (n : nat) (s : string) : string :=
  match n, s with
  | S k, String _ r => string_drop k r
  | _, _ => s
  end.

(** The decimal text of [m * 10^e]: an integer when it is one, fixed point
    otherwise. (JavaScript switches to exponent notation outside
    [1e-7 .. 1e21] and rounds to a double; the model prints the exact
    decimal.) *)
Definition number_to_string (m e : Z) : string :=
  let '(m, e) := normalize_num (Z.to_nat (Z.log2 (Z.abs m)) + 1) m e in
  if 0 <=? e then Z_to_string (m * 10 ^ e)
  else
    let ds := Z_to_string (Z.abs m) in
    let k := Z.to_nat (- e) in
    let l := String.length ds in
    (if m <? 0 then "-" else "") +:+
    (if (k <? l)%nat
     then string_take (l - k) ds +:+ "." +:+ string_drop (l - k) ds
     else "0." +:+ zeros (k - l) +:+ ds).

(** [JSON.stringify(v)] without indentation. *)
Fixpoint stringify (v : JSValue) : string :=
  match v with
  | JNull => "null"
  | JBool b => if b then "true" else "false"
  | JNum m e => number_to_string m e
  | JStr s => quote s
  | JArr vs => "[" +:+ join "," (List.map stringify vs) +:+ "]"
  | JObj kvs =>
      "{" +:+
      join "," (List.map (fun kv => let '(k, x) := kv in
                                    quote k +:+ ":" +:+ stringify x) kvs)
      +:+ "}"
  end.

(** [JSON.parse] *)

Definition is_ws (c : ascii) : bool :=
  let n := N_of_ascii c in
  ((n =? 32) || (n =? 9) || (n =? 10) || (n =? 13))%N.

Fixpoint skip_ws (s : string) : string :=
  match s with
  | String c r => if is_ws c then skip_ws r else s
  | EmptyString => s
  end.

Definition digit_val (c : ascii) : option Z :=
  let n := N_of_ascii c in
  if ((48 <=? n) && (n <=? 57))%N then Some (Z.of_N n - 48) else None.

Definition hex_val (c : ascii) : option N :=
  let n := N_of_ascii c in
  if ((48 <=? n) && (n <=? 57))%N then Some (n - 48)%N
  else if ((97 <=? n) && (n <=? 102))%N then Some (n - 87)%N
  else if ((65 <=? n) && (n <=? 70))%N then Some (n - 55)%N
  else None.

(** The longest run of digits at the head of [s]: its value appended to
    [acc], how many digits were read, and the rest. *)
Fixpoint digits (s : string) (acc : Z) (n : Z) : Z * Z * string :=
  match s with
  | String c r =>
      match digit_val c with
      | Some d => digits r (acc * 10 + d) (n + 1)
      | None => (acc, n, s)
      end
  | EmptyString => (acc, n, s)
  end.

(** A JSON number: an optional minus sign, an integer part without leading
    zeros, an optional fraction and an optional exponent. *)
Definition number (s : string) : option (JSValue * string) :=
  let '(neg, s1) :=
    match s with
    | String "-" r => (true, r)
    | _ => (false, s)
    end in
  let int_part :=
    match s1 with
    | String "0" r => Some (0, r)
    | String c _ =>
        match digit_val c with
        | Some _ => let '(v, _, r) := digits s1 0 0 in Some (v, r)
        | None => None
        end
    | EmptyString => None
    end in
  match int_part with
  | None => None
  | Some (i, s2) =>
      let frac_part :=
        match s2 with
        | String "." r =>
            let '(v, n, r') := digits r i 0 in
            if n =? 0 then None else Some (v, n, r')
        | _ => Some (i, 0, s2)
        end in
      match frac_part with
      | None => None
      | Some (m, fd, s3) =>
          let exp_part :=
            match s3 with
            | String c r =>
                if Ascii.eqb c "e" || Ascii.eqb c "E" then
                  let '(eneg, r1) :=
                    match r with
                    | String "-" r' => (true, r')
                    | String "+" r' => (false, r')
                    | _ => (false, r)
                    end in
                  let '(v, n, r2) := digits r1 0 0 in
                  if n =? 0 then None
                  else Some (if eneg : bool then - v else v, r2)
                else Some (0, s3)
            | EmptyString => Some (0, s3)
            end in
          match exp_part with
          | None => None
          | Some (ex, s4) =>
              let m' := if neg : bool then - m else m in
              let '(m'', e'') :=
                normalize_num (Z.to_nat (Z.log2 (Z.abs m')) + 1) m' (ex - fd) in
              Some (JNum m'' e'', s4)
          end
      end
  end.

Definition byte (n : N) : ascii := ascii_of_N n.

(** The UTF-8 bytes of a code point (a lone surrogate is encoded like any
    other three-byte code point). *)
Definition utf8 (cp : N) : string :=
  (if cp <? 128 then String (byte cp) EmptyString
   else if cp <? 2048 then
     String (byte (192 + cp / 64)) (String (byte (128 + cp mod 64)) EmptyString)
   else if cp <? 65536 then
     String (byte (224 + cp / 4096))
       (String (byte (128 + (cp / 64) mod 64))
          (String (byte (128 + cp mod 64)) EmptyString))
   else
     String (byte (240 + cp / 262144))
       (String (byte (128 + (cp / 4096) mod 64))
          (String (byte (128 + (cp / 64) mod 64))
             (String (byte (128 + cp mod 64)) EmptyString))))%N.

Definition hex4 (a b c d : ascii) : option N :=
  match hex_val a, hex_val b, hex_val c, hex_val d with
  | Some x, Some y, Some z, Some w => Some (((x * 16 + y) * 16 + z) * 16 + w)%N
  | _, _, _, _ => None
  end.

Definition is_high (u : N) : bool := ((55296 <=? u) && (u <=? 56319))%N.
Definition is_low (u : N) : bool := ((56320 <=? u) && (u <=? 57343))%N.

(** The characters of a string literal after its opening quote, up to and
    including the closing quote. *)
Fixpoint string_body (s : string) : option (string * string) :=
  let cons (p : string) (r : option (string * string)) :=
    match r with
    | Some (t, rest) => Some (p +:+ t, rest)
    | None => None
    end in
  match s with
  | EmptyString => None
  | String c r =>
      if Ascii.eqb c dquote then Some (EmptyString, r)
      else if Ascii.eqb c "\" then
        match r with
        | String "u" (String a (String b (String x (String y r')))) =>
            match hex4 a b x y with
            | None => None
            | Some u =>
                match r' with
                | String "\" (String "u" (String a2 (String b2 (String x2 (String y2 r''))))) =>
                    match hex4 a2 b2 x2 y2 with
                    | Some u2 =>
                        if is_high u && is_low u2
                        then cons (utf8 (65536 + (u - 55296) * 1024 + (u2 - 56320))%N)
                                  (string_body r'')
                        else cons (utf8 u) (string_body r')
                    | None => cons (utf8 u) (string_body r')
                    end
                | _ => cons (utf8 u) (string_body r')
                end
            end
        | String e r' =>
            let n := N_of_ascii e in
            let out (k : N) := cons (String (byte k) EmptyString) (string_body r') in
            (if n =? 34 then out 34
             else if n =? 92 then out 92
             else if n =? 47 then out 47
             else if n =? 98 then out 8
             else if n =? 102 then out 12
             else if n =? 110 then out 10
             else if n =? 114 then out 13
             else if n =? 116 then out 9
             else None)%N
        | EmptyString => None
        end
      else if (N_of_ascii c <? 32)%N then None
      else cons (String c EmptyString) (string_body r)
  end.

(** A canonical array index: the decimal text of an integer below
    [2^32 - 1], which orders before the other keys of an object. *)
Definition array_index (k : string) : option Z :=
  match k with
  | String "0" EmptyString => Some 0
  | String "0" _ => None
  | String _ _ =>
      let '(v, _, r) := digits k 0 0 in
      match r with
      | EmptyString => if v <? 4294967295 then Some v else None
      | _ => None
      end
  | EmptyString => None
  end.

Fixpoint has_key (k : string) (o : list (string * JSValue)) : bool :=
  match o with
  | [] => false
  | (k', _) :: r => String.eqb k k' || has_key k r
  end.

Fixpoint replace_key (k : string) (v : JSValue) (o : list (string * JSValue)) :=
  match o with
  | [] => []
  | (k', v') :: r =>
      if String.eqb k k' then (k, v) :: r else (k', v') :: replace_key k v r
  end.

Fixpoint insert_index (n : Z) (k : string) (v : JSValue)
    (o : list (string * JSValue)) :=
  match o with
  | [] => [(k, v)]
  | (k', v') :: r =>
      match array_index k' with
      | Some n' =>
          if n <? n' then (k, v) :: o else (k', v') :: insert_index n k v r
      | None => (k, v) :: o
      end
  end.

(** Define the own property [k] of an object under construction: an
    existing key keeps its place, an array index goes among the indices in
    ascending order, any other key goes last. *)
Definition define_property (k : string) (v : JSValue)
    (o : list (string * JSValue)) : list (string * JSValue) :=
  if has_key k o then replace_key k v o
  else match array_index k with
       | Some n => insert_index n k v o
       | None => o ++ [(k, v)]
       end.

(** A value, the elements of an array after its first, and the members of
    an object after its first. Every call consumes fuel; a text of [n]
    bytes is parsed with [2 * n + 2]. *)
Fixpoint value (fuel : nat) (s : string) : option (JSValue * string) :=
  match fuel with
  | O => None
  | S f =>
      match skip_ws s with
      | EmptyString => None
      | String c r as s' =>
          if Ascii.eqb c dquote then
            match string_body r with
            | Some (t, rest) => Some (JStr t, rest)
            | None => None
            end
          else if Ascii.eqb c "[" then
            match skip_ws r with
            | String "]" rest => Some (JArr [], rest)
            | _ =>
                match value f r with
                | Some (v, rest) => elements f rest [v]
                | None => None
                end
            end
          else if Ascii.eqb c "{" then
            match skip_ws r with
            | String "}" rest => Some (JObj [], rest)
            | r' => members f r' []
            end
          else if startsWith "true" s' then Some (JBool true, JSON.string_drop 4 s')
          else if startsWith "false" s' then Some (JBool false, JSON.string_drop 5 s')
          else if startsWith "null" s' then Some (JNull, JSON.string_drop 4 s')
          else number s'
      end
  end
with elements (fuel : nat) (s : string) (acc : list JSValue)
    : option (JSValue * string) :=
  match fuel with
  | O => None
  | S f =>
      match skip_ws s with
      | String "]" rest => Some (JArr acc, rest)
      | String "," rest =>
          match value f rest with
          | Some (v, rest') => elements f rest' (acc ++ [v])
          | None => None
          end
      | _ => None
      end
  end
with members (fuel : nat) (s : string) (acc : list (string * JSValue))
    : option (JSValue * string) :=
  match fuel with
  | O => None
  | S f =>
      match skip_ws s with
      | String c r =>
          if Ascii.eqb c dquote then
            match string_body r with
            | Some (k, rest) =>
                match skip_ws rest with
                | String ":" rest' =>
                    match value f rest' with
                    | Some (v, rest'') =>
                        let acc' := define_property k v acc in
                        match skip_ws rest'' with
                        | String "}" out => Some (JObj acc', out)
                        | String "," more => members f more acc'
                        | _ => None
                        end
                    | None => None
                    end
                | _ => None
                end
            | None => None
            end
          else None
      | EmptyString => None
      end
  end.

(** [JSON.parse(text)]: [None] when it throws a [SyntaxError]. *)
Definition parse (text : string) : option JSValue :=
  match value (2 * String.length text + 2) text with
  | Some (v, rest) =>
      match skip_ws rest with
      | EmptyString => Some v
      | _ => None
      end
  | None => None
  end.

End JSON.

(** [String(v)], also the text of [v] inside a template literal, for the
    primitive values. *)
Definition String_of (v : JSValue) : string :=
  match v with
  | JStr s => s
  | JNull => "null"
  | JBool b => if b then "true" else "false"
  | JNum m e => JSON.number_to_string m e
  | JArr _ | JObj _ => "[object Object]"
  end.


Definition nl : string := String "010"%char EmptyString.

Definition nat_to_string (n : nat) : string := Z_to_string (Z.of_nat n).

(** The engine's errors; their message texts are the engine's own. *)
Definition SyntaxError : JSError := Error "Unexpected token in JSON".
Definition TypeError : JSError := Error "Cannot read properties of undefined".

(** ** Data of the program *)

(** [McpTool]: a tool as a server lists it, and with [serverName] once the
    chat command has tagged it with its server. *)
Record McpTool : Type := mkTool {
  tool_name : string;
  tool_description : option string;
  tool_parameters : option JSValue;
  tool_serverName : option string
}.

(** A tool as the SDK returns it in [response.tools]. *)
Record SdkTool : Type := mkSdkTool {
  sdk_name : string;
  sdk_description : option string;
  sdk_inputSchema : option JSValue;
  sdk_parameters : option JSValue
}.

Record Resource : Type := mkResource { res_uri : string; res_name : string }.

(** [ConversationMessage.content]: [string | any[]]. *)
Inductive Content : Type :=
| CString (s : string)
| CArray (vs : list JSValue).

Record ConversationMessage : Type := mkMessage {
  msg_role : string;
  msg_content : Content
}.

(** One entry of [tool_calls] in a model response. *)
Record ToolCall : Type := mkToolCall {
  call_id : string;
  call_type : string;
  call_name : string;       (* function.name *)
  call_arguments : string   (* function.arguments *)
}.

Inductive Role : Type := system | user | assistant.

(** [OpenAIMessage]: a chat message, or a tool result referring to a call. *)
Inductive OpenAIMessage : Type :=
| ChatMessage (role : Role) (content : option string)
    (tool_calls : option (list ToolCall))
| ToolMessage (tool_call_id : string) (content : string).

Record ChoiceMessage : Type := mkChoiceMessage {
  cm_content : option string;
  cm_role : string;
  cm_tool_calls : option (list ToolCall)
}.

Record OpenAIResponseChoice : Type := mkChoice {
  choice_message : option ChoiceMessage;
  choice_finish_reason : string;
  choice_index : Z
}.

Record OpenAIResponse : Type := mkResponse {
  choices : option (list OpenAIResponseChoice)
}.

(** A function declaration of the request's [tools]. *)
Record FunctionTool : Type := mkFunctionTool {
  fn_name : string;
  fn_description : string;
  fn_parameters : JSValue
}.

(** The request body, before [JSON.stringify]. *)
Record RequestBody : Type := mkBody {
  body_model : string;
  body_messages : list OpenAIMessage;
  body_temperature : Q;
  body_tools : option (list FunctionTool)
}.

(** A [fetch] call: always a POST with a JSON body and a bearer token. *)
Record Request : Type := mkRequest {
  req_url : string;
  req_authorization : string;
  req_body : RequestBody
}.

Inductive Result (A : Type) : Type :=
| Returns (a : A)
| Throws (e : JSError).
Arguments Returns {A} a.
Arguments Throws {A} e.

(** What [fetch] resolves to, with what [text()] and [json()] give. *)
Record Response : Type := mkFetchResponse {
  resp_ok : bool;
  resp_status : Z;
  resp_statusText : string;
  resp_text : Result string;
  resp_json : Result OpenAIResponse
}.

Record ServerConfig : Type := mkServerConfig {
  cfg_command : string;
  cfg_args : option (list string);
  cfg_url : option string;
  cfg_env : option (list (string * string))
}.

(** What [loadMcpConfig] returns: the parsed configuration file, which the
    user edits by hand and which is not checked. [mcpServers] is [None]
    when the file holds no object with such a member, or holds null there:
    reading the servers then fails with a [TypeError], which the model
    raises where the undefined member is used. When the member is there, it
    is an object with entries as [ServerConfig] declares, listed in key
    order. *)
Record McpConfig : Type := mkConfig {
  mcpServers : option (list (string * ServerConfig))
}.

Inductive Transport : Type :=
| StdioClientTransport (command : string) (args : list string)
    (env : list (string * string))
| SSEClientTransport (url : string).

(** [process.env] and the two [.env] files [checkOpenAIKey] reads ([None]:
    the file does not exist or cannot be read). *)
Record Process : Type := mkProcess {
  LLM_PROVIDER : option string;
  OPENAI_API_KEY : option string;
  DEEPSEEK_API_KEY : option string;
  cwd_dotenv : option string;
  home_dotenv : option string
}.

(** What the program does to its surroundings, in order. Colours are left
    out of the console texts. *)
Inductive Event : Type :=
| ConsoleLog (text : string)
| ConsoleLogValue (text : string) (v : JSValue)
| ConsoleError (text : string) (e : option JSError)
| Fetch (req : Request)
| Question (prompt : string)
| RlClose
| Connect (server : string) (t : Transport)
| ListResources (server : string)
| ListTools (server : string)
| CallTool (server : string) (name : string) (args : JSValue)
| Close (server : string)
| Kill (server : string).

(** ** Effects *)

Section Program.

(** The state of everything outside the process. *)
Context {World : Type}.

(** The SDK's [Client]: the answers of one server. *)
Record Client : Type := mkClient {
  client_listResources : World -> Result (list Resource) * World;
  client_listTools : World -> Result (list SdkTool) * World;
  client_callTool : string -> JSValue -> World -> Result JSValue * World;
  client_close : World -> Result unit * World
}.

Record McpConnection : Type := mkConnection {
  client : option Client;
  childProcess : bool;
  serverName : string
}.

(** [fetch] to the model provider. *)
Variable fetch : Request -> World -> Result Response * World.
(** [rl.question]: the line the user types. *)
Variable question : string -> World -> string * World.
(** [configManager.loadMcpConfig]: the configuration file as it is now. *)
Variable loadMcpConfig : World -> McpConfig.
(** [new URL(url)] fails on a malformed address. *)
Variable new_URL : string -> Result string.
(** [new Client(...)] for a server over a transport, and its [connect]. *)
Variable new_Client : string -> Transport -> Client.
Variable client_connect : string -> Transport -> World -> Result unit * World.
Variable proc : Process.

Record State : Type := mkState { world : World; trace : list Event }.

(** A computation: from a state to a value or a thrown error, and the state
    it leaves. *)
Definition M (A : Type) : Type := State -> Result A * State.

Definition ret {A} (a : A) : M A := fun s => (Returns a, s).

Definition throw {A} (e : JSError) : M A := fun s => (Throws e, s).

Definition bind {A B} (m : M A) (k : A -> M B) : M B :=
  fun s =>
    match m s with
    | (Returns a, s') => k a s'
    | (Throws e, s') => (Throws e, s')
    end.

(** [try { m } catch (e) { h e }]. *)
Definition try_catch {A} (m : M A) (h : JSError -> M A) : M A :=
  fun s =>
    match m s with
    | (Returns a, s') => (Returns a, s')
    | (Throws e, s') => h e s'
    end.

Definition emit (ev : Event) : M unit :=
  fun s => (Returns tt, mkState (world s) (trace s ++ [ev])).

(** An awaited call to the outside. *)
Definition await {A} (f : World -> Result A * World) : M A :=
  fun s => let '(r, w) := f (world s) in (r, mkState w (trace s)).

Definition lift {A} (r : Result A) : M A := fun s => (r, s).

#[global] Instance M_ret : MRet M := @ret.
#[global] Instance M_bind : MBind M := fun A B k m => bind m k.

(** [for (const x of l) body], threading the variables the body updates. *)
Fixpoint for_of {A S} (l : list A) (body : A -> S -> M S) (vars : S) : M S :=
  match l with
  | [] => ret vars
  | x :: r => vars' ← body x vars; for_of r body vars'
  end.

(** ** [McpConnection] ([src/utils/mcpConnection.ts]) *)

(** [configManager.getServers]: [loadMcpConfig().mcpServers], undefined when
    the file has none. *)
Definition getServers (w : World) : option (list (string * ServerConfig)) :=
  mcpServers (loadMcpConfig w).

(** [Object.keys(servers)]: a [TypeError] on undefined. (The texts of the
    two [TypeError]s below are the engine's.) *)
Definition Object_keys {V} (servers : option (list (string * V)))
    : Result (list string) :=
  match servers with
  | Some l => Returns (List.map fst l)
  | None => Throws (Error "Cannot convert undefined or null to object")
  end.

Fixpoint assoc {V} (k : string) (l : list (string * V)) : option V :=
  match l with
  | [] => None
  | (k', v) :: r => if String.eqb k k' then Some v else assoc k r
  end.

(** The members that every object inherits from [Object.prototype]. *)
Definition Object_prototype : list string :=
  ["constructor"; "__defineGetter__"; "__defineSetter__"; "hasOwnProperty";
   "__lookupGetter__"; "__lookupSetter__"; "isPrototypeOf";
   "propertyIsEnumerable"; "toString"; "valueOf"; "__proto__";
   "toLocaleString"].

(** What the program sees of an inherited member (a function, or the
    prototype itself): a truthy value with no [command], [args], [url] or
    [env]. *)
Definition inherited : ServerConfig := mkServerConfig "" None None None.

(** [servers[name]]: the own property of that name, else the inherited
    one, else undefined. *)
Definition member (name : string) (servers : list (string * ServerConfig))
    : option ServerConfig :=
  match assoc name servers with
  | Some serverConfig => Some serverConfig
  | None =>
      if existsb (String.eqb name) Object_prototype then Some inherited
      else None
  end.

(** [configManager.getServer]: [loadMcpConfig().mcpServers[name]], a
    [TypeError] when the file has no [mcpServers]. *)
Definition getServer (w : World) (name : string)
    : Result (option ServerConfig) :=
  match getServers w with
  | Some servers => Returns (member name servers)
  | None =>
      Throws (Error ("Cannot read properties of undefined (reading '" +:+
                     name +:+ "')"))
  end.

(** [configManager.getFirstServer]: the first key and its entry. *)
Definition getFirstServer (w : World)
    : Result (option (string * ServerConfig)) :=
  match Object_keys (getServers w) with
  | Throws error => Throws error
  | Returns _ => Returns (getServers w ≫= head)
  end.

Definition method_not_found (e : JSError) : bool :=
  match code e with
  | Some c => c =? -32601
  | None => false
  end.

Definition connect (c : McpConnection) : M (bool * string * McpConnection) :=
  fun s =>
  match getServer (world s) (serverName c) with
  | Throws error => throw error s
  | Returns None =>
      ret (false,
           "Server " +:+ quoted (serverName c) +:+ " not found in configuration",
           c) s
  | Returns (Some serverConfig) =>
      let name := serverName c in
      let failed (c' : McpConnection) (error : JSError) :=
        ret (false, "Failed to connect to " +:+ name +:+ ": " +:+ message error, c') in
      if negb (String.eqb (cfg_command serverConfig) "")
         && negb (truthy_str (cfg_url serverConfig)) then
        let transport :=
          StdioClientTransport (cfg_command serverConfig)
            (default [] (cfg_args serverConfig))
            (default [] (cfg_env serverConfig)) in
        let c1 := mkConnection (Some (new_Client name transport))
                    (childProcess c) name in
        try_catch
          (emit (Connect name transport) ;;
           await (client_connect name transport) ;;
           ret (true, "Connected to " +:+ name +:+ " via stdio",
                mkConnection (client c1) true name))
          (failed c1) s
      else if truthy_str (cfg_url serverConfig) then
        match new_URL (default "" (cfg_url serverConfig)) with
        | Throws error => failed c error s
        | Returns url =>
            let transport := SSEClientTransport url in
            let c1 := mkConnection (Some (new_Client name transport))
                        (childProcess c) name in
            try_catch
              (emit (Connect name transport) ;;
               await (client_connect name transport) ;;
               ret (true, "Connected to " +:+ name +:+ " via SSE", c1))
              (failed c1) s
        end
      else
        ret (false,
             "Server configuration for " +:+ name +:+
             " is missing required parameters", c) s
  end.

Definition getServerName (c : McpConnection) : string := serverName c.

Definition disconnect (c : McpConnection) : M McpConnection :=
  c1 ← match client c with
        | Some cl =>
            emit (Close (serverName c)) ;;
            await (client_close cl) ;;
            ret (mkConnection None (childProcess c) (serverName c))
        | None => ret c
        end;
  if childProcess c1
  then emit (Kill (serverName c1)) ;;
       ret (mkConnection (client c1) false (serverName c1))
  else ret c1.

Definition listResources (c : McpConnection) : M (option (list Resource)) :=
  match client c with
  | None => ret None
  | Some cl =>
      try_catch
        (emit (ListResources (serverName c)) ;;
         resources ← await (client_listResources cl);
         ret (Some resources))
        (fun error =>
           if method_not_found error then ret None
           else emit (ConsoleError "Error listing resources:" (Some error)) ;;
                ret None)
  end.

Definition default_parameters : JSValue :=
  JObj [("type", JStr "object"); ("properties", JObj [])].

Definition truthy_opt (o : option JSValue) : bool :=
  match o with
  | Some v => truthy v
  | None => false
  end.

(** The [toolData] built from one entry of [response.tools]. *)
Definition toolData (tool : SdkTool) : McpTool :=
  mkTool (sdk_name tool)
    (Some (str_or (sdk_description tool) ""))
    (if truthy_opt (sdk_inputSchema tool) then sdk_inputSchema tool
     else if truthy_opt (sdk_parameters tool) then sdk_parameters tool
     else Some default_parameters)
    None.

Definition listTools (c : McpConnection) : M (option (list McpTool)) :=
  match client c with
  | None => ret None
  | Some cl =>
      try_catch
        (emit (ListTools (serverName c)) ;;
         tools ← await (client_listTools cl);
         ret (Some (List.map toolData tools)))
        (fun error =>
           if method_not_found error then ret None
           else emit (ConsoleError "Error listing tools:" (Some error)) ;;
                ret None)
  end.

Definition callTool (c : McpConnection) (toolName : string) (args : JSValue)
    : M JSValue :=
  match client c with
  | None => throw (Error "MCP client is not connected")
  | Some cl =>
      try_catch
        (emit (ConsoleLogValue ("Calling MCP tool " +:+ toolName +:+ " with args:") args) ;;
         emit (CallTool (serverName c) toolName args) ;;
         await (client_callTool cl toolName args))
        (fun error =>
           emit (ConsoleError ("Error calling tool " +:+ toolName +:+ ":") (Some error)) ;;
           if method_not_found error
           then throw (Error ("Tool " +:+ toolName +:+ " not found on server " +:+
                              serverName c))
           else throw error)
  end.

(** [connectToAllServers]: one connection attempt per configured server, in
    key order; the failed ones are left out. *)
Definition connectToAllServers : M (list McpConnection) :=
  fun s =>
  (serverNames ← lift (Object_keys (getServers (world s)));
   if (length serverNames =? 0)%nat then
     emit (ConsoleError "No servers configured." None) ;;
     emit (ConsoleError ("Run " +:+ quoted "mcp-terminal configure" +:+ " to set up servers.") None) ;;
     ret []
   else
     emit (ConsoleLog ("Starting " +:+ nat_to_string (length serverNames) +:+ " servers...")) ;;
     for_of serverNames
       (fun serverName connections =>
          emit (ConsoleLog ("Connecting to server: " +:+ serverName)) ;;
          '(success, msg, connection) ← connect (mkConnection None false serverName);
          if success : bool
          then emit (ConsoleLog msg) ;; ret (connections ++ [connection])
          else emit (ConsoleError msg None) ;; ret connections)
       []) s.

(** ** [callLLM] ([src/utils/llmClient.ts]) *)

Definition formatRole (role : string) : Role :=
  if String.eqb role "system" then system
  else if String.eqb role "user" then user
  else if String.eqb role "assistant" then assistant
  else user.

Definition formatContent (content : Content) : string :=
  match content with
  | CString s => s
  | CArray vs => JSON.stringify (JArr vs)
  end.

(** One entry of [formattedMessages]. *)
Definition formatMessage (msg : ConversationMessage) : OpenAIMessage :=
  ChatMessage (formatRole (msg_role msg))
    (Some (formatContent (msg_content msg))) None.

(** One entry of [requestBody.tools]. *)
Definition formatTool (tool : McpTool) : FunctionTool :=
  mkFunctionTool (tool_name tool)
    (str_or (tool_description tool) ("Call the " +:+ tool_name tool +:+ " tool"))
    (if truthy_opt (tool_parameters tool)
     then default default_parameters (tool_parameters tool)
     else default_parameters).

Definition temperature : Q := 7 # 10.

(** [jsonResponse.choices?.[0]?.message?.tool_calls]. *)
Definition response_tool_calls (r : OpenAIResponse) : option (list ToolCall) :=
  match choices r with
  | Some (c :: _) =>
      match choice_message c with
      | Some m => cm_tool_calls m
      | None => None
      end
  | _ => None
  end.

(** [jsonResponse.choices[0].message.content || ""]. *)
Definition response_content (r : OpenAIResponse) : Result string :=
  match choices r with
  | Some (c :: _) =>
      match choice_message c with
      | Some m => Returns (str_or (cm_content m) "")
      | None => Throws TypeError
      end
  | _ => Throws TypeError
  end.

Definition api_error (provider : string) (response : Response)
    (errorText : string) : JSError :=
  Error (toUpperCase provider +:+ " API error: " +:+
         Z_to_string (resp_status response) +:+ " " +:+
         resp_statusText response +:+ " - " +:+ errorText).

(** The first [try] of the loop body: the arguments of the call, or the
    placeholder when they do not parse. *)
Definition parseArguments (toolCall : ToolCall) : M JSValue :=
  match JSON.parse (call_arguments toolCall) with
  | Some toolArgs => ret toolArgs
  | None =>
      emit (ConsoleError "Error parsing tool arguments:" (Some SyntaxError)) ;;
      ret (JObj [("_error", JStr "Failed to parse arguments")])
  end.

(** The text of a tool result in a message and in the summary. *)
Definition resultText (toolResult : JSValue) : string :=
  if typeof_object toolResult then JSON.stringify toolResult
  else String_of toolResult.

(** The second [try] of the loop body: find the tool, its server and the
    connection, call the tool and push its result. *)
Definition tryToolCall (mcpTools : list McpTool)
    (mcpConnections : list McpConnection) (toolCall : ToolCall)
    (toolArgs : JSValue) (vars : list OpenAIMessage * string)
    : M (list OpenAIMessage * string) :=
  let '(updatedMessages, result) := vars in
  let toolName := call_name toolCall in
  match List.find (fun t => String.eqb (tool_name t) toolName) mcpTools with
  | None => throw (Error ("Tool " +:+ toolName +:+ " not found"))
  | Some tool =>
      if negb (truthy_str (tool_serverName tool)) then
        throw (Error ("No server name found for tool " +:+ toolName))
      else
        let serverName := default "" (tool_serverName tool) in
        match List.find (fun c => String.eqb (getServerName c) serverName)
                mcpConnections with
        | None => throw (Error ("No connection found for server " +:+ serverName))
        | Some connection =>
            emit (ConsoleLog ("Calling tool " +:+ toolName +:+ " on server " +:+
                              serverName)) ;;
            toolResult ← callTool connection toolName toolArgs;
            ret (updatedMessages ++
                   [ToolMessage (call_id toolCall) (resultText toolResult)],
                 result +:+ "- Used " +:+ toolName +:+ " on server " +:+
                 serverName +:+ nl +:+ "  Result: " +:+ resultText toolResult +:+
                 nl +:+ nl)
        end
  end.

(** The [catch] of the second [try]: the error becomes the call's result. *)
Definition toolCallFailed (toolCall : ToolCall)
    (vars : list OpenAIMessage * string) (error : JSError)
    : M (list OpenAIMessage * string) :=
  let '(updatedMessages, result) := vars in
  emit (ConsoleError "Error with MCP tool call:" (Some error)) ;;
  ret (updatedMessages ++
         [ToolMessage (call_id toolCall)
            (JSON.stringify (JObj [("error", JStr (message error))]))],
       result +:+ "- Error using " +:+ call_name toolCall +:+ ": " +:+
       message error +:+ nl).

(** The body of [for (const toolCall of toolCalls)]. *)
Definition handleToolCall (mcpTools : list McpTool)
    (mcpConnections : list McpConnection) (toolCall : ToolCall)
    (vars : list OpenAIMessage * string) : M (list OpenAIMessage * string) :=
  toolArgs ← parseArguments toolCall;
  try_catch (tryToolCall mcpTools mcpConnections toolCall toolArgs vars)
            (toolCallFailed toolCall vars).

Definition post (apiUrl apiKey : string) (body : RequestBody) : M Response :=
  let req := mkRequest apiUrl ("Bearer " +:+ apiKey) body in
  emit (Fetch req) ;; await (fetch req).

(** The provider, its key and its model, from the environment. *)
Definition provider : string := str_or (LLM_PROVIDER proc) "openai".

Definition apiKey : option string :=
  if String.eqb provider "deepseek" then DEEPSEEK_API_KEY proc
  else OPENAI_API_KEY proc.

Definition llmModel : string :=
  if String.eqb provider "deepseek" then "deepseek-chat" else "gpt-4o".

Definition apiUrl : string :=
  if String.eqb provider "deepseek"
  then "https://api.deepseek.com/v1/chat/completions"
  else "https://api.openai.com/v1/chat/completions".

Definition toolsIntro : string :=
  "I need to use some tools to help answer that:" +:+ nl +:+ nl.

(** The follow-up request with the tool results, and the answer of the
    turn. *)
Definition finalAnswer (apiKey : string) (updatedMessages : list OpenAIMessage)
    (result : string) : M string :=
  finalResponse ←
    post apiUrl apiKey (mkBody llmModel updatedMessages temperature None);
  if negb (resp_ok finalResponse) then
    errorText ← lift (resp_text finalResponse);
    throw (api_error provider finalResponse errorText)
  else
    finalJsonResponse ← lift (resp_json finalResponse);
    content ← lift (response_content finalJsonResponse);
    ret ("Tools used:" +:+ nl +:+ result +:+ nl +:+ content).

(** The outer [catch]: log and rethrow. *)
Definition rethrow {A} (error : JSError) : M A :=
  emit (ConsoleError "Error in callLLM:" (Some error)) ;;
  throw error.

Definition callLLM (history : list ConversationMessage)
    (mcpTools : list McpTool) (mcpConnections : list McpConnection)
    : M string :=
  try_catch
    (if negb (truthy_str apiKey) then
       throw (Error (toUpperCase provider +:+
                     "_API_KEY environment variable is not set"))
     else
       let apiKey := default "" apiKey in
       let formattedMessages := List.map formatMessage history in
       let requestBody :=
         mkBody llmModel formattedMessages temperature
           (if (0 <? length mcpTools)%nat
            then Some (List.map formatTool mcpTools) else None) in
       response ← post apiUrl apiKey requestBody;
       if negb (resp_ok response) then
         errorText ← lift (resp_text response);
         throw (api_error provider response errorText)
       else
         jsonResponse ← lift (resp_json response);
         match response_tool_calls jsonResponse with
         | Some ((_ :: _) as toolCalls) =>
             let result := toolsIntro in
             let updatedMessages :=
               formattedMessages ++ [ChatMessage assistant None (Some toolCalls)] in
             '(updatedMessages, result) ←
               for_of toolCalls (handleToolCall mcpTools mcpConnections)
                 (updatedMessages, result);
             finalAnswer apiKey updatedMessages result
         | _ => lift (response_content jsonResponse)
         end)
    rethrow.

(** ** The chat command ([startChatSession]) *)

Definition dotenv_has_key (file : option string) : bool :=
  match file with
  | Some envContent =>
      includes envContent "OPENAI_API_KEY=" &&
      negb (includes envContent "OPENAI_API_KEY=your_")
  | None => false
  end.

Definition checkOpenAIKey : bool :=
  truthy_str (OPENAI_API_KEY proc)
  || dotenv_has_key (cwd_dotenv proc)
  || dotenv_has_key (home_dotenv proc).

(** The body of [for (const connection of connections)]: the tools of one
    server, tagged with its name, join [allTools], and [toolToServerMap]
    records the server of each tool name. *)
Definition fetchTools (connection : McpConnection)
    (vars : list McpTool * gmap string string)
    : M (list McpTool * gmap string string) :=
  let '(allTools, toolToServerMap) := vars in
  let serverName := getServerName connection in
  emit (ConsoleLog ("Fetching tools from server: " +:+ serverName)) ;;
  serverTools ← listTools connection;
  match serverTools with
  | Some ((_ :: _) as serverTools) =>
      let toolToServerMap :=
        foldl (fun m tool => <[tool_name tool := serverName]> m)
              toolToServerMap serverTools in
      let mappedTools :=
        List.map (fun tool => mkTool (tool_name tool) (tool_description tool)
                                (tool_parameters tool) (Some serverName))
                 serverTools in
      emit (ConsoleLog ("Found " +:+ nat_to_string (length mappedTools) +:+
                        " tools on server " +:+ serverName)) ;;
      ret (allTools ++ mappedTools, toolToServerMap)
  | _ =>
      emit (ConsoleLog ("No tools found on server " +:+ serverName)) ;;
      ret vars
  end.

Definition errorMessage : string :=
  "I'm sorry, I encountered an error processing your request. Please try again.".

Definition isExit (userInput : string) : bool :=
  String.eqb (toLowerCase userInput) "exit"
  || String.eqb (toLowerCase userInput) "quit".

(** One round of [while (chatActive)]: the new [chatActive] and history. *)
Definition chatTurn (allTools : list McpTool)
    (connections : list McpConnection) (history : list ConversationMessage)
    : M (bool * list ConversationMessage) :=
  emit (Question "You: ") ;;
  userInput ← await (fun w => let '(line, w') := question "You: " w in
                              (Returns line, w'));
  if isExit userInput then ret (false, history)
  else
    let history := history ++ [mkMessage "user" (CString userInput)] in
    try_catch
      (emit (ConsoleLog "AI is thinking...") ;;
       response ← callLLM history allTools connections;
       emit (ConsoleLog ("AI: " +:+ response)) ;;
       ret (true, history ++ [mkMessage "assistant" (CString response)]))
      (fun error =>
         emit (ConsoleError "Error calling LLM:" (Some error)) ;;
         emit (ConsoleLog ("AI: " +:+ errorMessage)) ;;
         ret (true, history ++ [mkMessage "assistant" (CString errorMessage)])).

(** [while (chatActive)], for at most [fuel] rounds: the history when the
    user has left, [None] when the loop is still running. *)
Fixpoint chatLoop (fuel : nat) (allTools : list McpTool)
    (connections : list McpConnection) (history : list ConversationMessage)
    : M (option (list ConversationMessage)) :=
  match fuel with
  | O => ret None
  | S fuel' =>
      '(chatActive, history') ← chatTurn allTools connections history;
      if chatActive : bool
      then chatLoop fuel' allTools connections history'
      else ret (Some history')
  end.

Definition systemMessage : ConversationMessage :=
  mkMessage "system"
    (CString "You're an AI assistant powered by MCP. You can help with various tasks using MCP tools.").

Definition noServersMessage : string :=
  "No MCP servers could be connected. Please check your configuration.".

(** [startChatSession], with at most [fuel] rounds of the chat loop:
    [Some tt] when it has returned. *)
Definition startChatSession (fuel : nat) : M (option unit) :=
  emit (ConsoleLog "Starting chat session with LLM...") ;;
  emit (ConsoleLog ("Type 'exit' or 'quit' to end the session." +:+ nl)) ;;
  if negb checkOpenAIKey then
    emit (ConsoleLog "OpenAI API key not found. Please set the OPENAI_API_KEY environment variable.") ;;
    emit (ConsoleLog ("You can create a .env file in the current directory or in your home directory with:" +:+ nl +:+ "OPENAI_API_KEY=your_api_key")) ;;
    emit RlClose ;;
    ret (Some tt)
  else
    let history := [systemMessage] in
    emit (ConsoleLog "Connecting to all available MCP servers...") ;;
    connections ← connectToAllServers;
    if (length connections =? 0)%nat then
      emit (ConsoleLog noServersMessage) ;;
      emit RlClose ;;
      ret (Some tt)
    else
      emit (ConsoleLog ("Connected to " +:+ nat_to_string (length connections) +:+
                        " MCP servers")) ;;
      '(allTools, toolToServerMap) ← for_of connections fetchTools ([], ∅);
      (if (0 <? length allTools)%nat
       then emit (ConsoleLog ("Total tools available: " +:+
                              nat_to_string (length allTools)))
       else emit (ConsoleLog "No tools found on any server")) ;;
      emit (ConsoleLog "") ;;
      ended ← chatLoop fuel allTools connections history;
      match ended with
      | None => ret None
      | Some _ =>
          emit (ConsoleLog "Disconnecting from all MCP servers...") ;;
          for_of connections (fun connection (_ : unit) =>
                                disconnect connection ;; ret tt) tt ;;
          emit RlClose ;;
          ret (Some tt)
      end.

End Program.

(** ** Observations on a trace *)

(** The model requests of a trace, in order. *)
Definition requests (evs : list Event) : list Request :=
  omap (fun ev => match ev with Fetch req => Some req | _ => None end) evs.

(** The tool invocations sent to servers: server, tool and arguments. *)
Definition invocations (evs : list Event) : list (string * string * JSValue) :=
  omap (fun ev => match ev with
                  | CallTool srv n a => Some (srv, n, a)
                  | _ => None
                  end) evs.

(** The prompts shown to the user. *)
Definition prompts (evs : list Event) : list string :=
  omap (fun ev => match ev with Question p => Some p | _ => None end) evs.

(** The lines written to the console. *)
Definition printed (evs : list Event) : list string :=
  omap (fun ev => match ev with
                  | ConsoleLog t | ConsoleLogValue t _ | ConsoleError t _ => Some t
                  | _ => None
                  end) evs.

(** The content of a tool result that reports an error. *)
Definition errorPayload (msg : string) : string :=
  JSON.stringify (JObj [("error", JStr msg)]).

(** The arguments that stand in for a payload that does not parse. *)
Definition argumentsPlaceholder : JSValue :=
  JObj [("_error", JStr "Failed to parse arguments")].

Definition roleName (r : Role) : string :=
  match r with
  | system => "system"
  | user => "user"
  | assistant => "assistant"
  end.

(** What a connection lists when asked for its tools: nothing without a
    client or when the request fails. *)
Definition listed {World} (c : @McpConnection World) (w : World)
    : list McpTool * World :=
  match client c with
  | None => ([], w)
  | Some cl =>
      match client_listTools cl w with
      | (Returns tools, w') => (List.map toolData tools, w')
      | (Throws _, w') => ([], w')
      end
  end.

(** The tool lists of the connections asked in turn: [T_1 .. T_N]. *)
Fixpoint contributions {World} (cs : list (@McpConnection World)) (w : World)
    : list (list McpTool) :=
  match cs with
  | [] => []
  | c :: r => let '(ts, w') := listed c w in ts :: contributions r w'
  end.

(** The server names that list a tool called [n], in connection order. *)
Fixpoint owners {World} (n : string) (cs : list (@McpConnection World))
    (lists : list (list McpTool)) : list string :=
  match cs, lists with
  | c :: cs', ts :: lists' =>
      (if existsb (fun t => String.eqb (tool_name t) n) ts
       then [serverName c] else []) ++ owners n cs' lists'
  | _, _ => []
  end.

(** The arguments a tool call is dispatched with. *)
Definition toolArguments (toolCall : ToolCall) : JSValue :=
  default argumentsPlaceholder (JSON.parse (call_arguments toolCall)).

(** The catalog entry that answers for a tool name. *)
Definition catalogEntry (mcpTools : list McpTool) (toolName : string)
    : option McpTool :=
  List.find (fun t => String.eqb (tool_name t) toolName) mcpTools.

(** What handling [toolCall] may do to the outside: write to the console,
    and invoke the called tool, with the call's arguments, on the server of
    its catalog entry. *)
Definition routed (mcpTools : list McpTool) (toolCall : ToolCall)
    (ev : Event) : Prop :=
  match ev with
  | ConsoleLog _ | ConsoleLogValue _ _ | ConsoleError _ _ => True
  | CallTool srv n a =>
      n = call_name toolCall /\ a = toolArguments toolCall /\
      exists tool, catalogEntry mcpTools (call_name toolCall) = Some tool /\
                   tool_serverName tool = Some srv
  | _ => False
  end.

(** The call a message is the result of. *)
Definition resultFor (m : OpenAIMessage) : option string :=
  match m with
  | ToolMessage id _ => Some id
  | ChatMessage _ _ _ => None
  end.

(** The tool-call request of the model, as it is put back in the messages. *)
Definition toolCallRequest (toolCalls : list ToolCall) : OpenAIMessage :=
  ChatMessage assistant None (Some toolCalls).

(** The request that opens a turn, and the follow-up request after a batch
    of tool calls. *)
Definition firstRequest (proc : Process) (history : list ConversationMessage)
    (mcpTools : list McpTool) : Request :=
  mkRequest (apiUrl proc) ("Bearer " +:+ default "" (apiKey proc))
    (mkBody (llmModel proc) (List.map formatMessage history) temperature
       (if (0 <? length mcpTools)%nat
        then Some (List.map formatTool mcpTools) else None)).

Definition followUpRequest (proc : Process)
    (updatedMessages : list OpenAIMessage) : Request :=
  mkRequest (apiUrl proc) ("Bearer " +:+ default "" (apiKey proc))
    (mkBody (llmModel proc) updatedMessages temperature None).

(** The state once the first request of a turn has been answered. *)
Definition answered {World} (s : @State World) (req : Request) (w : World)
    : @State World :=
  mkState w (trace s ++ [Fetch req]).

(** ** Properties of computations *)

(** [extends P m]: running [m] only adds events, all of which satisfy
    [P]. *)
Definition extends {World A} (P : Event -> Prop) (m : @M World A) : Prop :=
  forall s : State, exists evs, trace (m s).2 = trace s ++ evs /\ Forall P evs.

(** What connecting to the servers may do: write to the console and open
    connections. *)
Definition connecting (ev : Event) : Prop :=
  match ev with
  | ConsoleLog _ | ConsoleError _ _ | Connect _ _ => True
  | _ => False
  end.

(** [toolToServerMap] after the tools of one server have been recorded. *)
Definition record (srv : string) (m : gmap string string) (ts : list McpTool)
    : gmap string string :=
  foldl (fun m tool => <[tool_name tool := srv]> m) m ts.

(** Whether a tool list holds a tool called [n]. *)
Definition lists_tool (n : string) (ts : list McpTool) : bool :=
  existsb (fun t => String.eqb (tool_name t) n) ts.

(** ** A sample session

    Two servers that both list a tool [echo], a connection that was never
    established, a server that predates tool listing, and a model that asks
    for three tool calls and then answers. The world counts the model
    requests answered so far. *)

Definition sampleProc : Process :=
  mkProcess None (Some "sk-test") None None None.

Definition textResult (t : string) : JSValue :=
  JObj [("content", JArr [JObj [("type", JStr "text"); ("text", JStr t)]])].

Definition echoTool : SdkTool :=
  mkSdkTool "echo" (Some "Echo the text")
    (Some (JObj [("type", JStr "object")])) None.

Definition addTool : SdkTool := mkSdkTool "add" None None None.

Definition methodNotFound : JSError := mkError "Method not found" (Some (-32601)).

Definition alphaClient : @Client nat :=
  mkClient
    (fun w => (Returns [mkResource "file:///notes" "notes"], w))
    (fun w => (Returns [echoTool; addTool], w))
    (fun n _ w => if String.eqb n "echo" then (Returns (textResult "alpha"), w)
                  else (Throws methodNotFound, w))
    (fun w => (Returns tt, w)).

Definition betaClient : @Client nat :=
  mkClient
    (fun w => (Returns [], w))
    (fun w => (Returns [echoTool], w))
    (fun _ _ w => (Returns (textResult "beta"), w))
    (fun w => (Returns tt, w)).

Definition legacyClient : @Client nat :=
  mkClient
    (fun w => (Throws methodNotFound, w))
    (fun w => (Throws methodNotFound, w))
    (fun _ _ w => (Throws methodNotFound, w))
    (fun w => (Returns tt, w)).

Definition alpha : @McpConnection nat := mkConnection (Some alphaClient) true "alpha".
Definition beta : @McpConnection nat := mkConnection (Some betaClient) true "beta".
Definition gamma : @McpConnection nat := mkConnection None false "gamma".
Definition legacy : @McpConnection nat := mkConnection (Some legacyClient) false "legacy".

(** A server that lists its resources and knows no listing of tools. *)
Definition halfClient : @Client nat :=
  mkClient
    (fun w => (Returns [mkResource "file:///notes" "notes"], w))
    (fun w => (Throws methodNotFound, w))
    (fun _ _ w => (Throws methodNotFound, w))
    (fun w => (Returns tt, w)).

Definition half : @McpConnection nat := mkConnection (Some halfClient) false "half".

(** The catalog the chat command builds from [alpha] and [beta]. *)
Definition sampleTools : list McpTool :=
  [ mkTool "echo" (Some "Echo the text") (Some (JObj [("type", JStr "object")]))
      (Some "alpha");
    mkTool "add" (Some "") (Some default_parameters) (Some "alpha");
    mkTool "echo" (Some "Echo the text") (Some (JObj [("type", JStr "object")]))
      (Some "beta") ].

Definition pingArguments : string :=
  "{" +:+ quoted "text" +:+ ":" +:+ quoted "ping" +:+ "}".

(** A well-formed call, a call to a tool nobody lists, and a call whose
    arguments do not parse. *)
Definition sampleCalls : list ToolCall :=
  [ mkToolCall "call_1" "function" "echo" pingArguments;
    mkToolCall "call_2" "function" "missing" "{}";
    mkToolCall "call_3" "function" "echo" "{" ].

Definition toolCallAnswer : OpenAIResponse :=
  mkResponse
    (Some [mkChoice (Some (mkChoiceMessage None "assistant" (Some sampleCalls)))
             "tool_calls" 0]).

(** The follow-up answer asks for tools again, besides its text. *)
Definition finalAnswerJson : OpenAIResponse :=
  mkResponse
    (Some [mkChoice (Some (mkChoiceMessage (Some "All done.") "assistant"
                             (Some sampleCalls)))
             "stop" 0]).

Definition okResponse (json : OpenAIResponse) : Response :=
  mkFetchResponse true 200 "OK" (Returns "") (Returns json).

Definition sampleFetch (req : Request) (n : nat) : Result Response * nat :=
  (Returns (okResponse (match n with
                        | O => toolCallAnswer
                        | S _ => finalAnswerJson
                        end)), S n).

(** A provider that cannot be reached. *)
Definition offlineFetch (req : Request) (n : nat) : Result Response * nat :=
  (Throws (Error "fetch failed"), n).

Definition sampleQuestion (prompt : string) (n : nat) : string * nat :=
  ("ping the servers", n).

Definition sampleHistory : list ConversationMessage :=
  [systemMessage; mkMessage "user" (CString "ping the servers")].

Definition start : @State nat := mkState O [].

(** A configuration with no server, and the SDK of the sample session. *)
Definition emptyConfig (w : nat) : McpConfig := mkConfig (Some []).
Definition sample_URL (url : string) : Result string := Returns url.
Definition sample_Client (name : string) (t : Transport) : @Client nat := betaClient.
Definition sample_connect (name : string) (t : Transport) (w : nat)
    : Result unit * nat := (Returns tt, w).

(** The tools of one server, tagged with its name. *)
Definition tagged (serverName : string) (tools : list McpTool) : list McpTool :=
  List.map (fun tool => mkTool (tool_name tool) (tool_description tool)
                          (tool_parameters tool) (Some serverName)) tools.

(** The tagged tool lists of the connections, one after the other. *)
Fixpoint catalog {World} (cs : list (@McpConnection World))
    (lists : list (list McpTool)) : list McpTool :=
  match cs, lists with
  | c :: cs', ts :: lists' => tagged (serverName c) ts ++ catalog cs' lists'
  | _, _ => []
  end.

(** What the start of a session prints before it connects. *)
Definition banner : list Event :=
  [ConsoleLog "Starting chat session with LLM...";
   ConsoleLog ("Type 'exit' or 'quit' to end the session." +:+ nl)].

Definition connectingMessage : Event :=
  ConsoleLog "Connecting to all available MCP servers...".

(** ** More of the sample session *)

(** The messages that a list of exchanges (what the user typed, what the
    assistant answered) adds to the history. *)
Definition exchanges (turns : list (string * string)) : list ConversationMessage :=
  List.flat_map
    (fun turn => [mkMessage "user" (CString turn.1);
                  mkMessage "assistant" (CString turn.2)]) turns.

(** What a failing turn leaves on the console. *)
Definition apologyEvents (error : JSError) : list Event :=
  [ConsoleError "Error calling LLM:" (Some error);
   ConsoleLog ("AI: " +:+ errorMessage)].

(** DeepSeek selected and configured, no OpenAI key anywhere. *)
Definition deepseekProc : Process :=
  mkProcess (Some "deepseek") None (Some "ds-test") None None.

(** OpenAI selected by default, only a DeepSeek key at hand. *)
Definition keylessProc : Process :=
  mkProcess None None (Some "ds-test") None None.

Definition helloAnswer : OpenAIResponse :=
  mkResponse
    (Some [mkChoice (Some (mkChoiceMessage (Some "Hello") "assistant" (Some [])))
             "stop" 0]).

Definition helloFetch (req : Request) (n : nat) : Result Response * nat :=
  (Returns (okResponse helloAnswer), S n).

Definition unauthorized : Response :=
  mkFetchResponse false 401 "Unauthorized" (Returns "bad key")
    (Returns toolCallAnswer).

Definition rejectingFetch (req : Request) (n : nat) : Result Response * nat :=
  (Returns unauthorized, S n).

(** A provider that answers the first request and rejects the next. *)
Definition flakyFetch (req : Request) (n : nat) : Result Response * nat :=
  match n with
  | O => (Returns (okResponse toolCallAnswer), S n)
  | S _ => (Returns unauthorized, S n)
  end.

(** The user types [Quit]. *)
Definition quitQuestion (prompt : string) (n : nat) : string * nat := ("Quit", n).

(** An event other than a prompt to the user. *)
Definition unprompted (ev : Event) : Prop :=
  match ev with
  | Question _ => False
  | _ => True
  end.

(** What disconnecting a connection does to the outside, when closing its
    client succeeds. *)
Definition cleanupEvents {World} (c : @McpConnection World) : list Event :=
  match client c with
  | Some _ => [Close (serverName c)]
  | None => []
  end ++
  (if childProcess c then [Kill (serverName c)] else []).

(** A client whose [close] fails. *)
Definition stuckClient : @Client nat :=
  mkClient
    (fun w => (Returns [], w))
    (fun w => (Returns [], w))
    (fun _ _ w => (Returns JNull, w))
    (fun w => (Throws (Error "close failed"), w)).

Definition stuck : @McpConnection nat := mkConnection (Some stuckClient) true "stuck".

(** The tool listings asked of servers, in order. *)
Definition listings (evs : list Event) : list string :=
  omap (fun ev => match ev with ListTools srv => Some srv | _ => None end) evs.

(** The connection attempts, in order. *)
Definition attempts (evs : list Event) : list string :=
  omap (fun ev => match ev with Connect srv _ => Some srv | _ => None end) evs.

Definition has_client {World} (c : @McpConnection World) : bool :=
  match client c with
  | Some _ => true
  | None => false
  end.

(** The message of the error that a failed invocation leaves in the tool
    result. *)
Definition invocationError (toolName srv : string) (e : JSError) : string :=
  if method_not_found e
  then "Tool " +:+ toolName +:+ " not found on server " +:+ srv
  else message e.

(** ** [connectToServer] ([src/utils/mcpConnection.ts]) *)

Section ConnectToServer.

Context {World : Type}.
Variable loadMcpConfig : World -> McpConfig.
Variable new_URL : string -> Result string.
Variable new_Client : string -> Transport -> @Client World.
Variable client_connect : string -> Transport -> World -> Result unit * World.

Definition configureHint : string :=
  "Run " +:+ quoted "mcp-terminal configure" +:+ " to set up servers.".

(** [connectToServer(serverName?)]: the connection to the named server, or
    to the first configured one, or null. *)
Definition connectToServer (serverName : option string)
    : M (option (@McpConnection World)) :=
  fun s =>
  let connectTo (targetServer : string) : M (option McpConnection) :=
    '(success, msg, connection) ←
      connect loadMcpConfig new_URL new_Client client_connect
        (mkConnection None false targetServer);
    if success : bool
    then emit (ConsoleLog msg) ;; ret (Some connection)
    else emit (ConsoleError msg None) ;; ret None in
  (if truthy_str serverName then
     let targetServer := default "" serverName in
     match getServer loadMcpConfig (world s) targetServer with
     | Throws error => throw error
     | Returns None =>
         emit (ConsoleError ("Server " +:+ quoted targetServer +:+
                             " not found in configuration.") None) ;;
         emit (ConsoleError configureHint None) ;;
         ret None
     | Returns (Some _) => connectTo targetServer
     end
   else
     match getFirstServer loadMcpConfig (world s) with
     | Throws error => throw error
     | Returns None =>
         emit (ConsoleError "No servers configured and no server specified." None) ;;
         emit (ConsoleError configureHint None) ;;
         ret None
     | Returns (Some firstServer) =>
         let targetServer := firstServer.1 in
         emit (ConsoleLog ("Using server: " +:+ targetServer)) ;;
         connectTo targetServer
     end) s.

End ConnectToServer.

(** A configuration with two servers, one started by a command and one
    reached at an address, and one entry that says neither. *)
Definition twoServers (w : nat) : McpConfig :=
  mkConfig
    (Some
       [("files", mkServerConfig "npx" (Some ["-y"; "server-filesystem"]) None None);
        ("web", mkServerConfig "" None (Some "http://localhost:3000/sse") None);
        ("empty", mkServerConfig "" None None None)]).

(** A configuration file that was emptied to [{}]. *)
Definition bareConfig (w : nat) : McpConfig := mkConfig None.

(** The SDK of a machine where only local servers start. *)
Definition local_connect (name : string) (t : Transport) (w : nat)
    : Result unit * nat :=
  match t with
  | StdioClientTransport _ _ _ => (Returns tt, w)
  | SSEClientTransport _ => (Throws (Error "ECONNREFUSED"), w)
  end.

(** Steps shared by the cases of [connect]. *)

Ltac connect_tail ifTac cmdTac urlTac :=
  split; [reflexivity|];
  split; [simpl; rewrite ?app_nil_r; reflexivity|];
  split; [reflexivity|];
  split; [ifTac|];
  split; [discriminate|];
  let cfg' := fresh "cfg" in
  intros cfg' [= <-]; split; [cmdTac|urlTac].

Ltac only_sse :=
  let H := fresh in
  intros _ ? ? [[= -> ->]|H%elem_of_nil]%elem_of_cons; [by eexists|done].

Ltac no_event :=
  let H := fresh in intros _ ? ? H%elem_of_nil; done.

(** ** Reasoning about computations *)

Section Properties.

Context {World : Type}.
Variable fetch : Request -> World -> Result Response * World.
Variable question : string -> World -> string * World.
Variable loadMcpConfig : World -> McpConfig.
Variable new_URL : string -> Result string.
Variable new_Client : string -> Transport -> @Client World.
Variable client_connect : string -> Transport -> World -> Result unit * World.
Variable proc : Process.

Implicit Types (s : @State World) (evs : list Event).

Local Abbreviation extends := (@extends World _).

Lemma bind_run {A B} (m : M A) (k : A -> M B) s :
  (x ← m; k x) s =
  match m s with
  | (Returns a, s') => k a s'
  | (Throws e, s') => (Throws e, s')
  end.
Proof. reflexivity. Qed.

Lemma emit_run {B} ev (k : M B) s :
  (emit ev ;; k) s = k (mkState (world s) (trace s ++ [ev])).
Proof. reflexivity. Qed.

Lemma for_of_app {A S} (l1 l2 : list A) (body : A -> S -> M S) (v : S) s :
  for_of (l1 ++ l2) body v s =
  match for_of l1 body v s with
  | (Returns v', s') => for_of l2 body v' s'
  | (Throws e, s') => (Throws e, s')
  end.
Proof.
  revert v s. induction l1 as [|x l1 IH]; intros v s; simpl.
  - reflexivity.
  - rewrite !bind_run. destruct (body x v s) as [[v'|e] s']; auto.
Qed.

Lemma extends_ret {A} P (a : A) : extends P (ret a).
Proof. intros s. exists []. simpl. rewrite app_nil_r. auto. Qed.

Lemma extends_throw {A} P e : extends P (@throw World A e).
Proof. intros s. exists []. simpl. rewrite app_nil_r. auto. Qed.

Lemma extends_lift {A} P (r : Result A) : extends P (lift r).
Proof. intros s. exists []. simpl. rewrite app_nil_r. auto. Qed.

Lemma extends_emit P ev : P ev -> extends P (emit ev).
Proof. intros H s. exists [ev]. simpl. auto. Qed.

Lemma extends_await {A} P (f : World -> Result A * World) : extends P (await f).
Proof.
  intros s. exists []. unfold await. destruct (f (world s)) as [r w].
  simpl. rewrite app_nil_r. auto.
Qed.

Lemma extends_bind {A B} P (m : M A) (k : A -> M B) :
  extends P m -> (forall a, extends P (k a)) -> extends P (x ← m; k x).
Proof.
  intros Hm Hk s. rewrite bind_run. destruct (Hm s) as (e1 & H1 & F1).
  destruct (m s) as [[a|e] s1]; simpl in *.
  - destruct (Hk a s1) as (e2 & H2 & F2). exists (e1 ++ e2).
    rewrite H2, H1, app_assoc. split; [done | by apply Forall_app].
  - eauto.
Qed.

Lemma extends_try_catch {A} P (m : M A) (h : JSError -> M A) :
  extends P m -> (forall e, extends P (h e)) -> extends P (try_catch m h).
Proof.
  intros Hm Hh s. unfold try_catch. destruct (Hm s) as (e1 & H1 & F1).
  destruct (m s) as [[a|e] s1]; simpl in *.
  - eauto.
  - destruct (Hh e s1) as (e2 & H2 & F2). exists (e1 ++ e2).
    rewrite H2, H1, app_assoc. split; [done | by apply Forall_app].
Qed.

Lemma extends_for_of {A S} P (l : list A) (body : A -> S -> M S) v :
  (forall x v', x ∈ l -> extends P (body x v')) -> extends P (for_of l body v).
Proof.
  revert v. induction l as [|x l IH]; intros v Hb; simpl.
  - apply extends_ret.
  - apply extends_bind.
    + apply Hb. left.
    + intros a. apply IH. intros y v' Hy. apply Hb. by right.
Qed.

Lemma extends_weaken {A} (P Q : Event -> Prop) (m : M A) :
  (forall ev, P ev -> Q ev) -> extends P m -> extends Q m.
Proof.
  intros HPQ Hm s. destruct (Hm s) as (evs & H & F). exists evs.
  split; [done|]. eapply Forall_impl; eauto.
Qed.


(** *** The tool-call loop *)

Lemma callTool_events (c : McpConnection) toolName args :
  extends (fun ev =>
             match ev with
             | ConsoleLogValue _ _ | ConsoleError _ _ => True
             | CallTool srv n a => srv = serverName c /\ n = toolName /\ a = args
             | _ => False
             end) (callTool c toolName args).
Proof.
  unfold callTool. destruct (client c) as [cl|].
  - apply extends_try_catch.
    + apply extends_bind; [by apply extends_emit|intros _].
      apply extends_bind; [by apply extends_emit|intros _].
      apply extends_await.
    + intros e. apply extends_bind; [by apply extends_emit|intros _].
      destruct (method_not_found e); apply extends_throw.
  - apply extends_throw.
Qed.

Lemma tryToolCall_events mcpTools (mcpConnections : list McpConnection)
    toolCall vars :
  extends (routed mcpTools toolCall)
    (tryToolCall mcpTools mcpConnections toolCall (toolArguments toolCall) vars).
Proof.
  unfold tryToolCall. destruct vars as [updatedMessages result].
  destruct (List.find _ mcpTools) as [tool|] eqn:Htool; [|apply extends_throw].
  destruct (tool_serverName tool) as [sn|] eqn:Hsn; [|apply extends_throw].
  destruct (negb (truthy_str (Some sn))); [apply extends_throw|].
  destruct (List.find _ mcpConnections) as [connection|] eqn:Hconn;
    [|apply extends_throw].
  apply find_some in Hconn as [_ Hname%String.eqb_eq].
  apply extends_bind; [by apply extends_emit|intros _].
  apply extends_bind; [|intros v; apply extends_ret].
  eapply extends_weaken; [|apply callTool_events].
  intros [] ; simpl; try done.
  intros (-> & -> & ->). repeat split; try done.
  exists tool. split; [exact Htool|]. simpl in Hname. unfold getServerName in Hname.
  by rewrite Hsn, Hname.
Qed.

Lemma parseArguments_run toolCall s :
  exists evs,
    parseArguments toolCall s =
      (Returns (toolArguments toolCall), mkState (world s) (trace s ++ evs)) /\
    Forall (fun ev => exists e, ev = ConsoleError "Error parsing tool arguments:" e) evs.
Proof.
  unfold parseArguments, toolArguments.
  destruct (JSON.parse (call_arguments toolCall)) as [v|]; simpl.
  - exists []. rewrite app_nil_r. destruct s; auto.
  - exists [ConsoleError "Error parsing tool arguments:" (Some SyntaxError)].
    split; [reflexivity|]. repeat constructor. eauto.
Qed.

Lemma handleToolCall_events mcpTools (mcpConnections : list McpConnection)
    toolCall vars :
  extends (routed mcpTools toolCall)
    (handleToolCall mcpTools mcpConnections toolCall vars).
Proof.
  intros s. unfold handleToolCall. rewrite bind_run.
  destruct (parseArguments_run toolCall s) as (evs0 & -> & F0).
  assert (extends (routed mcpTools toolCall)
            (try_catch
               (tryToolCall mcpTools mcpConnections toolCall
                  (toolArguments toolCall) vars)
               (toolCallFailed toolCall vars))) as H.
  { apply extends_try_catch; [apply tryToolCall_events|].
    intros e. unfold toolCallFailed. destruct vars.
    apply extends_bind; [by apply extends_emit|intros _; apply extends_ret]. }
  destruct (H (mkState (world s) (trace s ++ evs0))) as (evs & Hevs & F).
  exists (evs0 ++ evs). rewrite Hevs. simpl. rewrite app_assoc. split; [done|].
  apply Forall_app. split; [|done].
  eapply Forall_impl; [exact F0|]. by intros ev [e ->].
Qed.

(** The try block returns only by pushing the result of the call. *)
Lemma tryToolCall_returns mcpTools (mcpConnections : list McpConnection)
    toolCall toolArgs updatedMessages result s vars' s' :
  tryToolCall mcpTools mcpConnections toolCall toolArgs
    (updatedMessages, result) s = (Returns vars', s') ->
  exists toolResult summary,
    vars' = (updatedMessages ++
               [ToolMessage (call_id toolCall) (resultText toolResult)],
             summary).
Proof.
  unfold tryToolCall.
  destruct (List.find _ mcpTools) as [tool|]; [|discriminate].
  destruct (negb (truthy_str (tool_serverName tool))); [discriminate|].
  destruct (List.find _ mcpConnections) as [connection|]; [|discriminate].
  rewrite emit_run, bind_run.
  destruct (callTool connection (call_name toolCall) toolArgs _)
    as [[v|e] s1]; [|discriminate].
  intros [= <- <-]. eauto.
Qed.

(** Handling one call always returns, with one more message: the result of
    the call or the error that stopped it, under the call's id. *)
Lemma handleToolCall_returns mcpTools (mcpConnections : list McpConnection)
    toolCall updatedMessages result s :
  exists content summary s',
    handleToolCall mcpTools mcpConnections toolCall (updatedMessages, result) s =
      (Returns (updatedMessages ++ [ToolMessage (call_id toolCall) content],
                summary), s') /\
    ((exists toolResult, content = resultText toolResult) \/
     (exists error, content = errorPayload (message error))).
Proof.
  unfold handleToolCall. rewrite bind_run.
  destruct (parseArguments_run toolCall s) as (evs0 & -> & _).
  unfold try_catch.
  destruct (tryToolCall _ _ _ _ _ _) as [[vars'|e] s1] eqn:Htry.
  - apply tryToolCall_returns in Htry as (v & summary & ->).
    exists (resultText v), summary, s1. eauto.
  - unfold toolCallFailed. rewrite emit_run.
    eexists _, _, _. split; [reflexivity|]. right. by exists e.
Qed.

Lemma dispatch_loop mcpTools (mcpConnections : list McpConnection)
    toolCalls updatedMessages result s :
  exists results summary s',
    for_of toolCalls (handleToolCall mcpTools mcpConnections)
      (updatedMessages, result) s =
      (Returns (updatedMessages ++ results, summary), s') /\
    Forall2 (fun toolCall m =>
               exists content, m = ToolMessage (call_id toolCall) content)
            toolCalls results.
Proof.
  revert updatedMessages result s.
  induction toolCalls as [|tc tcs IH]; intros updatedMessages result s; simpl.
  - exists [], result, s. rewrite app_nil_r. split; [done|constructor].
  - rewrite bind_run.
    destruct (handleToolCall_returns mcpTools mcpConnections tc
                updatedMessages result s) as (content & sum1 & s1 & -> & _).
    destruct (IH (updatedMessages ++ [ToolMessage (call_id tc) content]) sum1 s1)
      as (results & summary & s' & -> & F).
    exists (ToolMessage (call_id tc) content :: results), summary, s'.
    rewrite <- app_assoc. split; [done|]. constructor; eauto.
Qed.

Lemma dispatch_loop_events mcpTools (mcpConnections : list McpConnection)
    toolCalls vars :
  extends (fun ev => exists toolCall,
                       toolCall ∈ toolCalls /\ routed mcpTools toolCall ev)
    (for_of toolCalls (handleToolCall mcpTools mcpConnections) vars).
Proof.
  apply extends_for_of. intros tc v Htc.
  eapply extends_weaken; [|apply handleToolCall_events]. eauto.
Qed.


(** *** A turn with tool calls *)

Lemma post_run url key body s :
  post fetch url key body s =
  let req := mkRequest url ("Bearer " +:+ key) body in
  let '(r, w) := fetch req (world s) in (r, answered s req w).
Proof. reflexivity. Qed.

(** A turn whose first answer asks for tools: the rest of [callLLM]. *)
Lemma callLLM_tool_round history mcpTools mcpConnections s response w json tc tcs :
  truthy_str (apiKey proc) = true ->
  fetch (firstRequest proc history mcpTools) (world s) = (Returns response, w) ->
  resp_ok response = true ->
  resp_json response = Returns json ->
  response_tool_calls json = Some (tc :: tcs) ->
  callLLM fetch proc history mcpTools mcpConnections s =
  try_catch
    ('(updatedMessages, result) ←
       for_of (tc :: tcs) (handleToolCall mcpTools mcpConnections)
         (List.map formatMessage history ++ [toolCallRequest (tc :: tcs)],
          toolsIntro);
     finalAnswer fetch proc (default "" (apiKey proc)) updatedMessages result)
    rethrow
    (answered s (firstRequest proc history mcpTools) w).
Proof.
  intros Hkey Hfetch Hok Hjson Hcalls.
  unfold callLLM, try_catch. rewrite Hkey. cbn [negb].
  rewrite bind_run, post_run. cbv zeta.
  fold (firstRequest proc history mcpTools).
  rewrite Hfetch. rewrite Hok. cbn [negb].
  rewrite bind_run. unfold lift at 1. rewrite Hjson, Hcalls.
  reflexivity.
Qed.

(** The follow-up request is sent once, and nothing else is. *)
Lemma finalAnswer_trace key updatedMessages result s :
  key = default "" (apiKey proc) ->
  trace (finalAnswer fetch proc key updatedMessages result s).2 =
  trace s ++ [Fetch (followUpRequest proc updatedMessages)].
Proof.
  intros ->. unfold finalAnswer. rewrite bind_run, post_run. cbv zeta.
  fold (followUpRequest proc updatedMessages).
  destruct (fetch _ _) as [[finalResponse|e] w]; [|reflexivity].
  destruct (negb (resp_ok finalResponse)).
  - rewrite bind_run. unfold lift.
    destruct (resp_text finalResponse); reflexivity.
  - rewrite bind_run. unfold lift at 1.
    destruct (resp_json finalResponse) as [finalJson|e]; [|reflexivity].
    rewrite bind_run. unfold lift.
    destruct (response_content finalJson); reflexivity.
Qed.

(** The answer of the turn when the follow-up request succeeds. *)
Lemma finalAnswer_returns key updatedMessages result s finalResponse w
    finalJson content :
  key = default "" (apiKey proc) ->
  fetch (followUpRequest proc updatedMessages) (world s) =
    (Returns finalResponse, w) ->
  resp_ok finalResponse = true ->
  resp_json finalResponse = Returns finalJson ->
  response_content finalJson = Returns content ->
  finalAnswer fetch proc key updatedMessages result s =
  (Returns ("Tools used:" +:+ nl +:+ result +:+ nl +:+ content),
   answered s (followUpRequest proc updatedMessages) w).
Proof.
  intros -> Hfetch Hok Hjson Hcontent.
  unfold finalAnswer. rewrite bind_run, post_run. cbv zeta.
  fold (followUpRequest proc updatedMessages).
  rewrite Hfetch, Hok. cbn [negb].
  rewrite bind_run. unfold lift at 1. rewrite Hjson.
  rewrite bind_run. unfold lift. rewrite Hcontent. reflexivity.
Qed.


Lemma requests_app evs1 evs2 : requests (evs1 ++ evs2) = requests evs1 ++ requests evs2.
Proof. apply omap_app. Qed.

Lemma invocations_app evs1 evs2 :
  invocations (evs1 ++ evs2) = invocations evs1 ++ invocations evs2.
Proof. apply omap_app. Qed.

Lemma routed_no_requests mcpTools (toolCalls : list ToolCall) evs :
  Forall (fun ev => exists toolCall,
                      toolCall ∈ toolCalls /\ routed mcpTools toolCall ev) evs ->
  requests evs = [] /\ prompts evs = [].
Proof.
  induction 1 as [|ev evs (tc & _ & Hev) _ [IH1 IH2]]; [done|].
  destruct ev; simpl in Hev; try done.
Qed.

(** What handling a call yields, by the outcome of its [try] block. *)
Lemma handleToolCall_outcome mcpTools (mcpConnections : list McpConnection)
    toolCall vars s :
  handleToolCall mcpTools mcpConnections toolCall vars s =
  match tryToolCall mcpTools mcpConnections toolCall (toolArguments toolCall)
          vars (parseArguments toolCall s).2 with
  | (Returns vars', s') => (Returns vars', s')
  | (Throws error, s') => toolCallFailed toolCall vars error s'
  end.
Proof.
  unfold handleToolCall. rewrite bind_run.
  destruct (parseArguments_run toolCall s) as (evs0 & -> & _). reflexivity.
Qed.

(** The [j]-th call of a batch is handled in the state its predecessors
    leave, and its message is the [j]-th result. *)
Lemma dispatch_loop_at mcpTools (mcpConnections : list McpConnection)
    toolCalls updatedMessages result s results summary s' j tc :
  for_of toolCalls (handleToolCall mcpTools mcpConnections)
    (updatedMessages, result) s =
    (Returns (updatedMessages ++ results, summary), s') ->
  toolCalls !! j = Some tc ->
  exists before summary_j s_j content summary' s'',
    for_of (take j toolCalls) (handleToolCall mcpTools mcpConnections)
      (updatedMessages, result) s =
      (Returns (updatedMessages ++ before, summary_j), s_j) /\
    handleToolCall mcpTools mcpConnections tc
      (updatedMessages ++ before, summary_j) s_j =
      (Returns ((updatedMessages ++ before) ++ [ToolMessage (call_id tc) content],
                summary'), s'') /\
    results !! j = Some (ToolMessage (call_id tc) content).
Proof.
  intros Hloop Hj.
  rewrite <- (take_drop_middle toolCalls j tc Hj), for_of_app in Hloop.
  destruct (dispatch_loop mcpTools mcpConnections (take j toolCalls)
              updatedMessages result s) as (before & sum_j & s_j & Hpre & F).
  rewrite Hpre in Hloop. simpl in Hloop. rewrite bind_run in Hloop.
  destruct (handleToolCall_returns mcpTools mcpConnections tc
              (updatedMessages ++ before) sum_j s_j)
    as (content & sum' & s'' & Htc & _).
  rewrite Htc in Hloop.
  destruct (dispatch_loop mcpTools mcpConnections (drop (S j) toolCalls)
              ((updatedMessages ++ before) ++ [ToolMessage (call_id tc) content])
              sum' s'') as (after & sum3 & s3 & Hpost & _).
  rewrite Hpost in Hloop. injection Hloop as Hres _ _.
  rewrite <- !app_assoc in Hres. apply app_inv_head in Hres. subst results.
  exists before, sum_j, s_j, content, sum', s''. repeat split; try done.
  apply Forall2_length in F. rewrite length_take_le in F
    by (apply lookup_lt_Some in Hj; lia).
  rewrite lookup_app_r by lia. by replace (j - length before)%nat with 0%nat by lia.
Qed.

(** The trace of a turn with tool calls, after the loop: the follow-up
    request and, when the turn fails, the log of the error. *)
Lemma callLLM_round_trace history mcpTools mcpConnections s response w json
    tc tcs results summary s2 :
  truthy_str (apiKey proc) = true ->
  fetch (firstRequest proc history mcpTools) (world s) = (Returns response, w) ->
  resp_ok response = true ->
  resp_json response = Returns json ->
  response_tool_calls json = Some (tc :: tcs) ->
  let updatedMessages :=
    List.map formatMessage history ++ [toolCallRequest (tc :: tcs)] in
  for_of (tc :: tcs) (handleToolCall mcpTools mcpConnections)
    (updatedMessages, toolsIntro)
    (answered s (firstRequest proc history mcpTools) w) =
    (Returns (updatedMessages ++ results, summary), s2) ->
  callLLM fetch proc history mcpTools mcpConnections s =
    try_catch
      (finalAnswer fetch proc (default "" (apiKey proc))
         (updatedMessages ++ results) summary) rethrow s2 /\
  exists tail,
    trace (callLLM fetch proc history mcpTools mcpConnections s).2 =
      trace s2 ++ Fetch (followUpRequest proc (updatedMessages ++ results)) :: tail /\
    requests tail = [] /\ invocations tail = [] /\ prompts tail = [].
Proof.
  intros Hkey Hfetch Hok Hjson Hcalls updatedMessages Hloop.
  rewrite (callLLM_tool_round _ _ _ _ _ _ _ _ _ Hkey Hfetch Hok Hjson Hcalls).
  assert (forall h : JSError -> M string,
            try_catch
              ('(um, r) ← for_of (tc :: tcs) (handleToolCall mcpTools mcpConnections)
                            (updatedMessages, toolsIntro);
               finalAnswer fetch proc (default "" (apiKey proc)) um r) h
              (answered s (firstRequest proc history mcpTools) w) =
            try_catch (finalAnswer fetch proc (default "" (apiKey proc))
                         (updatedMessages ++ results) summary) h s2) as Heq.
  { intros h. unfold try_catch. rewrite bind_run, Hloop. reflexivity. }
  fold updatedMessages. rewrite Heq. split; [reflexivity|].
  unfold try_catch.
  pose proof (finalAnswer_trace (default "" (apiKey proc))
                (updatedMessages ++ results) summary s2 eq_refl) as Ht.
  destruct (finalAnswer _ _ _ _ _ _) as [[a|e] s3]; simpl in Ht.
  - exists []. simpl. by rewrite Ht.
  - exists [ConsoleError "Error in callLLM:" (Some e)].
    unfold rethrow. rewrite emit_run. simpl. rewrite Ht, <- app_assoc. done.
Qed.


Lemma results_ids (toolCalls : list ToolCall) results :
  Forall2 (fun toolCall m =>
             exists content, m = ToolMessage (call_id toolCall) content)
          toolCalls results ->
  List.map resultFor results =
  List.map (fun toolCall => Some (call_id toolCall)) toolCalls.
Proof.
  induction 1 as [|tc m tcs ms [content ->] _ IH]; [done|].
  simpl. by rewrite IH.
Qed.


(** *** A call to a tool that is not in the catalog *)

Lemma catalogEntry_None mcpTools toolName :
  toolName ∉ List.map tool_name mcpTools -> catalogEntry mcpTools toolName = None.
Proof.
  unfold catalogEntry. induction mcpTools as [|t ts IH]; [done|].
  simpl. intros [Hne Hnot]%not_elem_of_cons.
  destruct (String.eqb_spec (tool_name t) toolName); [congruence|auto].
Qed.

Lemma handleToolCall_not_found mcpTools (mcpConnections : list McpConnection)
    toolCall updatedMessages result s :
  catalogEntry mcpTools (call_name toolCall) = None ->
  let error := Error ("Tool " +:+ call_name toolCall +:+ " not found") in
  exists evs,
    handleToolCall mcpTools mcpConnections toolCall (updatedMessages, result) s =
      (Returns (updatedMessages ++
                  [ToolMessage (call_id toolCall) (errorPayload (message error))],
                result +:+ "- Error using " +:+ call_name toolCall +:+ ": " +:+
                message error +:+ nl),
       mkState (world s) (trace s ++ evs)) /\
    invocations evs = [].
Proof.
  intros Hnone error. rewrite handleToolCall_outcome.
  destruct (parseArguments_run toolCall s) as (evs0 & -> & F0). simpl.
  unfold tryToolCall. unfold catalogEntry in Hnone. rewrite Hnone.
  unfold throw, toolCallFailed. rewrite emit_run. simpl.
  exists (evs0 ++ [ConsoleError "Error with MCP tool call:" (Some error)]).
  rewrite <- app_assoc. split; [reflexivity|].
  rewrite invocations_app. simpl. rewrite app_nil_r.
  clear -F0. induction F0 as [|ev evs [e ->] _ IH]; [done|exact IH].
Qed.


Lemma invocations_routed mcpTools toolCall evs srv n a :
  Forall (routed mcpTools toolCall) evs ->
  (srv, n, a) ∈ invocations evs ->
  n = call_name toolCall /\ a = toolArguments toolCall /\
  exists tool, catalogEntry mcpTools (call_name toolCall) = Some tool /\
               tool_serverName tool = Some srv.
Proof.
  induction 1 as [|ev evs Hev _ IH]; simpl.
  - by intros ?%elem_of_nil.
  - destruct ev; simpl in *; try exact IH.
    intros [[= -> -> ->]|Hin]%elem_of_cons; [exact Hev|auto].
Qed.


(** A call whose catalog entry names a server that has an established
    connection is sent to that server, once, with the call's arguments. *)
Lemma handleToolCall_invokes mcpTools (mcpConnections : list McpConnection)
    toolCall vars s tool srv c cl :
  catalogEntry mcpTools (call_name toolCall) = Some tool ->
  tool_serverName tool = Some srv ->
  srv <> "" ->
  List.find (fun c => String.eqb (getServerName c) srv) mcpConnections = Some c ->
  client c = Some cl ->
  exists evs,
    trace (handleToolCall mcpTools mcpConnections toolCall vars s).2 =
      trace s ++ evs /\
    invocations evs = [(srv, call_name toolCall, toolArguments toolCall)].
Proof.
  intros Htool Hsrv Hne Hconn Hcl.
  assert (serverName c = srv) as Hname
    by (apply find_some in Hconn as [_ H%String.eqb_eq]; exact H).
  rewrite handleToolCall_outcome.
  destruct (parseArguments_run toolCall s) as (evs0 & -> & F0). cbn [snd].
  assert (invocations evs0 = []) as Hquiet.
  { clear -F0. induction F0 as [|ev evs [e ->] _ IH]; [done|exact IH]. }
  unfold tryToolCall. destruct vars as [updatedMessages result].
  unfold catalogEntry in Htool. rewrite Htool, Hsrv.
  cbn [truthy_str from_option id].
  destruct (String.eqb_spec srv "") as [E|_]; [done|]. cbn [negb].
  rewrite Hconn, emit_run, bind_run. unfold callTool. rewrite Hcl.
  unfold try_catch. rewrite !emit_run. unfold await. cbn [world trace].
  destruct (client_callTool cl _ _ _) as [[v|e] w].
  - eexists. cbn [snd trace]. rewrite <- !app_assoc. split; [reflexivity|].
    rewrite invocations_app, Hquiet, Hname. reflexivity.
  - rewrite emit_run. cbn [trace world].
    destruct (method_not_found e); unfold throw, toolCallFailed;
      rewrite emit_run; cbn [snd trace]; rewrite <- !app_assoc;
      (eexists; split; [reflexivity|]);
      rewrite invocations_app, Hquiet, Hname; reflexivity.
Qed.

(** *** The first request of a turn *)

Lemma post_events P url key body :
  (forall req, P (Fetch req)) -> extends P (post fetch url key body).
Proof.
  intros HP. unfold post. apply extends_bind; [by apply extends_emit|intros _].
  apply extends_await.
Qed.

Lemma finalAnswer_events P key updatedMessages result :
  (forall req, P (Fetch req)) ->
  extends P (finalAnswer fetch proc key updatedMessages result).
Proof.
  intros HP. unfold finalAnswer.
  apply extends_bind; [by apply post_events|intros finalResponse].
  destruct (negb (resp_ok finalResponse)).
  - apply extends_bind; [apply extends_lift|intros t; apply extends_throw].
  - apply extends_bind; [apply extends_lift|intros j].
    apply extends_bind; [apply extends_lift|intros c; apply extends_ret].
Qed.

Lemma rethrow_events {A} P error :
  (forall t e, P (ConsoleError t e)) -> extends P (@rethrow World A error).
Proof.
  intros HP. unfold rethrow.
  apply extends_bind; [by apply extends_emit|intros _; apply extends_throw].
Qed.

(** With a key in the environment, a turn begins with its first request. *)
Lemma callLLM_first_request history mcpTools mcpConnections s :
  truthy_str (apiKey proc) = true ->
  exists tail,
    trace (callLLM fetch proc history mcpTools mcpConnections s).2 =
    trace s ++ Fetch (firstRequest proc history mcpTools) :: tail.
Proof.
  intros Hkey. unfold callLLM. rewrite Hkey. cbn [negb].
  set (k := fun response : Response => _).
  assert (forall response, extends (fun _ => True) (k response)) as Hk.
  { intros response. unfold k. destruct (negb (resp_ok response)).
    - apply extends_bind; [apply extends_lift|intros t; apply extends_throw].
    - apply extends_bind; [apply extends_lift|intros j].
      destruct (response_tool_calls j) as [[|tc tcs]|]; try apply extends_lift.
      apply extends_bind.
      + eapply extends_weaken; [|apply dispatch_loop_events]. done.
      + intros [um r]. by apply finalAnswer_events. }
  unfold try_catch. rewrite bind_run, post_run. cbv zeta.
  fold (firstRequest proc history mcpTools).
  destruct (fetch _ _) as [[response|e] w].
  - destruct (extends_try_catch (fun _ => True) (k response) rethrow (Hk response)
                (fun e => rethrow_events _ e (fun _ _ => I))
                (answered s (firstRequest proc history mcpTools) w))
      as (evs & Hevs & _).
    unfold try_catch in Hevs. exists evs.
    rewrite Hevs. simpl. by rewrite <- app_assoc.
  - exists [ConsoleError "Error in callLLM:" (Some e)].
    unfold rethrow. rewrite emit_run. simpl. by rewrite <- app_assoc.
Qed.


(** *** The start of a session *)

Lemma connect_events c :
  extends connecting (connect loadMcpConfig new_URL new_Client client_connect c).
Proof.
  intros s. unfold connect.
  destruct (getServer _ _ _) as [[serverConfig|]|error];
    [|by apply extends_ret|by apply extends_throw].
  assert (forall (c' : @McpConnection World) error,
            extends connecting
              (ret (false,
                    "Failed to connect to " +:+ serverName c +:+ ": " +:+
                    message error, c')
               : M (bool * string * @McpConnection World)))
    as Hfailed by (intros; apply extends_ret).
  destruct (_ && _).
  - apply extends_try_catch; [|intros e; apply Hfailed].
    apply extends_bind; [by apply extends_emit|intros _].
    apply extends_bind; [apply extends_await|intros _; apply extends_ret].
  - destruct (truthy_str _); [|by apply extends_ret].
    destruct (new_URL _) as [url|e]; [|apply Hfailed].
    apply extends_try_catch; [|intros e; apply Hfailed].
    apply extends_bind; [by apply extends_emit|intros _].
    apply extends_bind; [apply extends_await|intros _; apply extends_ret].
Qed.

Lemma connectToAllServers_events :
  extends connecting
    (connectToAllServers loadMcpConfig new_URL new_Client client_connect).
Proof.
  intros s. unfold connectToAllServers.
  apply extends_bind; [apply extends_lift|intros serverNames].
  destruct (_ =? _)%nat.
  - apply extends_bind; [by apply extends_emit|intros _].
    apply extends_bind; [by apply extends_emit|intros _; apply extends_ret].
  - apply extends_bind; [by apply extends_emit|intros _].
    apply extends_for_of. intros name connections _.
    apply extends_bind; [by apply extends_emit|intros _].
    apply extends_bind; [apply connect_events|intros [[success msg] c]].
    destruct success;
      (apply extends_bind; [by apply extends_emit|intros _; apply extends_ret]).
Qed.

Lemma connecting_quiet evs :
  Forall connecting evs ->
  prompts evs = [] /\ requests evs = [] /\ invocations evs = [].
Proof.
  induction 1 as [|ev evs Hev _ IH]; [done|]. by destruct ev.
Qed.


(** *** The catalog *)

Lemma fetchTools_run (c : McpConnection) allTools toolToServerMap s :
  exists evs,
    fetchTools c (allTools, toolToServerMap) s =
    (Returns (allTools ++ tagged (serverName c) (listed c (world s)).1,
              record (serverName c) toolToServerMap (listed c (world s)).1),
     mkState (listed c (world s)).2 (trace s ++ evs)).
Proof.
  unfold fetchTools, listed, listTools, getServerName.
  rewrite emit_run, bind_run. destruct (client c) as [cl|]; simpl.
  - unfold try_catch. rewrite emit_run, bind_run. unfold await. simpl.
    destruct (client_listTools cl (world s)) as [[tools|e] w']; simpl.
    + destruct (List.map toolData tools) as [|t ts]; rewrite emit_run; simpl;
        rewrite ?app_nil_r, <- ?app_assoc; eexists; reflexivity.
    + destruct (method_not_found e); simpl;
        repeat (rewrite emit_run; simpl);
        rewrite ?app_nil_r, <- ?app_assoc; eexists; reflexivity.
  - repeat (rewrite emit_run; simpl).
    rewrite ?app_nil_r, <- ?app_assoc. eexists. reflexivity.
Qed.

Lemma record_lookup srv m ts n :
  record srv m ts !! n = if lists_tool n ts then Some srv else m !! n.
Proof.
  unfold record, lists_tool. revert m.
  induction ts as [|t ts IH]; intros m; simpl; [done|].
  rewrite IH. destruct (existsb _ ts); [by rewrite orb_true_r|].
  rewrite orb_false_r. destruct (String.eqb_spec (tool_name t) n) as [->|Hne].
  - by rewrite lookup_insert_eq.
  - by rewrite lookup_insert_ne.
Qed.

Lemma catalogEntry_app l1 l2 n :
  catalogEntry (l1 ++ l2) n =
  match catalogEntry l1 n with
  | Some t => Some t
  | None => catalogEntry l2 n
  end.
Proof.
  unfold catalogEntry. induction l1 as [|t l1 IH]; simpl; [done|].
  by destruct (String.eqb (tool_name t) n).
Qed.

Lemma catalogEntry_tagged srv ts n :
  if lists_tool n ts
  then exists tool, catalogEntry (tagged srv ts) n = Some tool /\
                    tool_name tool = n /\ tool_serverName tool = Some srv
  else catalogEntry (tagged srv ts) n = None.
Proof.
  unfold lists_tool, catalogEntry. induction ts as [|t ts IH]; simpl; [done|].
  destruct (String.eqb_spec (tool_name t) n) as [E|_]; simpl; [eauto|exact IH].
Qed.

Lemma contributions_length (cs : list McpConnection) (w : World) :
  length (contributions cs w) = length cs.
Proof.
  revert w. induction cs as [|c cs IH]; intros w; simpl; [done|].
  destruct (listed c w) as [ts w']. simpl. by rewrite IH.
Qed.

Lemma catalog_length (cs : list (@McpConnection World)) lists :
  length lists = length cs ->
  length (catalog cs lists) = sum_list (List.map length lists).
Proof.
  revert lists. induction cs as [|c cs IH]; intros [|ts lists]; simpl; try done.
  intros [= Hlen]. unfold tagged. rewrite length_app, length_map. by rewrite IH.
Qed.

(** The entry of a name in the catalog is the one of its first owner. *)
Lemma catalogEntry_catalog (cs : list (@McpConnection World)) lists n :
  match owners n cs lists with
  | [] => catalogEntry (catalog cs lists) n = None
  | first :: _ =>
      exists tool, catalogEntry (catalog cs lists) n = Some tool /\
                   tool_name tool = n /\ tool_serverName tool = Some first
  end.
Proof.
  revert lists. induction cs as [|c cs IH]; intros [|ts lists]; simpl; try done.
  rewrite catalogEntry_app.
  pose proof (catalogEntry_tagged (serverName c) ts n) as Ht.
  fold (lists_tool n ts). destruct (lists_tool n ts); simpl.
  - destruct Ht as (tool & -> & ?). eauto.
  - rewrite Ht. apply IH.
Qed.

(** The loop over the connections builds the catalog of their tool lists,
    and its map records the last owner of each name. *)
Lemma catalog_run (cs : list McpConnection) allTools toolToServerMap s :
  exists toolToServerMap' s',
    for_of cs fetchTools (allTools, toolToServerMap) s =
    (Returns (allTools ++ catalog cs (contributions cs (world s)),
              toolToServerMap'), s') /\
    forall n,
      toolToServerMap' !! n =
      match last (owners n cs (contributions cs (world s))) with
      | Some srv => Some srv
      | None => toolToServerMap !! n
      end.
Proof.
  revert allTools toolToServerMap s.
  induction cs as [|c cs IH]; intros allTools m s.
  - exists m, s. simpl. by rewrite app_nil_r.
  - cbn [for_of contributions owners catalog].
    rewrite bind_run. destruct (fetchTools_run c allTools m s) as (evs & ->).
    destruct (listed c (world s)) as [ts w'] eqn:Hl. cbn [fst snd].
    destruct (IH (allTools ++ tagged (serverName c) ts)
                (record (serverName c) m ts) (mkState w' (trace s ++ evs)))
      as (m' & s' & -> & Hm').
    exists m', s'. cbn [catalog]. rewrite <- app_assoc. split; [done|].
    intros n. rewrite Hm'. cbn [owners world]. rewrite record_lookup.
    fold (lists_tool n ts).
    destruct (owners n cs (contributions cs w')) as [|o os] eqn:Ho using rev_ind.
    + rewrite app_nil_r. by destruct (lists_tool n ts).
    + by rewrite app_assoc, !last_snoc.
Qed.

End Properties.

(** ** The sample session, run *)

Example parse_arguments :
  JSON.parse pingArguments = Some (JObj [("text", JStr "ping")]).
Proof. reflexivity. Qed.

Example parse_failure : JSON.parse "{" = None /\ JSON.parse "" = None.
Proof. split; reflexivity. Qed.

Example parse_stringify :
  JSON.parse (JSON.stringify (textResult ("a" +:+ nl +:+ quoted "b"))) =
  Some (textResult ("a" +:+ nl +:+ quoted "b")).
Proof. reflexivity. Qed.

Example error_payload_text :
  errorPayload "Tool missing not found" =
  "{" +:+ quoted "error" +:+ ":" +:+ quoted "Tool missing not found" +:+ "}".
Proof. reflexivity. Qed.

(** The catalog of the sample session is the one the chat command builds. *)
Example sample_catalog :
  (for_of [alpha; gamma; legacy; beta] fetchTools ([], ∅) start).1 =
  Returns (sampleTools, {[ "add" := "alpha"; "echo" := "beta" ]}).
Proof. vm_compute. reflexivity. Qed.

(** The answer of the sample turn, and what it did on the way. *)
Example sample_turn :
  let turn :=
    callLLM sampleFetch sampleProc sampleHistory sampleTools [alpha; beta] start in
  turn.1 =
    Returns ("Tools used:" +:+ nl +:+ toolsIntro +:+
             "- Used echo on server alpha" +:+ nl +:+
             "  Result: " +:+ JSON.stringify (textResult "alpha") +:+ nl +:+ nl +:+
             "- Error using missing: Tool missing not found" +:+ nl +:+
             "- Used echo on server alpha" +:+ nl +:+
             "  Result: " +:+ JSON.stringify (textResult "alpha") +:+ nl +:+ nl +:+
             nl +:+ "All done.") /\
  invocations (trace turn.2) =
    [("alpha", "echo", JObj [("text", JStr "ping")]);
     ("alpha", "echo", argumentsPlaceholder)] /\
  length (requests (trace turn.2)) = 2%nat.
Proof. vm_compute. repeat split; reflexivity. Qed.

(** ** The properties

    C1 to C10 are the properties of the specification, in its order. *)



(** C2, as stated, fails: [alpha] and [beta] both list a tool [echo], all
    three listed tools are in the catalog, and a call to [echo] goes to
    [alpha], the first server that lists it, not to [beta], the last one
    (which is the one [toolToServerMap] records). *)
Lemma colliding_tool_is_routed_to_first_server :
  exists allTools toolToServerMap s',
    for_of [alpha; beta] fetchTools ([], ∅) start =
      (Returns (allTools, toolToServerMap), s') /\
    owners "echo" [alpha; beta] (contributions [alpha; beta] O) =
      ["alpha"; "beta"] /\
    length allTools = 3%nat /\
    toolToServerMap !! "echo" = Some "beta" /\
    invocations
      (trace (handleToolCall allTools [alpha; beta]
                (mkToolCall "call_1" "function" "echo" pingArguments)
                ([], "") start).2) =
      [("alpha", "echo", JObj [("text", JStr "ping")])].
Proof.
  eexists _, _, _. split; [reflexivity|].
  split; [reflexivity|]. split; [reflexivity|]. split; vm_compute; reflexivity.
Qed.

(** C2, amended. The catalog built from the connections holds every tool
    that every connection lists, [sum T_i] entries, also when names
    collide: colliding entries are all kept. When several connections list
    the same name, the first one in connection order owns it: the catalog
    entry that answers for the name is tagged with the first owner, a call
    to that name invokes nothing but the server of that name, and does
    invoke it, with the arguments of the call, when a connection of that
    name is established. ([toolToServerMap] records the last owner of each
    name; no dispatch reads it.) *)
Theorem catalog_keeps_all_and_first_wins {World}
    (connections : list (@McpConnection World)) (s : State) :
  let lists := contributions connections (world s) in
  exists allTools toolToServerMap s',
    for_of connections fetchTools ([], ∅) s =
      (Returns (allTools, toolToServerMap), s') /\
    length allTools = sum_list (List.map length lists) /\
    forall n,
      (owners n connections lists = [] -> catalogEntry allTools n = None) /\
      (forall first,
         head (owners n connections lists) = Some first ->
         (exists tool,
            catalogEntry allTools n = Some tool /\
            tool_name tool = n /\ tool_serverName tool = Some first) /\
         (forall toolCall (mcpConnections : list (@McpConnection World)) vars
                 (s0 : State) evs,
            call_name toolCall = n ->
            trace (handleToolCall allTools mcpConnections toolCall vars s0).2 =
              trace s0 ++ evs ->
            (forall srv n' a, (srv, n', a) ∈ invocations evs -> srv = first) /\
            (forall c cl,
               first <> "" ->
               List.find (fun c => String.eqb (getServerName c) first)
                 mcpConnections = Some c ->
               client c = Some cl ->
               invocations evs = [(first, n, toolArguments toolCall)]))) /\
      toolToServerMap !! n = last (owners n connections lists).
Proof.
  intros lists.
  destruct (catalog_run connections [] ∅ s) as (m & s' & Hrun & Hm).
  simpl in Hrun. fold lists in Hrun, Hm.
  exists (catalog connections lists), m, s'. split; [exact Hrun|].
  split; [apply catalog_length, contributions_length|].
  intros n. pose proof (catalogEntry_catalog connections lists n) as Hentry.
  split; [|split].
  - intros Ho. by rewrite Ho in Hentry.
  - intros first Hfirst.
    destruct (owners n connections lists) as [|o os]; [done|].
    injection Hfirst as ->. split; [exact Hentry|].
    intros toolCall mcpConnections vars s0 evs Hname Hevs.
    destruct Hentry as (tool' & Ht' & _ & Hs'). split.
    + intros srv n' a Hin.
      destruct (handleToolCall_events (catalog connections lists) mcpConnections
                  toolCall vars s0) as (evs' & Hevs' & F).
      rewrite Hevs in Hevs'. apply app_inv_head in Hevs'. subst evs'.
      destruct (invocations_routed _ _ _ _ _ _ F Hin) as (_ & _ & tool & Ht & Hs).
      rewrite Hname in Ht. congruence.
    + intros c cl Hne Hconn Hcl. rewrite <- Hname in Ht'.
      destruct (handleToolCall_invokes _ mcpConnections toolCall vars s0 _ _ _ _
                  Ht' Hs' Hne Hconn Hcl) as (evs' & Hevs' & Hinv).
      rewrite Hevs in Hevs'. apply app_inv_head in Hevs'. subst evs'.
      by rewrite Hinv, Hname.
  - rewrite Hm. rewrite lookup_empty. by destruct (last _).
Qed.

(** The sample catalog: [echo] is owned by [alpha]. *)
Lemma catalog_keeps_all_and_first_wins_witness :
  head (owners "echo" [alpha; beta] (contributions [alpha; beta] O)) =
    Some "alpha" /\
  exists allTools toolToServerMap s' tool,
    for_of [alpha; beta] fetchTools ([], ∅) start =
      (Returns (allTools, toolToServerMap), s') /\
    length allTools = 3%nat /\
    catalogEntry allTools "echo" = Some tool /\
    tool_serverName tool = Some "alpha".
Proof.
  split; [reflexivity|].
  destruct (catalog_keeps_all_and_first_wins [alpha; beta] start)
    as (allTools & m & s' & Hrun & Hlen & Hn).
  destruct (Hn "echo") as (_ & Hfirst & _).
  destruct (Hfirst "alpha" eq_refl) as [(tool & Hentry & _ & Hsrv) _].
  exists allTools, m, s', tool. split; [exact Hrun|].
  split; [exact Hlen|]. split; [exact Hentry|exact Hsrv].
Defined.

(** C3. A call to a tool whose name is not in the catalog is answered, under
    the id of the call, by a tool result that carries the serialized error
    [Tool <name> not found]; no server is invoked and nothing is thrown:
    handling the call returns, and so does the loop over any batch the call
    is part of, with that result at the position of the call. *)
Theorem unknown_tool_yields_error_result {World} mcpTools
    (mcpConnections : list (@McpConnection World)) toolCall :
  call_name toolCall ∉ List.map tool_name mcpTools ->
  let payload := errorPayload ("Tool " +:+ call_name toolCall +:+ " not found") in
  (forall updatedMessages result (s : State),
     exists summary s',
       handleToolCall mcpTools mcpConnections toolCall (updatedMessages, result) s =
         (Returns (updatedMessages ++ [ToolMessage (call_id toolCall) payload],
                   summary), s') /\
       world s' = world s /\
       invocations (trace s') = invocations (trace s)) /\
  (forall before after updatedMessages result (s : State),
     exists results summary s',
       for_of (before ++ toolCall :: after)
         (handleToolCall mcpTools mcpConnections) (updatedMessages, result) s =
         (Returns (updatedMessages ++ results, summary), s') /\
       length results = length (before ++ toolCall :: after) /\
       results !! length before = Some (ToolMessage (call_id toolCall) payload)).
Proof.
  intros Hnot%catalogEntry_None payload. split.
  - intros updatedMessages result s.
    destruct (handleToolCall_not_found mcpTools mcpConnections toolCall
                updatedMessages result s Hnot) as (evs & Hrun & Hinv).
    eexists _, _. split; [exact Hrun|]. simpl.
    by rewrite invocations_app, Hinv, app_nil_r.
  - intros before after updatedMessages result s.
    destruct (dispatch_loop mcpTools mcpConnections (before ++ toolCall :: after)
                updatedMessages result s) as (results & summary & s' & Hloop & F).
    exists results, summary, s'. split; [exact Hloop|]. split.
    + symmetry. by eapply Forall2_length.
    + assert ((before ++ toolCall :: after) !! length before = Some toolCall) as Hj
        by apply list_lookup_middle, eq_refl.
      destruct (dispatch_loop_at _ _ _ _ _ _ _ _ _ _ _ Hloop Hj)
        as (pre & sum_j & s_j & content & sum' & s'' & _ & Htc & Hres).
      destruct (handleToolCall_not_found mcpTools mcpConnections toolCall
                  (updatedMessages ++ pre) sum_j s_j Hnot) as (evs & Hrun & _).
      rewrite Hrun in Htc. injection Htc as Hc _ _.
      apply app_inv_head in Hc. injection Hc as <-. exact Hres.
Qed.

(** In the sample session nobody lists a tool [missing]. *)
Lemma unknown_tool_yields_error_result_witness :
  ("missing" ∉ List.map tool_name sampleTools) /\
  exists summary s',
    handleToolCall sampleTools [alpha; beta]
      (mkToolCall "call_2" "function" "missing" "{}") ([], "") start =
      (Returns ([ToolMessage "call_2" (errorPayload "Tool missing not found")],
                summary), s') /\
    invocations (trace s') = [].
Proof.
  assert ("missing" ∉ List.map tool_name sampleTools) as Hnot.
  { refine (bool_decide_unpack _ _). vm_compute. exact I. }
  split; [exact Hnot|].
  destruct (unknown_tool_yields_error_result sampleTools [alpha; beta]
              (mkToolCall "call_2" "function" "missing" "{}") Hnot) as [Hone _].
  destruct (Hone [] "" start) as (summary & s' & Hrun & _ & Hinv).
  exists summary, s'. split; [exact Hrun|exact Hinv].
Defined.

(** C4, as stated, fails: the answer of the sample turn is not the content
    of the follow-up answer, ["All done."], but that content after the
    summary of the tool calls. *)
Lemma final_answer_is_not_the_bare_content :
  response_content finalAnswerJson = Returns "All done." /\
  exists answer s',
    callLLM sampleFetch sampleProc sampleHistory sampleTools [alpha; beta] start =
      (Returns answer, s') /\
    answer <> "All done." /\
    startsWith ("Tools used:" +:+ nl +:+ toolsIntro) answer = true.
Proof.
  split; [reflexivity|].
  eexists _, _. split; [vm_compute; reflexivity|].
  split; [discriminate|reflexivity].
Qed.

(** C4, amended. After a batch of tool calls has been dispatched, exactly
    one follow-up request is sent: it carries the augmented messages and no
    tool catalog, and no tool is invoked and no request is sent after it.
    When it is answered, the turn returns the header [Tools used:], the
    summary of the batch and the content of that answer, whether or not the
    answer asks for tools again. *)
Theorem single_follow_up_request {World}
    (fetch : Request -> World -> Result Response * World) (proc : Process)
    history mcpTools (mcpConnections : list McpConnection) (s : State)
    response w json toolCalls :
  truthy_str (apiKey proc) = true ->
  fetch (firstRequest proc history mcpTools) (world s) = (Returns response, w) ->
  resp_ok response = true ->
  resp_json response = Returns json ->
  response_tool_calls json = Some toolCalls ->
  toolCalls <> [] ->
  let updatedMessages :=
    List.map formatMessage history ++ [toolCallRequest toolCalls] in
  let turn := callLLM fetch proc history mcpTools mcpConnections s in
  exists results summary s2,
    for_of toolCalls (handleToolCall mcpTools mcpConnections)
      (updatedMessages, toolsIntro)
      (answered s (firstRequest proc history mcpTools) w) =
      (Returns (updatedMessages ++ results, summary), s2) /\
    let followUp := followUpRequest proc (updatedMessages ++ results) in
    body_tools (req_body followUp) = None /\
    body_messages (req_body followUp) = updatedMessages ++ results /\
    requests (trace turn.2) =
      requests (trace s) ++ [firstRequest proc history mcpTools; followUp] /\
    (exists tail,
       trace turn.2 = trace s2 ++ Fetch followUp :: tail /\
       requests tail = [] /\ invocations tail = []) /\
    (forall finalResponse w2 finalJson content,
       fetch followUp (world s2) = (Returns finalResponse, w2) ->
       resp_ok finalResponse = true ->
       resp_json finalResponse = Returns finalJson ->
       response_content finalJson = Returns content ->
       turn = (Returns ("Tools used:" +:+ nl +:+ summary +:+ nl +:+ content),
               answered s2 followUp w2)).
Proof.
  intros Hkey Hfetch Hok Hjson Hcalls Hne updatedMessages turn.
  destruct (dispatch_loop mcpTools mcpConnections toolCalls updatedMessages
              toolsIntro (answered s (firstRequest proc history mcpTools) w))
    as (results & summary & s2 & Hloop & F).
  exists results, summary, s2. split; [exact Hloop|].
  destruct toolCalls as [|tc tcs]; [done|].
  destruct (callLLM_round_trace fetch proc history mcpTools mcpConnections s
              response w json tc tcs results summary s2 Hkey Hfetch Hok Hjson
              Hcalls Hloop) as (Hturn & tail & Htail & Hreq & Hinv & _).
  fold updatedMessages in Hturn, Htail. fold turn in Hturn, Htail.
  intros followUp. split; [reflexivity|]. split; [reflexivity|].
  split; [|split].
  - destruct (dispatch_loop_events mcpTools mcpConnections (tc :: tcs)
                (updatedMessages, toolsIntro)
                (answered s (firstRequest proc history mcpTools) w))
      as (evs & Hevs & Fevs).
    rewrite Hloop in Hevs. simpl in Hevs.
    apply routed_no_requests in Fevs as [Hnone _].
    rewrite Htail, Hevs, !requests_app. simpl. rewrite Hnone, Hreq.
    by rewrite <- !app_assoc.
  - exists tail. by split.
  - intros finalResponse w2 finalJson content Hf2 Hok2 Hjson2 Hcontent.
    rewrite Hturn. unfold try_catch.
    by rewrite (finalAnswer_returns fetch proc _ _ _ _ _ _ _ _ eq_refl Hf2 Hok2
                  Hjson2 Hcontent).
Qed.

(** The sample turn: its follow-up answer asks for tools again, and the
    turn ends all the same. *)
Lemma single_follow_up_request_witness :
  truthy_str (apiKey sampleProc) = true /\
  response_tool_calls toolCallAnswer = Some sampleCalls /\
  response_tool_calls finalAnswerJson = Some sampleCalls /\
  exists followUp,
    requests
      (trace (callLLM sampleFetch sampleProc sampleHistory sampleTools
                [alpha; beta] start).2) =
    [firstRequest sampleProc sampleHistory sampleTools; followUp] /\
    body_tools (req_body followUp) = None.
Proof.
  repeat split; try reflexivity.
  destruct (single_follow_up_request sampleFetch sampleProc sampleHistory
              sampleTools [alpha; beta] start (okResponse toolCallAnswer) 1%nat
              toolCallAnswer sampleCalls eq_refl eq_refl eq_refl eq_refl eq_refl
              ltac:(discriminate))
    as (results & summary & s2 & _ & Htools & _ & Hreq & _).
  eexists. split; [exact Hreq|exact Htools].
Defined.

(** C5, as stated, fails: in the follow-up request of the sample turn the
    tool-call request of the model stands before the three tool results,
    not after them. *)
Lemma tool_call_request_is_not_appended_last :
  exists req results,
    requests
      (trace (callLLM sampleFetch sampleProc sampleHistory sampleTools
                [alpha; beta] start).2) =
      [firstRequest sampleProc sampleHistory sampleTools; req] /\
    body_messages (req_body req) =
      List.map formatMessage sampleHistory ++ toolCallRequest sampleCalls :: results /\
    List.map resultFor results = [Some "call_1"; Some "call_2"; Some "call_3"] /\
    last (body_messages (req_body req)) <> Some (toolCallRequest sampleCalls) /\
    body_messages (req_body req) <>
      List.map formatMessage sampleHistory ++ results ++ [toolCallRequest sampleCalls].
Proof.
  eexists _, _. split; [vm_compute; reflexivity|].
  split; [vm_compute; reflexivity|].
  split; [reflexivity|]. split; [vm_compute; discriminate|].
  vm_compute. discriminate.
Qed.

(** C5, amended. When the model returns a non-empty list of tool calls, its
    tool-call request is appended to the formatted messages before any call
    is handled: every call of the batch finds it in place, right after the
    history and before the results of the earlier calls. The results follow
    it in the order of the calls, and then the follow-up request is sent
    with these messages. *)
Theorem tool_call_request_precedes_results {World}
    (fetch : Request -> World -> Result Response * World) (proc : Process)
    history mcpTools (mcpConnections : list McpConnection) (s : State)
    response w json toolCalls :
  truthy_str (apiKey proc) = true ->
  fetch (firstRequest proc history mcpTools) (world s) = (Returns response, w) ->
  resp_ok response = true ->
  resp_json response = Returns json ->
  response_tool_calls json = Some toolCalls ->
  toolCalls <> [] ->
  let handle := handleToolCall mcpTools mcpConnections in
  let formattedMessages := List.map formatMessage history in
  let updatedMessages := formattedMessages ++ [toolCallRequest toolCalls] in
  let s1 := answered s (firstRequest proc history mcpTools) w in
  exists results summary s2,
    for_of toolCalls handle (updatedMessages, toolsIntro) s1 =
      (Returns (formattedMessages ++ toolCallRequest toolCalls :: results,
                summary), s2) /\
    List.map resultFor results =
      List.map (fun toolCall => Some (call_id toolCall)) toolCalls /\
    (forall j toolCall,
       toolCalls !! j = Some toolCall ->
       exists earlier summary_j s_j,
         for_of (take j toolCalls) handle (updatedMessages, toolsIntro) s1 =
           (Returns (formattedMessages ++ toolCallRequest toolCalls :: earlier,
                     summary_j), s_j) /\
         earlier = take j results) /\
    exists tail,
      trace (callLLM fetch proc history mcpTools mcpConnections s).2 =
        trace s2 ++
        Fetch (followUpRequest proc
                 (formattedMessages ++ toolCallRequest toolCalls :: results))
        :: tail /\
      requests tail = [].
Proof.
  intros Hkey Hfetch Hok Hjson Hcalls Hne handle formattedMessages
    updatedMessages s1. subst handle.
  destruct (dispatch_loop mcpTools mcpConnections toolCalls updatedMessages
              toolsIntro s1) as (results & summary & s2 & Hloop & F).
  assert (forall l, updatedMessages ++ l =
                    formattedMessages ++ toolCallRequest toolCalls :: l) as Hcons
    by (intros l; unfold updatedMessages; by rewrite <- app_assoc).
  exists results, summary, s2. rewrite <- Hcons.
  split; [exact Hloop|]. split; [by apply results_ids|]. split.
  - intros j tc Hj.
    pose proof Hloop as Hsplit.
    rewrite <- (take_drop j toolCalls), for_of_app in Hsplit.
    destruct (dispatch_loop mcpTools mcpConnections (take j toolCalls)
                updatedMessages toolsIntro s1)
      as (earlier & sum_j & s_j & Hpre & Fpre).
    rewrite Hpre in Hsplit.
    destruct (dispatch_loop mcpTools mcpConnections (drop j toolCalls)
                (updatedMessages ++ earlier) sum_j s_j)
      as (later & sum' & s' & Hpost & _).
    rewrite Hpost in Hsplit. injection Hsplit as Hres _ _.
    rewrite <- app_assoc in Hres. apply app_inv_head in Hres. subst results.
    exists earlier, sum_j, s_j. rewrite <- Hcons. split; [exact Hpre|].
    apply Forall2_length in Fpre.
    rewrite length_take_le in Fpre by (apply lookup_lt_Some in Hj; lia).
    by rewrite take_app_length' by done.
  - destruct toolCalls as [|tc tcs]; [done|].
    destruct (callLLM_round_trace fetch proc history mcpTools mcpConnections s
                response w json tc tcs results summary s2 Hkey Hfetch Hok Hjson
                Hcalls Hloop) as (_ & tail & Htail & Hreq & _).
    exists tail. split; [exact Htail|exact Hreq].
Qed.

(** The sample turn. *)
Lemma tool_call_request_precedes_results_witness :
  truthy_str (apiKey sampleProc) = true /\
  response_tool_calls toolCallAnswer = Some sampleCalls /\
  exists results summary s2,
    for_of sampleCalls (handleToolCall sampleTools [alpha; beta])
      (List.map formatMessage sampleHistory ++ [toolCallRequest sampleCalls],
       toolsIntro)
      (answered start (firstRequest sampleProc sampleHistory sampleTools) 1%nat) =
      (Returns (List.map formatMessage sampleHistory ++
                toolCallRequest sampleCalls :: results, summary), s2) /\
    length results = 3%nat.
Proof.
  repeat split; try reflexivity.
  destruct (tool_call_request_precedes_results sampleFetch sampleProc
              sampleHistory sampleTools [alpha; beta] start
              (okResponse toolCallAnswer) 1%nat toolCallAnswer sampleCalls
              eq_refl eq_refl eq_refl eq_refl eq_refl ltac:(discriminate))
    as (results & summary & s2 & Hloop & Hids & _).
  exists results, summary, s2. split; [exact Hloop|].
  apply (f_equal length) in Hids. by rewrite !length_map in Hids.
Defined.

(** C6. When the model query of a turn throws, the turn logs the error,
    prints the apology and appends it to the history as the assistant's
    message, after the user's message and the history before it; the chat
    stays active, and the loop goes on from there with that history. *)
Theorem llm_failure_becomes_apology {World}
    (fetch : Request -> World -> Result Response * World)
    (question : string -> World -> string * World) (proc : Process)
    allTools (connections : list McpConnection) history (s : State)
    line w error s2 :
  question "You: " (world s) = (line, w) ->
  isExit line = false ->
  let asked :=
    mkState w (trace s ++ [Question "You: "; ConsoleLog "AI is thinking..."]) in
  let history' := history ++ [mkMessage "user" (CString line)] in
  callLLM fetch proc history' allTools connections asked = (Throws error, s2) ->
  let apologized :=
    mkState (world s2)
      (trace s2 ++ [ConsoleError "Error calling LLM:" (Some error);
                    ConsoleLog ("AI: " +:+ errorMessage)]) in
  let history'' := history' ++ [mkMessage "assistant" (CString errorMessage)] in
  chatTurn fetch question proc allTools connections history s =
    (Returns (true, history''), apologized) /\
  forall fuel,
    chatLoop fetch question proc (S fuel) allTools connections history s =
    chatLoop fetch question proc fuel allTools connections history'' apologized.
Proof.
  intros Hq Hexit asked history' Hthrow apologized history''.
  assert (chatTurn fetch question proc allTools connections history s =
          (Returns (true, history''), apologized)) as Hturn.
  { unfold chatTurn. rewrite emit_run, bind_run. unfold await. simpl world.
    rewrite Hq, Hexit. unfold try_catch. rewrite emit_run, bind_run.
    simpl trace. rewrite <- app_assoc. simpl app.
    simpl world. fold asked. fold history'. rewrite Hthrow.
    rewrite !emit_run. simpl. unfold apologized. by rewrite <- app_assoc. }
  split; [exact Hturn|].
  intros fuel. simpl. by rewrite bind_run, Hturn.
Qed.

(** A turn of the sample session while the provider cannot be reached. *)
Lemma llm_failure_becomes_apology_witness :
  isExit "ping the servers" = false /\
  exists s',
    chatTurn offlineFetch sampleQuestion sampleProc sampleTools [alpha; beta]
      [systemMessage] start =
    (Returns (true, [systemMessage;
                     mkMessage "user" (CString "ping the servers");
                     mkMessage "assistant" (CString errorMessage)]), s').
Proof.
  split; [reflexivity|].
  destruct (llm_failure_becomes_apology offlineFetch sampleQuestion sampleProc
              sampleTools [alpha; beta] [systemMessage] start
              "ping the servers" O (Error "fetch failed")
              (callLLM offlineFetch sampleProc
                 ([systemMessage] ++ [mkMessage "user" (CString "ping the servers")])
                 sampleTools [alpha; beta]
                 (mkState O [Question "You: "; ConsoleLog "AI is thinking..."])).2
              eq_refl eq_refl eq_refl) as [Hturn _].
  eexists. exact Hturn.
Defined.

(** C7, as stated, fails: the third call of the sample session has
    arguments that do not parse, yet its tool result is not an error
    payload. The placeholder was sent to the tool as its arguments, and the
    result of the call is what the tool answered. *)
Lemma unparsable_arguments_reach_the_tool :
  JSON.parse "{" = None /\
  exists content summary s',
    handleToolCall sampleTools [alpha; beta]
      (mkToolCall "call_3" "function" "echo" "{") ([], "") start =
      (Returns ([ToolMessage "call_3" content], summary), s') /\
    content = JSON.stringify (textResult "alpha") /\
    (forall msg, content <> errorPayload msg) /\
    invocations (trace s') = [("alpha", "echo", argumentsPlaceholder)].
Proof.
  split; [reflexivity|].
  eexists _, _, _. split; [vm_compute; reflexivity|].
  split; [reflexivity|]. split; [|reflexivity].
  intros msg H. vm_compute in H. discriminate H.
Qed.

(** C7, amended. When the arguments of a call do not parse, the parse
    error is logged and the placeholder [{_error: "Failed to parse
    arguments"}] takes their place: the call is dispatched with the
    placeholder, so any invocation it makes carries the placeholder as
    arguments. The call yields exactly one tool result under its id (what
    the tool answers, or the error payload of a failed dispatch); nothing is
    thrown, and the loop over a batch that holds the call runs to its end
    with one result per call. *)
Theorem unparsable_arguments_are_replaced {World} mcpTools
    (mcpConnections : list (@McpConnection World)) toolCall :
  JSON.parse (call_arguments toolCall) = None ->
  (forall updatedMessages result (s : State),
     handleToolCall mcpTools mcpConnections toolCall (updatedMessages, result) s =
       try_catch
         (tryToolCall mcpTools mcpConnections toolCall argumentsPlaceholder
            (updatedMessages, result))
         (toolCallFailed toolCall (updatedMessages, result))
         (mkState (world s)
            (trace s ++
             [ConsoleError "Error parsing tool arguments:" (Some SyntaxError)])) /\
     exists content summary s' evs,
       handleToolCall mcpTools mcpConnections toolCall (updatedMessages, result) s =
         (Returns (updatedMessages ++ [ToolMessage (call_id toolCall) content],
                   summary), s') /\
       trace s' = trace s ++ evs /\
       forall srv n a,
         (srv, n, a) ∈ invocations evs ->
         n = call_name toolCall /\ a = argumentsPlaceholder) /\
  (forall before after updatedMessages result (s : State),
     exists results summary s' content,
       for_of (before ++ toolCall :: after)
         (handleToolCall mcpTools mcpConnections) (updatedMessages, result) s =
         (Returns (updatedMessages ++ results, summary), s') /\
       length results = length (before ++ toolCall :: after) /\
       results !! length before = Some (ToolMessage (call_id toolCall) content)).
Proof.
  intros Hparse.
  assert (toolArguments toolCall = argumentsPlaceholder) as Hargs
    by (unfold toolArguments; by rewrite Hparse).
  split.
  - intros updatedMessages result s. split.
    + unfold handleToolCall, parseArguments. rewrite Hparse.
      rewrite bind_run, emit_run. reflexivity.
    + destruct (handleToolCall_returns mcpTools mcpConnections toolCall
                  updatedMessages result s) as (content & summary & s' & Hrun & _).
      destruct (handleToolCall_events mcpTools mcpConnections toolCall
                  (updatedMessages, result) s) as (evs & Hevs & F).
      rewrite Hrun in Hevs. simpl in Hevs.
      exists content, summary, s', evs. split; [exact Hrun|]. split; [exact Hevs|].
      intros srv n a Hin.
      destruct (invocations_routed _ _ _ _ _ _ F Hin) as (-> & -> & _).
      by rewrite Hargs.
  - intros before after updatedMessages result s.
    destruct (dispatch_loop mcpTools mcpConnections (before ++ toolCall :: after)
                updatedMessages result s) as (results & summary & s' & Hloop & F).
    assert ((before ++ toolCall :: after) !! length before = Some toolCall) as Hj
      by apply list_lookup_middle, eq_refl.
    destruct (dispatch_loop_at _ _ _ _ _ _ _ _ _ _ _ Hloop Hj)
      as (pre & sum_j & s_j & content & sum' & s'' & _ & _ & Hres).
    exists results, summary, s', content. split; [exact Hloop|].
    split; [symmetry; by eapply Forall2_length|exact Hres].
Qed.

(** The third call of the sample session, alone and in its batch. *)
Lemma unparsable_arguments_are_replaced_witness :
  JSON.parse "{" = None /\
  exists results summary s',
    for_of sampleCalls (handleToolCall sampleTools [alpha; beta]) ([], "") start =
      (Returns (results, summary), s') /\
    length results = 3%nat.
Proof.
  split; [reflexivity|].
  destruct (unparsable_arguments_are_replaced sampleTools [alpha; beta]
              (mkToolCall "call_3" "function" "echo" "{") eq_refl) as [_ Hbatch].
  destruct (Hbatch (take 2 sampleCalls) [] [] "" start)
    as (results & summary & s' & content & Hloop & Hlen & _).
  exists results, summary, s'. split; [exact Hloop|exact Hlen].
Defined.

(** C8, as stated, fails: with no server configured, the fatal message is
    the last line the session prints, but not the only one. *)
Lemma fatal_message_is_not_the_only_output :
  connectToAllServers emptyConfig sample_URL sample_Client sample_connect
    (mkState O (banner ++ [connectingMessage])) =
    (Returns [],
     mkState O
       (banner ++
        [connectingMessage;
         ConsoleError "No servers configured." None;
         ConsoleError ("Run " +:+ quoted "mcp-terminal configure" +:+
                       " to set up servers.") None])) /\
  exists final,
    startChatSession sampleFetch sampleQuestion emptyConfig sample_URL
      sample_Client sample_connect sampleProc 3 start =
      (Returns (Some tt), final) /\
    printed (trace final) =
      ["Starting chat session with LLM...";
       "Type 'exit' or 'quit' to end the session." +:+ nl;
       "Connecting to all available MCP servers...";
       "No servers configured.";
       "Run " +:+ quoted "mcp-terminal configure" +:+ " to set up servers.";
       noServersMessage] /\
    printed (trace final) <> [noServersMessage].
Proof.
  split; [reflexivity|].
  eexists. split; [vm_compute; reflexivity|].
  split; [reflexivity|discriminate].
Qed.

(** C8, amended. When connecting to the servers yields no connection, the
    session returns without entering the chat loop: after the banner and
    the lines of the connection attempts it prints the fatal message, closes
    the terminal and returns; nothing is printed after the fatal message, no
    prompt is shown, no model request is sent and no tool is invoked. (When
    no API key is found the session ends even before it connects, after the
    two lines about the key.) *)
Theorem no_connections_no_session {World}
    (fetch : Request -> World -> Result Response * World)
    (question : string -> World -> string * World)
    (loadMcpConfig : World -> McpConfig) (new_URL : string -> Result string)
    (new_Client : string -> Transport -> @Client World)
    (client_connect : string -> Transport -> World -> Result unit * World)
    (proc : Process) (fuel : nat) (s s1 : State) :
  connectToAllServers loadMcpConfig new_URL new_Client client_connect
    (mkState (world s) (trace s ++ banner ++ [connectingMessage])) =
    (Returns [], s1) ->
  exists before fatal final,
    startChatSession fetch question loadMcpConfig new_URL new_Client
      client_connect proc fuel s = (Returns (Some tt), final) /\
    trace final = trace s ++ before ++ [ConsoleLog fatal; RlClose] /\
    prompts before = [] /\ requests before = [] /\ invocations before = [] /\
    (checkOpenAIKey proc = true ->
     fatal = noServersMessage /\ world final = world s1 /\
     trace s1 = trace s ++ before).
Proof.
  intros Hconnect. unfold startChatSession.
  rewrite !emit_run. simpl trace. rewrite <- app_assoc. simpl app.
  destruct (checkOpenAIKey proc); cbn [negb].
  - rewrite emit_run, bind_run. simpl world. simpl trace.
    rewrite <- app_assoc. simpl app.
    pose proof Hconnect as Hconnect'.
    unfold banner, connectingMessage in Hconnect'. simpl app in Hconnect'.
    rewrite Hconnect'. cbn [length Nat.eqb].
    rewrite !emit_run. simpl.
    destruct (connectToAllServers_events loadMcpConfig new_URL new_Client
                client_connect
                (mkState (world s) (trace s ++ banner ++ [connectingMessage])))
      as (evs & Hevs & Fevs).
    rewrite Hconnect in Hevs. simpl in Hevs.
    apply connecting_quiet in Fevs as (Hp & Hr & Hi).
    exists (banner ++ [connectingMessage] ++ evs), noServersMessage.
    eexists. split; [reflexivity|]. simpl trace.
    rewrite Hevs, <- !app_assoc. split; [reflexivity|].
    unfold prompts, requests, invocations in *.
    rewrite !omap_app, Hp, Hr, Hi. repeat split; reflexivity.
  - rewrite !emit_run. simpl.
    eexists (banner ++ [ConsoleLog _]), _, _. split; [reflexivity|]. simpl.
    rewrite <- !app_assoc. repeat split; try reflexivity; discriminate.
Qed.

(** A session with no server configured. *)
Lemma no_connections_no_session_witness :
  connectToAllServers emptyConfig sample_URL sample_Client sample_connect
    (mkState O (banner ++ [connectingMessage])) =
    (Returns [],
     mkState O
       (banner ++
        [connectingMessage;
         ConsoleError "No servers configured." None;
         ConsoleError ("Run " +:+ quoted "mcp-terminal configure" +:+
                       " to set up servers.") None])) /\
  exists before final,
    startChatSession sampleFetch sampleQuestion emptyConfig sample_URL
      sample_Client sample_connect sampleProc 3 start =
      (Returns (Some tt), final) /\
    trace final = before ++ [ConsoleLog noServersMessage; RlClose] /\
    prompts before = [] /\ requests before = [].
Proof.
  split; [reflexivity|].
  destruct (no_connections_no_session sampleFetch sampleQuestion emptyConfig
              sample_URL sample_Client sample_connect sampleProc 3 start _
              eq_refl)
    as (before & fatal & final & Hrun & Htrace & Hp & Hr & _ & Hkey).
  destruct (Hkey eq_refl) as (-> & _).
  exists before, final. split; [exact Hrun|]. split; [exact Htrace|]. by split.
Defined.

(** C9. With a key in the environment, a turn begins by sending the
    history to the provider, message by message: a role other than
    ["system"], ["user"] and ["assistant"] is sent as [user], a recognized
    role is sent as it is; a content that is a string is sent as it is, any
    other content is sent as its JSON text. *)
Theorem history_is_formatted {World}
    (fetch : Request -> World -> Result Response * World) (proc : Process)
    history mcpTools (mcpConnections : list McpConnection) (s : State) :
  truthy_str (apiKey proc) = true ->
  let sent := body_messages (req_body (firstRequest proc history mcpTools)) in
  (exists tail,
     trace (callLLM fetch proc history mcpTools mcpConnections s).2 =
     trace s ++ Fetch (firstRequest proc history mcpTools) :: tail) /\
  Forall2
    (fun msg out =>
       exists role content,
         out = ChatMessage role (Some content) None /\
         (msg_role msg ∈ ["system"; "user"; "assistant"] ->
          roleName role = msg_role msg) /\
         (msg_role msg ∉ ["system"; "user"; "assistant"] -> role = user) /\
         match msg_content msg with
         | CString str => content = str
         | CArray vs => content = JSON.stringify (JArr vs)
         end)
    history sent.
Proof.
  intros Hkey sent. split; [by apply callLLM_first_request|].
  subst sent. simpl. induction history as [|msg history IH]; constructor; [|exact IH].
  exists (formatRole (msg_role msg)), (formatContent (msg_content msg)).
  split; [reflexivity|]. unfold formatRole. repeat split.
  - intros Hin. repeat (apply elem_of_cons in Hin as [->|Hin]); try done.
    by apply elem_of_nil in Hin.
  - intros Hnot.
    destruct (String.eqb_spec (msg_role msg) "system") as [E|_];
      [rewrite E in Hnot; exfalso; apply Hnot; set_solver|].
    destruct (String.eqb_spec (msg_role msg) "user") as [E|_]; [done|].
    destruct (String.eqb_spec (msg_role msg) "assistant") as [E|_]; [|done].
    rewrite E in Hnot. exfalso. apply Hnot. set_solver.
  - by destruct (msg_content msg).
Qed.

(** A history with a tool role and a structured content. *)
Lemma history_is_formatted_witness :
  truthy_str (apiKey sampleProc) = true /\
  exists tail,
    trace (callLLM sampleFetch sampleProc
             [mkMessage "tool" (CArray [JStr "a"; JNum 1 0]);
              mkMessage "assistant" (CString "hello")] [] [alpha] start).2 =
    Fetch
      (mkRequest "https://api.openai.com/v1/chat/completions" "Bearer sk-test"
         (mkBody "gpt-4o"
            [ChatMessage user
               (Some (JSON.stringify (JArr [JStr "a"; JNum 1 0]))) None;
             ChatMessage assistant (Some "hello") None]
            temperature None)) :: tail.
Proof.
  split; [reflexivity|].
  destruct (history_is_formatted sampleFetch sampleProc
              [mkMessage "tool" (CArray [JStr "a"; JNum 1 0]);
               mkMessage "assistant" (CString "hello")] [] [alpha] start eq_refl)
    as [[tail Htail] _].
  exists tail. exact Htail.
Defined.

(** C10. On a connection without a client, [listTools] and [listResources]
    return null and [callTool] throws. On a connection with a client,
    [listTools] returns null, and logs nothing, when the server answers the
    listing of its tools with the error code -32601, and so does
    [listResources] when the server answers the listing of its resources
    with that code; each listing on its own, whatever the server does with
    the other. *)
Theorem unconnected_and_unsupported {World} (c : @McpConnection World)
    (s : State) :
  (client c = None ->
   listTools c s = (Returns None, s) /\
   listResources c s = (Returns None, s) /\
   forall toolName args,
     callTool c toolName args s =
     (Throws (Error "MCP client is not connected"), s)) /\
  (forall cl e w,
     client c = Some cl ->
     client_listTools cl (world s) = (Throws e, w) ->
     code e = Some (-32601) ->
     listTools c s =
       (Returns None, mkState w (trace s ++ [ListTools (serverName c)]))) /\
  (forall cl e w,
     client c = Some cl ->
     client_listResources cl (world s) = (Throws e, w) ->
     code e = Some (-32601) ->
     listResources c s =
       (Returns None, mkState w (trace s ++ [ListResources (serverName c)]))).
Proof.
  unfold listTools, listResources, callTool.
  split; [|split].
  - intros ->. repeat split.
  - intros cl e w -> Ht He.
    unfold try_catch. rewrite emit_run, bind_run. unfold await. simpl.
    rewrite Ht. unfold method_not_found. by rewrite He.
  - intros cl e w -> Hr He.
    unfold try_catch. rewrite emit_run, bind_run. unfold await. simpl.
    rewrite Hr. unfold method_not_found. by rewrite He.
Qed.

(** The connection that was never established, the server that predates
    the listings, and a server that lists its resources and not its
    tools. *)
Lemma unconnected_and_unsupported_witness :
  client gamma = None /\
  client legacy = Some legacyClient /\
  code methodNotFound = Some (-32601) /\
  listTools gamma start = (Returns None, start) /\
  listResources gamma start = (Returns None, start) /\
  callTool gamma "echo" JNull start =
    (Throws (Error "MCP client is not connected"), start) /\
  listTools legacy start = (Returns None, mkState O [ListTools "legacy"]) /\
  listResources legacy start =
    (Returns None, mkState O [ListResources "legacy"]) /\
  listTools half start = (Returns None, mkState O [ListTools "half"]) /\
  listResources half start =
    (Returns (Some [mkResource "file:///notes" "notes"]),
     mkState O [ListResources "half"]).
Proof.
  destruct (unconnected_and_unsupported gamma start) as (Hgamma & _ & _).
  destruct (Hgamma eq_refl) as (H1 & H2 & H3).
  destruct (unconnected_and_unsupported legacy start) as (_ & Ht & Hr).
  destruct (unconnected_and_unsupported half start) as (_ & Hhalf & _).
  split; [reflexivity|]. split; [reflexivity|]. split; [reflexivity|].
  split; [exact H1|]. split; [exact H2|]. split; [exact (H3 "echo" JNull)|].
  split; [exact (Ht legacyClient methodNotFound O eq_refl eq_refl eq_refl)|].
  split; [exact (Hr legacyClient methodNotFound O eq_refl eq_refl eq_refl)|].
  split; [exact (Hhalf halfClient methodNotFound O eq_refl eq_refl eq_refl)|].
  reflexivity.
Defined.

(** ** Further properties of the code *)

(** *** [callLLM] outside the tool round *)

Lemma callLLM_no_key {World} (fetch : Request -> World -> Result Response * World)
    proc history mcpTools (mcpConnections : list McpConnection) (s : State) :
  truthy_str (apiKey proc) = false ->
  let error := Error (toUpperCase (provider proc) +:+
                      "_API_KEY environment variable is not set") in
  callLLM fetch proc history mcpTools mcpConnections s =
  (Throws error,
   mkState (world s) (trace s ++ [ConsoleError "Error in callLLM:" (Some error)])).
Proof. intros Hkey error. unfold callLLM, try_catch. by rewrite Hkey. Qed.

(** X1. When the key of the selected provider is missing from the
    environment, a chat turn sends no request and invokes no tool: the model
    call fails at once, the failure is logged, and the turn answers with the
    apology, which joins the history after the user's message. *)
Theorem turn_without_key {World}
    (fetch : Request -> World -> Result Response * World)
    (question : string -> World -> string * World) (proc : Process)
    allTools (connections : list McpConnection) history (s : State) line w :
  truthy_str (apiKey proc) = false ->
  question "You: " (world s) = (line, w) ->
  isExit line = false ->
  let error := Error (toUpperCase (provider proc) +:+
                      "_API_KEY environment variable is not set") in
  chatTurn fetch question proc allTools connections history s =
  (Returns (true, history ++ exchanges [(line, errorMessage)]),
   mkState w
     (trace s ++
      [Question "You: "; ConsoleLog "AI is thinking...";
       ConsoleError "Error in callLLM:" (Some error)] ++ apologyEvents error)).
Proof.
  intros Hkey Hq Hexit error.
  unfold chatTurn. rewrite emit_run, bind_run. unfold await. simpl world.
  rewrite Hq, Hexit. unfold try_catch. rewrite emit_run, bind_run.
  rewrite (callLLM_no_key fetch proc _ _ _ _ Hkey). cbv zeta.
  rewrite !emit_run. simpl. rewrite <- !app_assoc. reflexivity.
Qed.

(** OpenAI is the provider by default; a DeepSeek key does not help. *)
Lemma turn_without_key_witness :
  truthy_str (apiKey keylessProc) = false /\
  isExit "ping the servers" = false /\
  exists s',
    chatTurn sampleFetch sampleQuestion keylessProc sampleTools [alpha; beta]
      [systemMessage] start =
    (Returns (true, [systemMessage;
                     mkMessage "user" (CString "ping the servers");
                     mkMessage "assistant" (CString errorMessage)]), s') /\
    requests (trace s') = [] /\ invocations (trace s') = [].
Proof.
  split; [reflexivity|]. split; [reflexivity|].
  eexists. split.
  - exact (turn_without_key sampleFetch sampleQuestion keylessProc sampleTools
             [alpha; beta] [systemMessage] start "ping the servers" O
             eq_refl eq_refl eq_refl).
  - split; reflexivity.
Defined.

(** X2. When the model answers without tool calls (none at all, or an
    empty list), the turn is over after that one request: its content is the
    answer, the empty string when the content is null, and no tool is
    invoked and no follow-up request is sent. *)
Theorem plain_answer_ends_the_turn {World}
    (fetch : Request -> World -> Result Response * World) (proc : Process)
    history mcpTools (mcpConnections : list McpConnection) (s : State)
    response w choice rest msg :
  truthy_str (apiKey proc) = true ->
  fetch (firstRequest proc history mcpTools) (world s) = (Returns response, w) ->
  resp_ok response = true ->
  resp_json response = Returns (mkResponse (Some (choice :: rest))) ->
  choice_message choice = Some msg ->
  cm_tool_calls msg = None \/ cm_tool_calls msg = Some [] ->
  callLLM fetch proc history mcpTools mcpConnections s =
  (Returns (match cm_content msg with
            | Some text => text
            | None => ""
            end),
   answered s (firstRequest proc history mcpTools) w).
Proof.
  intros Hkey Hfetch Hok Hjson Hmsg Hcalls.
  unfold callLLM, try_catch. rewrite Hkey. cbn [negb].
  rewrite bind_run, post_run. cbv zeta.
  fold (firstRequest proc history mcpTools).
  rewrite Hfetch, Hok. cbn [negb].
  rewrite bind_run. unfold lift at 1. rewrite Hjson.
  unfold response_tool_calls, response_content, lift. cbn [choices].
  rewrite Hmsg. unfold str_or, truthy_str.
  assert (forall o : option string,
            (if match o with Some s0 => negb (String.eqb s0 "") | None => false end
             then default "" o else "") =
            match o with Some text => text | None => "" end) as Hor.
  { intros [t|]; [|done]. simpl. by destruct (String.eqb_spec t "") as [->|]. }
  destruct Hcalls as [-> | ->]; by rewrite Hor.
Qed.

Lemma plain_answer_ends_the_turn_witness :
  truthy_str (apiKey sampleProc) = true /\
  callLLM helloFetch sampleProc sampleHistory sampleTools [alpha; beta] start =
  (Returns "Hello",
   mkState 1%nat [Fetch (firstRequest sampleProc sampleHistory sampleTools)]).
Proof.
  split; [reflexivity|].
  exact (plain_answer_ends_the_turn helloFetch sampleProc sampleHistory
           sampleTools [alpha; beta] start (okResponse helloAnswer) 1%nat
           (mkChoice (Some (mkChoiceMessage (Some "Hello") "assistant" (Some [])))
              "stop" 0) []
           (mkChoiceMessage (Some "Hello") "assistant" (Some []))
           eq_refl eq_refl eq_refl eq_refl eq_refl (or_intror eq_refl)).
Defined.

(** X3. When the provider rejects the first request (a response that is
    not ok), the turn throws an error that carries the provider's name in
    upper case, the status, the status text and the body; the body is never
    read as an answer, so no tool is invoked and no second request is sent,
    and the error is logged once before it is rethrown. *)
Theorem rejected_request_fails_the_turn {World}
    (fetch : Request -> World -> Result Response * World) (proc : Process)
    history mcpTools (mcpConnections : list McpConnection) (s : State)
    response w errorText :
  truthy_str (apiKey proc) = true ->
  fetch (firstRequest proc history mcpTools) (world s) = (Returns response, w) ->
  resp_ok response = false ->
  resp_text response = Returns errorText ->
  let error :=
    Error (toUpperCase (provider proc) +:+ " API error: " +:+
           Z_to_string (resp_status response) +:+ " " +:+
           resp_statusText response +:+ " - " +:+ errorText) in
  callLLM fetch proc history mcpTools mcpConnections s =
  (Throws error,
   mkState w (trace s ++ [Fetch (firstRequest proc history mcpTools);
                          ConsoleError "Error in callLLM:" (Some error)])).
Proof.
  intros Hkey Hfetch Hok Htext error.
  unfold callLLM, try_catch. rewrite Hkey. cbn [negb].
  rewrite bind_run, post_run. cbv zeta.
  fold (firstRequest proc history mcpTools).
  rewrite Hfetch, Hok. cbn [negb].
  rewrite bind_run. unfold lift. rewrite Htext.
  unfold throw, rethrow. rewrite emit_run. unfold answered. simpl.
  by rewrite <- app_assoc.
Qed.

Lemma rejected_request_fails_the_turn_witness :
  truthy_str (apiKey sampleProc) = true /\
  resp_ok unauthorized = false /\
  exists s',
    callLLM rejectingFetch sampleProc sampleHistory sampleTools [alpha; beta]
      start =
    (Throws (Error "OPENAI API error: 401 Unauthorized - bad key"), s') /\
    invocations (trace s') = [].
Proof.
  split; [reflexivity|]. split; [reflexivity|].
  eexists. split.
  - exact (rejected_request_fails_the_turn rejectingFetch sampleProc
             sampleHistory sampleTools [alpha; beta] start unauthorized 1%nat
             "bad key" eq_refl eq_refl eq_refl eq_refl).
  - reflexivity.
Defined.

(** X4. When the follow-up request of a tool round is rejected, the turn
    throws the provider's error although the tools of the batch have already
    been invoked: the invocations stay in the trace, their results are
    dropped with the turn. *)
Theorem rejected_follow_up_loses_the_results {World}
    (fetch : Request -> World -> Result Response * World) (proc : Process)
    history mcpTools (mcpConnections : list McpConnection) (s : State)
    response w json toolCalls :
  truthy_str (apiKey proc) = true ->
  fetch (firstRequest proc history mcpTools) (world s) = (Returns response, w) ->
  resp_ok response = true ->
  resp_json response = Returns json ->
  response_tool_calls json = Some toolCalls ->
  toolCalls <> [] ->
  let updatedMessages :=
    List.map formatMessage history ++ [toolCallRequest toolCalls] in
  exists results summary s2,
    for_of toolCalls (handleToolCall mcpTools mcpConnections)
      (updatedMessages, toolsIntro)
      (answered s (firstRequest proc history mcpTools) w) =
      (Returns (updatedMessages ++ results, summary), s2) /\
    let followUp := followUpRequest proc (updatedMessages ++ results) in
    forall finalResponse w2 errorText,
      fetch followUp (world s2) = (Returns finalResponse, w2) ->
      resp_ok finalResponse = false ->
      resp_text finalResponse = Returns errorText ->
      let error := api_error (provider proc) finalResponse errorText in
      callLLM fetch proc history mcpTools mcpConnections s =
      (Throws error,
       mkState w2 (trace s2 ++ [Fetch followUp;
                                ConsoleError "Error in callLLM:" (Some error)])).
Proof.
  intros Hkey Hfetch Hok Hjson Hcalls Hne updatedMessages.
  destruct (dispatch_loop mcpTools mcpConnections toolCalls updatedMessages
              toolsIntro (answered s (firstRequest proc history mcpTools) w))
    as (results & summary & s2 & Hloop & _).
  exists results, summary, s2. split; [exact Hloop|].
  intros followUp finalResponse w2 errorText Hf2 Hok2 Htext error.
  destruct toolCalls as [|tc tcs]; [done|].
  destruct (callLLM_round_trace fetch proc history mcpTools mcpConnections s
              response w json tc tcs results summary s2 Hkey Hfetch Hok Hjson
              Hcalls Hloop) as (-> & _).
  unfold try_catch, finalAnswer. rewrite bind_run, post_run. cbv zeta.
  fold updatedMessages. fold (followUpRequest proc (updatedMessages ++ results)).
  fold followUp. rewrite Hf2, Hok2. cbn [negb].
  rewrite bind_run. unfold lift. rewrite Htext.
  unfold throw, rethrow. rewrite emit_run. unfold answered. simpl.
  by rewrite <- app_assoc.
Qed.

Lemma rejected_follow_up_loses_the_results_witness :
  truthy_str (apiKey sampleProc) = true /\
  response_tool_calls toolCallAnswer = Some sampleCalls /\
  exists s',
    callLLM flakyFetch sampleProc sampleHistory sampleTools [alpha; beta] start =
    (Throws (Error "OPENAI API error: 401 Unauthorized - bad key"), s') /\
    length (invocations (trace s')) = 2%nat.
Proof.
  split; [reflexivity|]. split; [reflexivity|].
  destruct (rejected_follow_up_loses_the_results flakyFetch sampleProc
              sampleHistory sampleTools [alpha; beta] start
              (okResponse toolCallAnswer) 1%nat toolCallAnswer sampleCalls
              eq_refl eq_refl eq_refl eq_refl eq_refl ltac:(discriminate))
    as (results & summary & s2 & Hloop & Hfail).
  vm_compute in Hloop. injection Hloop as <- <- <-.
  eexists. split.
  - exact (Hfail unauthorized 2%nat "bad key" eq_refl eq_refl eq_refl).
  - reflexivity.
Defined.

(** *** The tools declared to the model *)

Lemma str_or_nonempty o d : d <> "" -> str_or o d <> "".
Proof.
  unfold str_or, truthy_str. intros Hd. destruct o as [t|]; [|done]. simpl.
  by destruct (String.eqb_spec t "").
Qed.

(** X5. The first request of a turn declares the tools of the catalog: none
    when the catalog is empty (the request then has no [tools] field),
    otherwise one function per catalog entry, in catalog order and under the
    same names, duplicates included; every declaration has a description
    that is not empty and a parameter schema that is not falsy. *)
Theorem tools_are_declared_in_catalog_order (proc : Process)
    (history : list ConversationMessage) (mcpTools : list McpTool) :
  let declared := body_tools (req_body (firstRequest proc history mcpTools)) in
  (mcpTools = [] -> declared = None) /\
  (mcpTools <> [] ->
   exists declarations,
     declared = Some declarations /\
     List.map fn_name declarations = List.map tool_name mcpTools /\
     Forall (fun d => fn_description d <> "" /\ truthy (fn_parameters d) = true)
            declarations).
Proof.
  simpl. split.
  - by intros ->.
  - intros Hne. destruct mcpTools as [|t ts]; [done|].
    eexists. split; [reflexivity|]. split.
    + rewrite List.map_map. reflexivity.
    + apply Forall_forall. intros d [tool [<- _]]%list_elem_of_In%in_map_iff.
      unfold formatTool. simpl. split.
      * apply str_or_nonempty. by destruct (tool_name tool).
      * unfold truthy_opt. destruct (tool_parameters tool) as [p|]; [|done].
        simpl. by destruct (truthy p) eqn:Hp.
Qed.

Lemma tools_are_declared_in_catalog_order_witness :
  sampleTools <> [] /\
  exists declarations,
    body_tools (req_body (firstRequest sampleProc sampleHistory sampleTools)) =
      Some declarations /\
    List.map fn_name declarations = ["echo"; "add"; "echo"].
Proof.
  split; [discriminate|].
  destruct (tools_are_declared_in_catalog_order sampleProc sampleHistory
              sampleTools) as [_ H].
  destruct (H ltac:(discriminate)) as (declarations & Hd & Hn & _).
  exists declarations. split; [exact Hd|exact Hn].
Defined.

(** *** The chat loop *)

Lemma unprompted_prompts evs : Forall unprompted evs -> prompts evs = [].
Proof. induction 1 as [|ev evs Hev _ IH]; [done|]. by destruct ev. Qed.

(** A model call shows no prompt. *)
Lemma callLLM_events {World}
    (fetch : Request -> World -> Result Response * World) (proc : Process)
    history mcpTools (mcpConnections : list McpConnection) (s : State) :
  exists evs,
    trace (callLLM fetch proc history mcpTools mcpConnections s).2 =
      trace s ++ evs /\
    prompts evs = [].
Proof.
  assert (extends unprompted
            (callLLM fetch proc history mcpTools mcpConnections)) as H.
  { unfold callLLM. apply extends_try_catch;
      [|intros e; by apply rethrow_events].
    destruct (negb _); [apply extends_throw|].
    apply extends_bind; [by apply post_events|intros response].
    destruct (negb (resp_ok response)).
    - apply extends_bind; [apply extends_lift|intros t; apply extends_throw].
    - apply extends_bind; [apply extends_lift|intros j].
      destruct (response_tool_calls j) as [[|tc tcs]|]; try apply extends_lift.
      apply extends_bind.
      + eapply extends_weaken; [|apply dispatch_loop_events].
        intros ev (c & _ & Hev). by destruct ev.
      + intros [um r]. by apply finalAnswer_events. }
  destruct (H s) as (evs & Hevs & F). exists evs. split; [exact Hevs|].
  by apply unprompted_prompts.
Qed.

(** Every round asks one question and returns: the user leaves, or one
    exchange joins the history. *)
Lemma chatTurn_cases {World}
    (fetch : Request -> World -> Result Response * World)
    (question : string -> World -> string * World) (proc : Process)
    allTools (connections : list McpConnection) history (s : State) :
  exists line s' evs,
    trace s' = trace s ++ Question "You: " :: evs /\ prompts evs = [] /\
    ((isExit line = true /\ evs = [] /\
      chatTurn fetch question proc allTools connections history s =
        (Returns (false, history), s')) \/
     (isExit line = false /\
      exists text,
        chatTurn fetch question proc allTools connections history s =
          (Returns (true, history ++ exchanges [(line, text)]), s'))).
Proof.
  unfold chatTurn. rewrite emit_run, bind_run. unfold await. simpl world.
  destruct (question "You: " (world s)) as [line w] eqn:Hq.
  exists line. destruct (isExit line) eqn:Hexit.
  - exists (mkState w (trace s ++ [Question "You: "])), [].
    split; [reflexivity|]. split; [done|]. left. done.
  - unfold try_catch. rewrite emit_run, bind_run. cbn [world trace].
    set (s1 := mkState w ((trace s ++ [Question "You: "]) ++
                          [ConsoleLog "AI is thinking..."])).
    destruct (callLLM_events fetch proc (history ++ [mkMessage "user" (CString line)])
                allTools connections s1) as (evs & Hevs & Hp).
    destruct (callLLM fetch proc _ allTools connections s1) as [[text|e] s2];
      simpl in Hevs.
    + cbv beta iota. rewrite emit_run.
      exists (mkState (world s2) (trace s2 ++ [ConsoleLog ("AI: " +:+ text)])),
        (ConsoleLog "AI is thinking..." :: evs ++ [ConsoleLog ("AI: " +:+ text)]).
      split; [simpl; rewrite Hevs; simpl; by rewrite <- !app_assoc|].
      split; [unfold prompts in *; simpl; by rewrite omap_app, Hp|].
      right. split; [done|]. exists text. unfold exchanges. simpl.
      by rewrite <- app_assoc.
    + cbv beta iota. rewrite !emit_run.
      exists (mkState (world s2) (trace s2 ++ apologyEvents e)),
        (ConsoleLog "AI is thinking..." :: evs ++ apologyEvents e).
      split; [simpl; rewrite Hevs; simpl; by rewrite <- !app_assoc|].
      split; [unfold prompts in *; simpl; by rewrite omap_app, Hp|].
      right. split; [done|]. exists errorMessage. unfold exchanges. simpl.
      rewrite <- !app_assoc. reflexivity.
Qed.

(** X6. The chat loop never throws, and the history only grows: whatever
    the model and the servers do, after any number of rounds the history is
    the one the loop started with followed by one exchange per round that
    was not the user's leave, each exchange being the line the user typed,
    as a user message, and a text (the answer of the turn or the apology),
    as an assistant message. The loop shows one prompt per round. *)
Theorem chat_history_grows_by_exchanges {World}
    (fetch : Request -> World -> Result Response * World)
    (question : string -> World -> string * World) (proc : Process)
    (fuel : nat) allTools (connections : list McpConnection) history (s : State) :
  exists ended turns s' evs,
    chatLoop fetch question proc fuel allTools connections history s =
      (Returns ended, s') /\
    trace s' = trace s ++ evs /\
    Forall (fun turn => isExit turn.1 = false) turns /\
    match ended with
    | Some history' =>
        history' = history ++ exchanges turns /\
        length (prompts evs) = S (length turns)
    | None => length turns = fuel /\ length (prompts evs) = fuel
    end.
Proof.
  revert history s. induction fuel as [|fuel IH]; intros history s.
  - exists None, [], s, []. simpl. by rewrite app_nil_r.
  - cbn [chatLoop]. rewrite bind_run.
    destruct (chatTurn_cases fetch question proc allTools connections history s)
      as (line & s1 & evs1 & Ht1 & Hp1 & [(Hexit & -> & ->)|(Hexit & text & ->)]).
    + exists (Some history), [], s1, [Question "You: "].
      unfold exchanges. simpl. by rewrite app_nil_r.
    + cbv beta iota.
      destruct (IH (history ++ exchanges [(line, text)]) s1)
        as (ended & turns & s' & evs & -> & Ht & F & Hend).
      exists ended, ((line, text) :: turns), s', (Question "You: " :: evs1 ++ evs).
      split; [done|]. split; [rewrite Ht, Ht1; by rewrite <- app_assoc|].
      split; [by constructor|].
      unfold prompts in *. simpl. rewrite omap_app, Hp1. simpl.
      destruct ended as [h|].
      * destruct Hend as [-> Hlen]. split; [|by rewrite Hlen].
        unfold exchanges. simpl. by rewrite <- !app_assoc.
      * destruct Hend as [<- Hlen]. by rewrite Hlen.
Qed.

(** X7. A line that is [exit] or [quit] in any letter case ends the chat
    at once: the history is returned as it was, and nothing happens but the
    prompt, so the model is not asked and no tool is invoked. *)
Theorem exit_ends_the_chat {World}
    (fetch : Request -> World -> Result Response * World)
    (question : string -> World -> string * World) (proc : Process)
    (fuel : nat) allTools (connections : list McpConnection) history (s : State)
    line w :
  question "You: " (world s) = (line, w) ->
  toLowerCase line = "exit" \/ toLowerCase line = "quit" ->
  chatLoop fetch question proc (S fuel) allTools connections history s =
  (Returns (Some history), mkState w (trace s ++ [Question "You: "])).
Proof.
  intros Hq Hline. cbn [chatLoop]. rewrite bind_run.
  unfold chatTurn. rewrite emit_run, bind_run. unfold await. simpl world.
  rewrite Hq. unfold isExit.
  destruct Hline as [-> | ->]; reflexivity.
Qed.

Lemma exit_ends_the_chat_witness :
  toLowerCase "Quit" = "quit" /\
  chatLoop sampleFetch quitQuestion sampleProc 5 sampleTools [alpha; beta]
    sampleHistory start =
  (Returns (Some sampleHistory), mkState O [Question "You: "]).
Proof.
  split; [reflexivity|].
  exact (exit_ends_the_chat sampleFetch quitQuestion sampleProc 4 sampleTools
           [alpha; beta] sampleHistory start "Quit" O eq_refl
           (or_intror eq_refl)).
Defined.

(** *** Disconnecting *)

(** X8. A connection that [disconnect] returns is released: it has no
    client and no child process left, and keeps its server name; what was
    done to the outside is one close of the client, if there was one, and
    one kill of the child process, if there was one. On the released
    connection another [disconnect] does nothing, the listings return null
    and [callTool] throws. *)
Theorem disconnect_releases_the_connection {World}
    (c c' : @McpConnection World) (s s' : State) :
  disconnect c s = (Returns c', s') ->
  c' = mkConnection None false (serverName c) /\
  trace s' = trace s ++ cleanupEvents c /\
  (forall s0 : State,
     disconnect c' s0 = (Returns c', s0) /\
     listTools c' s0 = (Returns None, s0) /\
     listResources c' s0 = (Returns None, s0) /\
     forall toolName args,
       callTool c' toolName args s0 =
       (Throws (Error "MCP client is not connected"), s0)).
Proof.
  unfold disconnect, cleanupEvents. rewrite bind_run.
  destruct c as [[cl|] child name]; simpl.
  - rewrite emit_run, bind_run. unfold await. simpl.
    destruct (client_close cl (world s)) as [[[]|e] w]; [|discriminate].
    simpl. destruct child; simpl.
    + rewrite emit_run. intros [= <- <-]. simpl. rewrite <- app_assoc.
      repeat split; destruct s0; reflexivity.
    + intros [= <- <-]. repeat split; destruct s0; reflexivity.
  - destruct child; simpl.
    + rewrite emit_run. intros [= <- <-]. simpl.
      repeat split; destruct s0; reflexivity.
    + intros [= <- <-]. rewrite app_nil_r.
      repeat split; destruct s0; reflexivity.
Qed.

Lemma disconnect_releases_the_connection_witness :
  disconnect alpha start =
    (Returns (mkConnection None false "alpha"),
     mkState O [Close "alpha"; Kill "alpha"]) /\
  listTools (mkConnection (World:=nat) None false "alpha") start =
    (Returns None, start).
Proof.
  split; [reflexivity|].
  destruct (disconnect_releases_the_connection alpha
              (mkConnection None false "alpha") start
              (mkState O [Close "alpha"; Kill "alpha"]) eq_refl)
    as (_ & _ & H).
  destruct (H start) as (_ & Hl & _). exact Hl.
Defined.

(** The loop that ends a session. *)
Lemma cleanup_step {World} (c : @McpConnection World) cs (s : State) :
  for_of (c :: cs) (fun connection (_ : unit) => disconnect connection ;; ret tt)
    tt s =
  match disconnect c s with
  | (Returns _, s') =>
      for_of cs (fun connection (_ : unit) => disconnect connection ;; ret tt)
        tt s'
  | (Throws e, s') => (Throws e, s')
  end.
Proof.
  cbn [for_of]. rewrite !bind_run.
  by destruct (disconnect c s) as [[c'|e] s'].
Qed.

(** X9. When every client closes, the end of a session releases all its
    connections in connection order: for each one, the close of its client
    and then the kill of its child process, as far as it has them. *)
Theorem cleanup_releases_every_connection {World}
    (connections : list (@McpConnection World)) (s : State) :
  (forall c cl w, c ∈ connections -> client c = Some cl ->
                  exists w', client_close cl w = (Returns tt, w')) ->
  exists s',
    for_of connections
      (fun connection (_ : unit) => disconnect connection ;; ret tt) tt s =
      (Returns tt, s') /\
    trace s' = trace s ++ List.flat_map cleanupEvents connections.
Proof.
  revert s. induction connections as [|c cs IH]; intros s Hclose.
  - exists s. simpl. by rewrite app_nil_r.
  - rewrite cleanup_step.
    assert (exists c' s1, disconnect c s = (Returns c', s1) /\
                          trace s1 = trace s ++ cleanupEvents c) as (c' & s1 & Hd & Ht).
    { unfold disconnect, cleanupEvents. rewrite bind_run.
      destruct (client c) as [cl|] eqn:Hcl.
      - rewrite emit_run, bind_run. unfold await. cbn [world trace].
        destruct (Hclose c cl (world s) ltac:(left) Hcl) as (w' & ->).
        cbn. destruct (childProcess c).
        + rewrite emit_run. eexists _, _. split; [reflexivity|].
          simpl. by rewrite <- app_assoc.
        + eexists _, _. split; [reflexivity|]. done.
      - cbn. rewrite Hcl. destruct (childProcess c).
        + rewrite emit_run. eexists _, _. split; reflexivity.
        + eexists _, _. split; [reflexivity|]. simpl. by rewrite app_nil_r. }
    rewrite Hd.
    destruct (IH s1) as (s' & Hrun & Ht').
    { intros c0 cl w Hin. apply Hclose. by right. }
    exists s'. split; [exact Hrun|].
    rewrite Ht', Ht. simpl. by rewrite <- app_assoc.
Qed.

Lemma cleanup_releases_every_connection_witness :
  exists s',
    for_of [alpha; gamma; legacy]
      (fun connection (_ : unit) => disconnect connection ;; ret tt) tt start =
      (Returns tt, s') /\
    trace s' = [Close "alpha"; Kill "alpha"; Close "legacy"].
Proof.
  destruct (cleanup_releases_every_connection [alpha; gamma; legacy] start)
    as (s' & Hrun & Ht).
  - intros c cl w Hin Hcl. exists w.
    repeat (apply elem_of_cons in Hin as [->|Hin]);
      [| |  | by apply elem_of_nil in Hin];
      simpl in Hcl; try discriminate; by injection Hcl as <-.
  - exists s'. split; [exact Hrun|exact Ht].
Defined.

(** X10. When the client of a connection fails to close, the end of a
    session stops there with that error: the child process of that
    connection is not killed, and the connections after it are neither
    closed nor killed. *)
Theorem failed_close_stops_the_cleanup {World}
    (before after : list (@McpConnection World)) c cl (s s1 : State) e w :
  for_of before
    (fun connection (_ : unit) => disconnect connection ;; ret tt) tt s =
    (Returns tt, s1) ->
  client c = Some cl ->
  client_close cl (world s1) = (Throws e, w) ->
  for_of (before ++ c :: after)
    (fun connection (_ : unit) => disconnect connection ;; ret tt) tt s =
  (Throws e, mkState w (trace s1 ++ [Close (serverName c)])).
Proof.
  intros Hbefore Hcl Hclose. rewrite for_of_app, Hbefore, cleanup_step.
  unfold disconnect. rewrite bind_run, Hcl, emit_run, bind_run.
  unfold await. cbn [world trace]. by rewrite Hclose.
Qed.

Lemma failed_close_stops_the_cleanup_witness :
  client_close stuckClient O = (Throws (Error "close failed"), O) /\
  for_of [alpha; stuck; beta]
    (fun connection (_ : unit) => disconnect connection ;; ret tt) tt start =
  (Throws (Error "close failed"),
   mkState O [Close "alpha"; Kill "alpha"; Close "stuck"]).
Proof.
  split; [reflexivity|].
  exact (failed_close_stops_the_cleanup [alpha] [beta] stuck stuckClient start
           (mkState O [Close "alpha"; Kill "alpha"]) (Error "close failed") O
           eq_refl eq_refl eq_refl).
Defined.

(** *** Invoking a tool *)

(** X11. A call that reaches an established connection ends in one tool
    result, by what the server does: its answer, serialized, when it
    answers; the error [Tool <name> not found on server <server>] when it
    fails with the code -32601 (the server's own message and code are
    dropped); otherwise the message of its failure as it is. Either way the
    world is what the server left. *)
Theorem invocation_outcome_becomes_the_result {World} mcpTools
    (mcpConnections : list (@McpConnection World)) toolCall updatedMessages
    result (s : State) tool srv c cl outcome w :
  catalogEntry mcpTools (call_name toolCall) = Some tool ->
  tool_serverName tool = Some srv ->
  srv <> "" ->
  List.find (fun c => String.eqb (getServerName c) srv) mcpConnections = Some c ->
  client c = Some cl ->
  client_callTool cl (call_name toolCall) (toolArguments toolCall) (world s) =
    (outcome, w) ->
  exists summary s',
    handleToolCall mcpTools mcpConnections toolCall (updatedMessages, result) s =
      (Returns (updatedMessages ++
                  [ToolMessage (call_id toolCall)
                     match outcome with
                     | Returns toolResult => resultText toolResult
                     | Throws e =>
                         errorPayload (invocationError (call_name toolCall) srv e)
                     end],
                summary), s') /\
    world s' = w.
Proof.
  intros Htool Hsrv Hne Hconn Hcl Hcall.
  assert (serverName c = srv) as Hname
    by (apply find_some in Hconn as [_ H%String.eqb_eq]; exact H).
  rewrite handleToolCall_outcome.
  destruct (parseArguments_run toolCall s) as (evs0 & -> & _). cbn [snd].
  unfold tryToolCall. unfold catalogEntry in Htool. rewrite Htool, Hsrv.
  cbn [truthy_str from_option id].
  destruct (String.eqb_spec srv "") as [E|_]; [done|]. cbn [negb].
  rewrite Hconn, emit_run, bind_run. unfold callTool. rewrite Hcl.
  unfold try_catch. rewrite !emit_run. unfold await. cbn [world trace].
  rewrite Hcall. destruct outcome as [v|e].
  - eexists _, _. split; reflexivity.
  - rewrite emit_run. unfold invocationError. rewrite Hname.
    destruct (method_not_found e); unfold throw, toolCallFailed;
      rewrite emit_run; eexists _, _; split; reflexivity.
Qed.

Lemma invocation_outcome_becomes_the_result_witness :
  catalogEntry sampleTools "add" =
    Some (mkTool "add" (Some "") (Some default_parameters) (Some "alpha")) /\
  exists summary s',
    handleToolCall sampleTools [alpha; beta]
      (mkToolCall "call_9" "function" "add" "{}") ([], "") start =
    (Returns ([ToolMessage "call_9"
                 (errorPayload "Tool add not found on server alpha")],
              summary), s').
Proof.
  split; [reflexivity|].
  destruct (invocation_outcome_becomes_the_result sampleTools [alpha; beta]
              (mkToolCall "call_9" "function" "add" "{}") [] "" start
              (mkTool "add" (Some "") (Some default_parameters) (Some "alpha"))
              "alpha" alpha alphaClient (Throws methodNotFound) O
              eq_refl eq_refl ltac:(discriminate) eq_refl eq_refl eq_refl)
    as (summary & s' & Hrun & _).
  exists summary, s'. exact Hrun.
Defined.

(** *** From a server's listing to the declaration sent to the model *)

(** X12. A tool that a server lists reaches the model under its name, with
    the server's description when that is not empty and [Call the <name>
    tool] otherwise, and with the server's [inputSchema] as parameters when
    it has one, else its [parameters], else the empty object schema;
    tagging the tool with its server changes none of this. *)
Theorem listed_tool_declaration (raw : SdkTool) (srv : string) :
  let listed := toolData raw in
  formatTool (mkTool (tool_name listed) (tool_description listed)
                (tool_parameters listed) (Some srv)) =
  mkFunctionTool (sdk_name raw)
    (match sdk_description raw with
     | Some d => if String.eqb d "" then "Call the " +:+ sdk_name raw +:+ " tool"
                 else d
     | None => "Call the " +:+ sdk_name raw +:+ " tool"
     end)
    (match sdk_inputSchema raw, sdk_parameters raw with
     | Some schema, other =>
         if truthy schema then schema
         else match other with
              | Some p => if truthy p then p else default_parameters
              | None => default_parameters
              end
     | None, Some p => if truthy p then p else default_parameters
     | None, None => default_parameters
     end).
Proof.
  destruct raw as [name d schema p]. unfold formatTool, toolData. simpl.
  f_equal.
  - unfold str_or, truthy_str. destruct d as [d|]; simpl; [|done].
    destruct (String.eqb_spec d "") as [->|Hd]; simpl; [done|].
    by destruct (String.eqb_spec d "").
  - unfold truthy_opt.
    destruct schema as [schema|]; [destruct (truthy schema) eqn:Hs|];
      simpl; rewrite ?Hs; try done;
      destruct p as [p|]; simpl; try done;
      destruct (truthy p) eqn:Hp; simpl; by rewrite ?Hp.
Qed.

(** *** Building the catalog *)

Lemma fetchTools_events {World} (c : @McpConnection World) vars (s : State) :
  exists r s' evs,
    fetchTools c vars s = (Returns r, s') /\
    trace s' = trace s ++ evs /\
    listings evs = (if has_client c then [serverName c] else []) /\
    invocations evs = [] /\ requests evs = [] /\ prompts evs = [].
Proof.
  destruct vars as [allTools m].
  unfold fetchTools, listTools, getServerName, has_client.
  rewrite emit_run, bind_run. destruct (client c) as [cl|]; simpl.
  - unfold try_catch. rewrite emit_run, bind_run. unfold await. simpl.
    destruct (client_listTools cl (world s)) as [[tools|e] w']; simpl.
    + destruct (List.map toolData tools) as [|t ts]; rewrite emit_run; simpl;
        rewrite <- ?app_assoc; eexists _, _, _; (split; [reflexivity|]);
        (split; [reflexivity|]); done.
    + destruct (method_not_found e); simpl;
        repeat (rewrite emit_run; simpl);
        rewrite <- ?app_assoc; eexists _, _, _; (split; [reflexivity|]);
        (split; [reflexivity|]); done.
  - repeat (rewrite emit_run; simpl).
    rewrite <- ?app_assoc. eexists _, _, _. split; [reflexivity|].
    split; [reflexivity|]. done.
Qed.

(** X13. Building the catalog never throws, whatever the servers answer:
    it asks every connection that has a client for its tools, once and in
    connection order, skips the connections without a client, and neither
    invokes a tool nor sends a request nor prompts the user. *)
Theorem catalog_building_only_lists {World}
    (connections : list (@McpConnection World)) vars (s : State) :
  exists r s' evs,
    for_of connections fetchTools vars s = (Returns r, s') /\
    trace s' = trace s ++ evs /\
    listings evs = List.map serverName (List.filter has_client connections) /\
    invocations evs = [] /\ requests evs = [] /\ prompts evs = [].
Proof.
  revert vars s. induction connections as [|c cs IH]; intros vars s.
  - exists vars, s, []. simpl. by rewrite app_nil_r.
  - cbn [for_of]. rewrite bind_run.
    destruct (fetchTools_events c vars s)
      as (r1 & s1 & evs1 & -> & Ht1 & Hl1 & Hi1 & Hr1 & Hp1).
    destruct (IH r1 s1) as (r & s' & evs & -> & Ht & Hl & Hi & Hr & Hp).
    exists r, s', (evs1 ++ evs). split; [done|].
    split; [rewrite Ht, Ht1; by rewrite <- app_assoc|].
    unfold listings, invocations, requests, prompts in *.
    rewrite !omap_app, Hl1, Hl, Hi1, Hi, Hr1, Hr, Hp1, Hp.
    repeat split; try done. simpl. by destruct (has_client c).
Qed.

(** *** Connecting *)

Lemma connect_cases {World} (loadMcpConfig : World -> McpConfig)
    (new_URL : string -> Result string)
    (new_Client : string -> Transport -> @Client World)
    (client_connect : string -> Transport -> World -> Result unit * World)
    (c : @McpConnection World) (s : State) :
  match getServers loadMcpConfig (world s) with
  | None =>
      exists e,
        connect loadMcpConfig new_URL new_Client client_connect c s = (Throws e, s)
  | Some servers =>
      let entry := member (serverName c) servers in
      exists success msg c' s' evs,
        connect loadMcpConfig new_URL new_Client client_connect c s =
          (Returns (success, msg, c'), s') /\
        trace s' = trace s ++ evs /\
        serverName c' = serverName c /\
        (if success : bool
         then is_Some (client c') /\ attempts evs = [serverName c]
         else attempts evs = [] \/ attempts evs = [serverName c]) /\
        (entry = None -> success = false /\ evs = [] /\ c' = c) /\
        (forall cfg,
           entry = Some cfg ->
           (cfg_command cfg = "" -> truthy_str (cfg_url cfg) = false ->
            success = false /\ evs = [] /\ c' = c) /\
           (truthy_str (cfg_url cfg) = true ->
            forall srv t, Connect srv t ∈ evs ->
                          exists url, t = SSEClientTransport url))
  end.
Proof.
  unfold connect, getServer.
  destruct (getServers loadMcpConfig (world s)) as [servers|]; [|by eexists].
  cbv zeta.
  destruct (member _ _) as [cfg|] eqn:Hcfg.
  2:{ exists false. eexists _, c, s, []. simpl. rewrite app_nil_r.
      repeat split; try done. by left. }
  destruct (String.eqb_spec (cfg_command cfg) "") as [Hcmd|Hcmd];
    destruct (truthy_str (cfg_url cfg)) eqn:Hurl; cbn [negb andb].
  - destruct (new_URL _) as [url|e].
    + unfold try_catch. rewrite emit_run, bind_run. unfold await. cbn [world trace].
      destruct (client_connect _ _ _) as [[[]|e] w].
      * exists true.
        eexists _, _, _, [Connect (serverName c) (SSEClientTransport url)].
        connect_tail ltac:(split; [by eexists|reflexivity]) ltac:(congruence)
                     ltac:(only_sse).
      * exists false.
        eexists _, _, _, [Connect (serverName c) (SSEClientTransport url)].
        connect_tail ltac:(by right) ltac:(congruence) ltac:(only_sse).
    + exists false. eexists _, c, s, [].
      connect_tail ltac:(by left) ltac:(congruence) ltac:(no_event).
  - exists false. eexists _, c, s, [].
    connect_tail ltac:(by left) ltac:(done) ltac:(congruence).
  - destruct (new_URL _) as [url|e].
    + unfold try_catch. rewrite emit_run, bind_run. unfold await. cbn [world trace].
      destruct (client_connect _ _ _) as [[[]|e] w].
      * exists true.
        eexists _, _, _, [Connect (serverName c) (SSEClientTransport url)].
        connect_tail ltac:(split; [by eexists|reflexivity]) ltac:(congruence)
                     ltac:(only_sse).
      * exists false.
        eexists _, _, _, [Connect (serverName c) (SSEClientTransport url)].
        connect_tail ltac:(by right) ltac:(congruence) ltac:(only_sse).
    + exists false. eexists _, c, s, [].
      connect_tail ltac:(by left) ltac:(congruence) ltac:(no_event).
  - unfold try_catch. rewrite emit_run, bind_run. unfold await. cbn [world trace].
    destruct (client_connect _ _ _) as [[[]|e] w].
    + exists true. eexists _, _, _, [Connect (serverName c) _].
      connect_tail ltac:(split; [by eexists|reflexivity]) ltac:(congruence)
                   ltac:(congruence).
    + exists false. eexists _, _, _, [Connect (serverName c) _].
      connect_tail ltac:(by right) ltac:(congruence) ltac:(congruence).
Qed.

(** X14. [connect] throws exactly when the configuration that it reads has
    no [mcpServers], and then before it has done anything. Otherwise it
    returns: it succeeds only after one connection attempt, and then the
    connection has a client; it fails without any attempt when the
    configuration has no entry of that name (also when the name is one that
    every object inherits, which the lookup then finds), or when the entry
    has neither a command nor an address. An entry with an address is
    reached over SSE, also when it has a command as well. *)
Theorem connect_attempts_at_most_once {World} (loadMcpConfig : World -> McpConfig)
    (new_URL : string -> Result string)
    (new_Client : string -> Transport -> @Client World)
    (client_connect : string -> Transport -> World -> Result unit * World)
    (c : @McpConnection World) (s : State) :
  match getServers loadMcpConfig (world s) with
  | None =>
      exists e,
        connect loadMcpConfig new_URL new_Client client_connect c s = (Throws e, s)
  | Some servers =>
      let entry := assoc (serverName c) servers in
      exists success msg c' s' evs,
        connect loadMcpConfig new_URL new_Client client_connect c s =
          (Returns (success, msg, c'), s') /\
        trace s' = trace s ++ evs /\
        serverName c' = serverName c /\
        (if success : bool
         then is_Some (client c') /\ attempts evs = [serverName c]
         else attempts evs = [] \/ attempts evs = [serverName c]) /\
        (entry = None -> success = false /\ evs = [] /\ c' = c) /\
        (forall cfg,
           entry = Some cfg ->
           (cfg_command cfg = "" -> truthy_str (cfg_url cfg) = false ->
            success = false /\ evs = [] /\ c' = c) /\
           (truthy_str (cfg_url cfg) = true ->
            forall srv t, Connect srv t ∈ evs ->
                          exists url, t = SSEClientTransport url))
  end.
Proof.
  pose proof (connect_cases loadMcpConfig new_URL new_Client client_connect c s)
    as Hc.
  destruct (getServers loadMcpConfig (world s)) as [servers|]; [|exact Hc].
  cbv zeta in Hc |- *.
  destruct Hc
    as (success & msg & c' & s' & evs & Hrun & Ht & Hname & Hif & Hnone & Hsome).
  exists success, msg, c', s', evs.
  do 4 (split; [assumption|]).
  unfold member in Hnone, Hsome.
  destruct (assoc (serverName c) servers) as [cfg|].
  - split; [discriminate|exact Hsome].
  - split; [|discriminate]. intros _.
    destruct (existsb _ _).
    + destruct (Hsome inherited eq_refl) as [Hneither _].
      exact (Hneither eq_refl eq_refl).
    + exact (Hnone eq_refl).
Qed.

(** An entry that says neither how to start the server nor where it is, a
    name that only [Object.prototype] knows, and a file without
    [mcpServers]. *)
Lemma connect_attempts_at_most_once_witness :
  (exists msg s',
     connect twoServers sample_URL sample_Client local_connect
       (mkConnection None false "empty") start =
     (Returns (false, msg, mkConnection None false "empty"), s') /\
     trace s' = []) /\
  (exists msg s',
     connect twoServers sample_URL sample_Client local_connect
       (mkConnection None false "toString") start =
     (Returns (false, msg, mkConnection None false "toString"), s') /\
     trace s' = []) /\
  (exists e,
     connect bareConfig sample_URL sample_Client local_connect
       (mkConnection None false "files") start = (Throws e, start)).
Proof.
  split; [|split].
  - destruct (connect_attempts_at_most_once twoServers sample_URL sample_Client
                local_connect (mkConnection None false "empty") start)
      as (success & msg & c' & s' & evs & Hrun & Ht & _ & _ & _ & Hcfg).
    destruct (Hcfg _ eq_refl) as [Hneither _].
    destruct (Hneither eq_refl eq_refl) as (-> & -> & ->).
    exists msg, s'. split; [exact Hrun|exact Ht].
  - destruct (connect_attempts_at_most_once twoServers sample_URL sample_Client
                local_connect (mkConnection None false "toString") start)
      as (success & msg & c' & s' & evs & Hrun & Ht & _ & _ & Hnone & _).
    destruct (Hnone eq_refl) as (-> & -> & ->).
    exists msg, s'. split; [exact Hrun|exact Ht].
  - exact (connect_attempts_at_most_once bareConfig sample_URL sample_Client
             local_connect (mkConnection None false "files") start).
Defined.

Lemma ret_run {World A} (a : A) (s : @State World) : ret a s = (Returns a, s).
Proof. reflexivity. Qed.

(** The loop of [connectToAllServers]: the connections it adds are those of
    the servers whose attempt succeeded; it throws only if the configuration
    has lost its [mcpServers]. *)
Lemma connect_loop {World} (loadMcpConfig : World -> McpConfig)
    (new_URL : string -> Result string)
    (new_Client : string -> Transport -> @Client World)
    (client_connect : string -> Transport -> World -> Result unit * World)
    (names : list string) (acc : list (@McpConnection World)) (s : State) :
  exists r s' evs,
    for_of names
      (fun serverName connections =>
         emit (ConsoleLog ("Connecting to server: " +:+ serverName)) ;;
         '(success, msg, connection) ←
           connect loadMcpConfig new_URL new_Client client_connect
             (mkConnection None false serverName);
         if success : bool
         then emit (ConsoleLog msg) ;; ret (connections ++ [connection])
         else emit (ConsoleError msg None) ;; ret connections)
      acc s = (r, s') /\
    trace s' = trace s ++ evs /\
    attempts evs `sublist_of` names /\
    match r with
    | Returns connections =>
        exists new,
          connections = acc ++ new /\
          List.map serverName new `sublist_of` attempts evs /\
          Forall (fun c => is_Some (client c)) new
    | Throws _ => exists w, getServers loadMcpConfig w = None
    end.
Proof.
  revert acc s. induction names as [|name names IH]; intros acc s.
  - exists (Returns acc), s, []. simpl. rewrite !app_nil_r.
    repeat split; try done. exists []. by rewrite app_nil_r.
  - cbn [for_of]. rewrite bind_run, emit_run, bind_run.
    set (s0 := mkState (world s) (trace s ++ _)).
    pose proof (connect_cases loadMcpConfig new_URL new_Client client_connect
                  (mkConnection None false name) s0) as Hc.
    destruct (getServers loadMcpConfig (world s0)) as [servers|] eqn:Hservers.
    2:{ destruct Hc as [e ->].
        exists (Throws e), s0, [ConsoleLog ("Connecting to server: " +:+ name)].
        split; [reflexivity|]. split; [reflexivity|].
        split; [apply sublist_nil_l|]. by exists (world s0). }
    destruct Hc as (success & msg & c' & s1 & evs1 & -> & Ht1 & Hname & Hif & _).
    simpl in Hname.
    destruct success; cbv beta iota; rewrite emit_run, ret_run; cbv beta iota.
    + destruct Hif as [Hcl Hatt].
      destruct (IH (acc ++ [c'])
                  (mkState (world s1) (trace s1 ++ [ConsoleLog msg])))
        as (r & s' & evs & -> & Ht & Hsub' & Hr).
      exists r, s'. eexists. split; [reflexivity|]. split.
      { rewrite Ht. simpl. rewrite Ht1. unfold s0. simpl.
        rewrite <- !app_assoc. reflexivity. }
      unfold attempts in *. simpl. rewrite !omap_app, Hatt. simpl.
      split; [by apply sublist_skip|].
      destruct r as [connections|e]; [|exact Hr].
      destruct Hr as (new & -> & Hsub & F).
      exists (c' :: new). rewrite <- app_assoc. split; [reflexivity|].
      simpl. rewrite Hname. split; [by apply sublist_skip|by constructor].
    + destruct (IH acc (mkState (world s1) (trace s1 ++ [ConsoleError msg None])))
        as (r & s' & evs & -> & Ht & Hsub' & Hr).
      exists r, s'. eexists. split; [reflexivity|]. split.
      { rewrite Ht. simpl. rewrite Ht1. unfold s0. simpl.
        rewrite <- !app_assoc. reflexivity. }
      unfold attempts in *. simpl. rewrite !omap_app. simpl.
      destruct Hif as [-> | ->]; simpl.
      * split; [by apply sublist_cons|].
        destruct r as [connections|e]; [|exact Hr].
        destruct Hr as (new & -> & Hsub & F). by exists new.
      * split; [by apply sublist_skip|].
        destruct r as [connections|e]; [|exact Hr].
        destruct Hr as (new & -> & Hsub & F). exists new.
        repeat split; try done. by apply sublist_cons.
Qed.

(** X15. [connectToAllServers] throws only when the configuration has no
    [mcpServers]: at once and before anything is done when that is so at
    the start, later only if the file has lost it in the meantime.
    Otherwise it attempts every configured server at most once, in the
    order of the configuration; the connections it returns are, in that
    order, those of servers it attempted, and each has a client. With no
    server configured it attempts nothing, prints two lines and returns no
    connection. *)
Theorem connections_follow_the_configuration {World}
    (loadMcpConfig : World -> McpConfig) (new_URL : string -> Result string)
    (new_Client : string -> Transport -> @Client World)
    (client_connect : string -> Transport -> World -> Result unit * World)
    (s : State) :
  match getServers loadMcpConfig (world s) with
  | None =>
      exists e,
        connectToAllServers loadMcpConfig new_URL new_Client client_connect s =
          (Throws e, s)
  | Some servers =>
      let configured := List.map fst servers in
      exists r s' evs,
        connectToAllServers loadMcpConfig new_URL new_Client client_connect s =
          (r, s') /\
        trace s' = trace s ++ evs /\
        attempts evs `sublist_of` configured /\
        match r with
        | Returns connections =>
            List.map serverName connections `sublist_of` attempts evs /\
            Forall (fun c => is_Some (client c)) connections
        | Throws _ => exists w, getServers loadMcpConfig w = None
        end /\
        (configured = [] ->
         r = Returns [] /\ world s' = world s /\
         evs = [ConsoleError "No servers configured." None;
                ConsoleError configureHint None])
  end.
Proof.
  unfold connectToAllServers.
  destruct (getServers loadMcpConfig (world s)) as [servers|]; [|by eexists].
  cbv zeta. rewrite bind_run. cbn [lift Object_keys].
  destruct (List.map fst servers) as [|name names] eqn:Hconf.
  - cbn [length Nat.eqb]. rewrite !emit_run.
    eexists (Returns []), _, _. split; [reflexivity|]. simpl. rewrite <- app_assoc.
    split; [reflexivity|]. repeat split; try done; try apply sublist_nil_l.
  - cbn [length Nat.eqb]. rewrite emit_run.
    set (s0 := mkState (world s) (trace s ++ _)).
    destruct (connect_loop loadMcpConfig new_URL new_Client client_connect
                (name :: names) [] s0)
      as (r & s' & evs & Hrun & Ht & Hsub' & Hr).
    exists r, s'. eexists. split; [exact Hrun|]. split.
    { rewrite Ht. unfold s0. simpl. rewrite <- app_assoc. reflexivity. }
    unfold attempts in *. simpl. split; [exact Hsub'|]. split; [|done].
    destruct r as [connections|e]; [|exact Hr].
    by destruct Hr as (new & -> & Hsub & F).
Qed.

Lemma connections_follow_the_configuration_witness :
  (exists connections s',
     connectToAllServers twoServers sample_URL sample_Client local_connect start =
       (Returns connections, s') /\
     List.map serverName connections = ["files"] /\
     attempts (trace s') = ["files"; "web"]) /\
  (exists e,
     connectToAllServers bareConfig sample_URL sample_Client local_connect start =
       (Throws e, start)).
Proof.
  split.
  - destruct (connections_follow_the_configuration twoServers sample_URL
                sample_Client local_connect start)
      as (r & s' & evs & Hrun & _).
    pose proof Hrun as Hrun'. vm_compute in Hrun'.
    destruct r as [connections|e]; [|discriminate Hrun'].
    exists connections, s'. split; [exact Hrun|].
    injection Hrun' as <- <-. split; reflexivity.
  - exact (connections_follow_the_configuration bareConfig sample_URL
             sample_Client local_connect start).
Defined.

(** X16. When [checkOpenAIKey] finds no key ([OPENAI_API_KEY] is not set in
    the environment as it is when the check runs, and neither [.env] file
    holds one), the chat session does not start, whatever provider is
    selected and whatever other key is set: after its banner it prints the
    two lines about the OpenAI key, closes the terminal and returns. It
    does nothing else, so it attempts no connection, shows no prompt and
    sends no request. *)
Theorem session_needs_an_openai_key {World}
    (fetch : Request -> World -> Result Response * World)
    (question : string -> World -> string * World)
    (loadMcpConfig : World -> McpConfig) (new_URL : string -> Result string)
    (new_Client : string -> Transport -> @Client World)
    (client_connect : string -> Transport -> World -> Result unit * World)
    (proc : Process) (fuel : nat) (s : State) :
  checkOpenAIKey proc = false ->
  startChatSession fetch question loadMcpConfig new_URL new_Client
    client_connect proc fuel s =
  (Returns (Some tt),
   mkState (world s)
     (trace s ++ banner ++
      [ConsoleLog "OpenAI API key not found. Please set the OPENAI_API_KEY environment variable.";
       ConsoleLog ("You can create a .env file in the current directory or in your home directory with:"
                   +:+ nl +:+ "OPENAI_API_KEY=your_api_key");
       RlClose])).
Proof.
  intros Hkey. unfold startChatSession. rewrite !emit_run, Hkey. cbn [negb].
  rewrite !emit_run. unfold ret. simpl. rewrite <- !app_assoc. reflexivity.
Qed.

(** DeepSeek is selected and its key is set, and the session still asks
    for the OpenAI key and ends. *)
Lemma session_needs_an_openai_key_witness :
  checkOpenAIKey deepseekProc = false /\
  truthy_str (apiKey deepseekProc) = true /\
  exists s',
    startChatSession sampleFetch sampleQuestion twoServers sample_URL
      sample_Client local_connect deepseekProc 3 start = (Returns (Some tt), s') /\
    last (trace s') = Some RlClose /\
    attempts (trace s') = [] /\ prompts (trace s') = [].
Proof.
  split; [reflexivity|]. split; [reflexivity|].
  eexists. split.
  - exact (session_needs_an_openai_key sampleFetch sampleQuestion twoServers
             sample_URL sample_Client local_connect deepseekProc 3 start eq_refl).
  - repeat split.
Defined.

(** X17. [connectToServer] throws exactly when the configuration that it
    reads has no [mcpServers], and then before it has done anything.
    Otherwise it returns, and returns a connection only for the server it
    was asked for (the first configured server when no name, or an empty
    one, is given): the connection bears that name and has a client, and
    one connection attempt was made. When the configuration has no entry
    of that name, or no server is configured, it returns null without any
    attempt. *)
Theorem connectToServer_targets_one_server {World}
    (loadMcpConfig : World -> McpConfig) (new_URL : string -> Result string)
    (new_Client : string -> Transport -> @Client World)
    (client_connect : string -> Transport -> World -> Result unit * World)
    (serverName0 : option string) (s : State) :
  match getServers loadMcpConfig (world s) with
  | None =>
      exists e,
        connectToServer loadMcpConfig new_URL new_Client client_connect
          serverName0 s = (Throws e, s)
  | Some servers =>
      let target :=
        if truthy_str serverName0 then serverName0 else fst <$> head servers in
      exists r s' evs,
        connectToServer loadMcpConfig new_URL new_Client client_connect
          serverName0 s = (Returns r, s') /\
        trace s' = trace s ++ evs /\
        match target with
        | None => r = None /\ attempts evs = []
        | Some name =>
            (assoc name servers = None -> r = None /\ attempts evs = []) /\
            (forall c, r = Some c ->
                       serverName c = name /\ is_Some (client c) /\
                       attempts evs = [name])
        end
  end.
Proof.
  unfold connectToServer, getFirstServer, getServer.
  destruct (getServers loadMcpConfig (world s)) as [servers|] eqn:Hservers.
  2:{ destruct (truthy_str serverName0); by eexists. }
  assert (forall name (s0 : State),
            world s0 = world s ->
            exists r s' evs,
              ('(success, msg, connection) ←
                 connect loadMcpConfig new_URL new_Client client_connect
                   (mkConnection None false name);
               if success : bool
               then emit (ConsoleLog msg) ;; ret (Some connection)
               else emit (ConsoleError msg None) ;; ret None) s0 =
                (Returns r, s') /\
              trace s' = trace s0 ++ evs /\
              (assoc name servers = None -> r = None /\ attempts evs = []) /\
              (forall c, r = Some c ->
                         serverName c = name /\ is_Some (client c) /\
                         attempts evs = [name])) as Hto.
  { intros name s0 Hw. rewrite bind_run.
    pose proof (connect_cases loadMcpConfig new_URL new_Client client_connect
                  (mkConnection None false name) s0) as Hc.
    rewrite Hw, Hservers in Hc.
    destruct Hc
      as (success & msg & c' & s1 & evs1 & -> & Ht1 & Hname & Hif & Hmember & Hsome).
    simpl in Hname, Hmember, Hsome.
    assert (assoc name servers = None -> success = false /\ evs1 = [] /\
            c' = mkConnection None false name) as Hnone.
    { intros Hown. unfold member in Hmember, Hsome. rewrite Hown in Hmember, Hsome.
      destruct (existsb _ _).
      - destruct (Hsome inherited eq_refl) as [Hneither _].
        exact (Hneither eq_refl eq_refl).
      - exact (Hmember eq_refl). }
    clear Hmember Hsome.
    destruct success; cbv beta iota; rewrite emit_run.
    - destruct Hif as [Hcl Hatt]. eexists _, _, (evs1 ++ [_]).
      split; [reflexivity|]. simpl. rewrite Ht1, <- app_assoc.
      split; [reflexivity|]. split.
      + intros H. by destruct (Hnone H).
      + intros c [= <-]. unfold attempts in *. rewrite omap_app, Hatt.
        by rewrite app_nil_r.
    - eexists _, _, (evs1 ++ [_]). split; [reflexivity|]. simpl.
      rewrite Ht1, <- app_assoc. split; [reflexivity|]. split; [|done].
      intros H. destruct (Hnone H) as (_ & -> & _). done. }
  cbv zeta. destruct (truthy_str serverName0) eqn:Htruthy.
  - destruct serverName0 as [name|]; [|done]. cbn [from_option id].
    destruct (member name servers) eqn:Hcfg.
    + destruct (Hto name s eq_refl) as (r & s' & evs & Hrun & Ht & Hnone & Hsome).
      exists r, s', evs. split; [exact Hrun|]. split; [exact Ht|].
      split; [exact Hnone|exact Hsome].
    + rewrite !emit_run. eexists None, _, [_; _]. split; [reflexivity|].
      simpl. rewrite <- app_assoc. split; [reflexivity|]. split; done.
  - cbn [Object_keys mbind option_bind].
    destruct (head servers) as [[name cfg]|] eqn:Hfirst;
      cbn [fmap option_fmap option_map fst].
    + rewrite emit_run.
      destruct (Hto name (mkState (world s)
                            (trace s ++ [ConsoleLog ("Using server: " +:+ name)]))
                  eq_refl)
        as (r & s' & evs & Hrun & Ht & Hnone & Hsome).
      exists r, s', (ConsoleLog ("Using server: " +:+ name) :: evs).
      split; [exact Hrun|]. split; [rewrite Ht; simpl; by rewrite <- app_assoc|].
      split; [exact Hnone|exact Hsome].
    + rewrite !emit_run. eexists None, _, [_; _]. split; [reflexivity|].
      simpl. rewrite <- app_assoc. split; [reflexivity|]. done.
Qed.

Lemma connectToServer_targets_one_server_witness :
  (exists c s',
     connectToServer twoServers sample_URL sample_Client local_connect None start =
       (Returns (Some c), s') /\
     serverName c = "files" /\ attempts (trace s') = ["files"]) /\
  (exists e,
     connectToServer bareConfig sample_URL sample_Client local_connect
       (Some "files") start = (Throws e, start)).
Proof.
  split.
  - destruct (connectToServer_targets_one_server twoServers sample_URL
                sample_Client local_connect None start)
      as (r & s' & evs & Hrun & Ht & _ & Hsome).
    pose proof Hrun as Hrun'. vm_compute in Hrun'. injection Hrun' as <- Hs'.
    eexists _, s'. split; [exact Hrun|].
    destruct (Hsome _ eq_refl) as (Hn & _ & Hatt).
    split; [exact Hn|]. rewrite Ht. exact Hatt.
  - exact (connectToServer_targets_one_server bareConfig sample_URL
             sample_Client local_connect (Some "files") start).
Defined.

(** *** The text of an error payload *)

Lemma string_body_u a b x y r' u :
  JSON.hex4 a b x y = Some u ->
  JSON.is_high u = false ->
  JSON.string_body (String "\" (String "u" (String a (String b (String x (String y r')))))) =
  match JSON.string_body r' with
  | Some (t, rest) => Some (JSON.utf8 u +:+ t, rest)
  | None => None
  end.
Proof.
  intros Hhex Hhigh. simpl. rewrite Hhex, Hhigh. cbn [andb].
  generalize (JSON.string_body r'). intros B.
  repeat match goal with
         | |- context [match ?v with _ => _ end] => is_var v; destruct v
         end; try reflexivity.
  all: match goal with |- context [JSON.hex4 ?p ?q ?r ?t] => destruct (JSON.hex4 p q r t) end; reflexivity.
Qed.

Lemma append_cons (c : ascii) (a b : string) :
  String c a +:+ b = String c (a +:+ b).
Proof. reflexivity. Qed.

Lemma append_nil (b : string) : EmptyString +:+ b = b.
Proof. reflexivity. Qed.

Lemma append_assoc (a b c : string) : (a +:+ b) +:+ c = a +:+ (b +:+ c).
Proof.
  induction a as [|ch a IH]; [reflexivity|].
  rewrite !append_cons. f_equal. exact IH.
Qed.

(** One escaped character reads back as that character. *)
Lemma escape_char_parses c X :
  JSON.string_body (JSON.escape_char c +:+ X) =
  match JSON.string_body X with
  | Some (t, rest) => Some (String c t, rest)
  | None => None
  end.
Proof.
  destruct c as [[] [] [] [] [] [] [] []];
    vm_compute (JSON.escape_char _);
    rewrite ?append_cons, append_nil;
    first [ by (cbn; destruct (JSON.string_body X) as [[t rest]|])
          | (erewrite string_body_u by reflexivity;
             by destruct (JSON.string_body X) as [[t rest]|]) ].
Qed.

Lemma string_body_escape s rest :
  JSON.string_body (JSON.escape s +:+ String dquote rest) = Some (s, rest).
Proof.
  induction s as [|c s IH]; [reflexivity|].
  cbn [JSON.escape]. rewrite append_assoc, escape_char_parses, IH. reflexivity.
Qed.

Lemma errorPayload_text msg :
  errorPayload msg =
  String "{" (String dquote (JSON.escape "error" +:+ String dquote
    (String ":" (String dquote (JSON.escape msg +:+ String dquote "}"))))).
Proof.
  unfold errorPayload. cbn [JSON.stringify List.map JSON.join].
  unfold JSON.quote, quoted.
  repeat (rewrite append_cons || rewrite append_nil || rewrite append_assoc).
  reflexivity.
Qed.

Lemma value_object f X :
  JSON.value (S f) (String "{" (String dquote X)) =
  JSON.members f (String dquote X) [].
Proof. reflexivity. Qed.

Lemma value_string f X :
  JSON.value (S f) (String dquote X) =
  match JSON.string_body X with
  | Some (t, rest) => Some (JStr t, rest)
  | None => None
  end.
Proof. reflexivity. Qed.

Lemma members_entry f X acc :
  JSON.members (S f) (String dquote X) acc =
  match JSON.string_body X with
  | Some (k, rest) =>
      match JSON.skip_ws rest with
      | String ":" rest' =>
          match JSON.value f rest' with
          | Some (v, rest'') =>
              let acc' := JSON.define_property k v acc in
              match JSON.skip_ws rest'' with
              | String "}" out => Some (JObj acc', out)
              | String "," more => JSON.members f more acc'
              | _ => None
              end
          | None => None
          end
      | _ => None
      end
  | None => None
  end.
Proof. reflexivity. Qed.

Lemma errorPayload_value f msg :
  JSON.value (S (S (S f))) (errorPayload msg) =
  Some (JObj [("error", JStr msg)], EmptyString).
Proof.
  rewrite errorPayload_text, value_object, members_entry, string_body_escape.
  change (JSON.skip_ws (String ":" ?X)) with (String ":" X).
  cbv iota.
  rewrite value_string, string_body_escape.
  reflexivity.
Qed.

Lemma errorPayload_fuel msg :
  exists f, (2 * String.length (errorPayload msg) + 2)%nat = S (S (S f)).
Proof.
  rewrite errorPayload_text. cbn [String.length].
  eexists. rewrite Nat.mul_succ_r. rewrite (Nat.add_comm _ 2). reflexivity.
Qed.

Lemma errorPayload_parse msg :
  JSON.parse (errorPayload msg) = Some (JObj [("error", JStr msg)]).
Proof.
  unfold JSON.parse. destruct (errorPayload_fuel msg) as [f ->].
  rewrite errorPayload_value. reflexivity.
Qed.

(** X18. The tool message appended for a failed tool call is well-formed
    JSON whatever the text of the error: it is one message under the id of
    the call, put after the messages so far, and its content parses back to
    an object whose only member, [error], is the message of the error with
    every character intact. *)
Theorem failed_call_message_reads_back {World} (toolCall : ToolCall)
    updatedMessages result (error : JSError) (s : @State World) :
  exists content summary s',
    toolCallFailed toolCall (updatedMessages, result) error s =
      (Returns (updatedMessages ++ [ToolMessage (call_id toolCall) content],
                summary), s') /\
    JSON.parse content = Some (JObj [("error", JStr (message error))]).
Proof.
  unfold toolCallFailed. rewrite emit_run.
  eexists _, _, _. split; [reflexivity|].
  apply errorPayload_parse.
Qed.

(** X19. Listing the tools or the resources of a connection never throws:
    each returns, and the answer is a list exactly when the connection has
    a client whose server answered the request; without a client, and on
    every failure of the request, the answer is null. *)
Theorem listings_never_throw {World} (c : @McpConnection World) (s : State) :
  exists tools resources s1 s2,
    listTools c s = (Returns tools, s1) /\
    listResources c s = (Returns resources, s2) /\
    (forall l, tools = Some l <->
       exists cl answer w,
         client c = Some cl /\
         client_listTools cl (world s) = (Returns answer, w) /\
         l = List.map toolData answer) /\
    (forall l, resources = Some l <->
       exists cl w,
         client c = Some cl /\
         client_listResources cl (world s) = (Returns l, w)).
Proof.
  unfold listTools, listResources.
  destruct (client c) as [cl|] eqn:Hc.
  - unfold try_catch. rewrite !emit_run, !bind_run. unfold await.
    cbn [world trace].
    destruct (client_listTools cl (world s)) as [[answer|e] w] eqn:Ht;
      destruct (client_listResources cl (world s)) as [[res|e'] w'] eqn:Hr;
      cbn [fst snd]; unfold ret;
      try destruct (method_not_found e);
      try destruct (method_not_found e');
      rewrite ?emit_run;
      eexists _, _, _, _; (split; [reflexivity|]); (split; [reflexivity|]);
      split; intros l; split;
      try (intros [= <-]; eauto 10);
      try (intros (cl' & answer' & w'' & [= <-] & Hans & ->));
      try (intros (cl' & w'' & [= <-] & Hans));
      congruence.
  - eexists _, _, _, _. split; [reflexivity|]. split; [reflexivity|].
    split; intros l; split; try discriminate.
    + intros (? & ? & ? & ? & _); discriminate.
    + intros (? & ? & ? & _); discriminate.
Qed.
